(** * git-manager: the session manager of [main-pt-br.py]

    A shallow embedding of the interactive Git manager.  Python text is
    modelled by [string] (the UTF-8 bytes of the text; messages with emoji
    are kept verbatim), so case mapping, white space and digits are those
    of the ASCII range, which is all the program's own patterns use.  The
    global session ([current_repo], [config]) and the outside world (the
    git processes spawned, the console, the keyboard, the configuration
    file) form an explicit [world] threaded through a state-and-exception
    monad.  The git binary itself is a parameter of the development: a
    function from the commands spawned so far, the working directory and
    the argument vector to what [subprocess.run] does with them.  So is
    the regular-expression engine behind [re.findall]. *)

From stdpp Require Import gmap strings list fin_maps pretty.
From Stdlib Require Import ZArith Ascii.

Local Open Scope string_scope.
Local Open Scope list_scope.
Local Open Scope nat_scope.

(** ** Python text primitives *)

Module Py.

Definition newline : ascii := ascii_of_nat 10.

(** A double quote, for messages that print one. *)
Definition dquote : string := String (ascii_of_nat 34) EmptyString.

(** [str.isspace] on one character (ASCII range: TAB..CR, FS..US, SPACE). *)
Definition isspace (c : ascii) : bool :=
  let n := nat_of_ascii c in
  ((9 <=? n) && (n <=? 13) || (28 <=? n) && (n <=? 32))%nat.

Fixpoint lstrip (s : string) : string :=
  match s with
  | EmptyString => EmptyString
  | String c s' => if isspace c then lstrip s' else s
  end.

Fixpoint rstrip (s : string) : string :=
  match s with
  | EmptyString => EmptyString
  | String c s' =>
      match rstrip s' with
      | EmptyString => if isspace c then EmptyString else String c EmptyString
      | r => String c r
      end
  end.

(** [s.strip()] *)
Definition strip (s : string) : string := rstrip (lstrip s).

(** [s.split(sep)] for a one-character separator: never an empty list. *)
Fixpoint split (sep : ascii) (s : string) : list string :=
  match s with
  | EmptyString => [EmptyString]
  | String c s' =>
      if Ascii.eqb c sep then EmptyString :: split sep s'
      else match split sep s' with
           | h :: t => String c h :: t
           | [] => [String c EmptyString]
           end
  end.

(** [s[:n]] *)
Fixpoint take (n : nat) (s : string) : string :=
  match n, s with
  | S n', String c s' => String c (take n' s')
  | _, _ => EmptyString
  end.

(** [s[n:]] *)
Fixpoint drop (n : nat) (s : string) : string :=
  match n, s with
  | S n', String _ s' => drop n' s'
  | _, _ => s
  end.

(** [c in s] for a one-character [c]. *)
Fixpoint has_char (c : ascii) (s : string) : bool :=
  match s with
  | EmptyString => false
  | String d s' => Ascii.eqb c d || has_char c s'
  end.

(** [s.startswith(p)] *)
Fixpoint startswith (p s : string) : bool :=
  match p, s with
  | EmptyString, _ => true
  | String a p', String b s' => Ascii.eqb a b && startswith p' s'
  | String _ _, EmptyString => false
  end.

(** [p in s] for strings. *)
Fixpoint contains (p s : string) : bool :=
  startswith p s ||
  match s with
  | EmptyString => false
  | String _ s' => contains p s'
  end.

Definition lower_char (c : ascii) : ascii :=
  let n := nat_of_ascii c in
  if ((65 <=? n) && (n <=? 90))%nat then ascii_of_nat (n + 32) else c.

(** [s.lower()] *)
Fixpoint lower (s : string) : string :=
  match s with
  | EmptyString => EmptyString
  | String c s' => String (lower_char c) (lower s')
  end.

Definition upper_char (c : ascii) : ascii :=
  let n := nat_of_ascii c in
  if ((97 <=? n) && (n <=? 122))%nat then ascii_of_nat (n - 32) else c.

Definition isalpha (c : ascii) : bool :=
  let n := nat_of_ascii c in
  ((65 <=? n) && (n <=? 90) || (97 <=? n) && (n <=? 122))%nat.

(** [s.title()]: a letter that follows a non-letter is upper-cased, any
    other letter lower-cased. *)
Fixpoint title_from (prev_alpha : bool) (s : string) : string :=
  match s with
  | EmptyString => EmptyString
  | String c s' =>
      String (if prev_alpha then lower_char c else upper_char c)
             (title_from (isalpha c) s')
  end.

Definition title (s : string) : string := title_from false s.

(** [sep.join(l)] *)
Fixpoint join (sep : string) (l : list string) : string :=
  match l with
  | [] => EmptyString
  | [x] => x
  | x :: l' => x +:+ sep +:+ join sep l'
  end.

Definition is_digit_char (c : ascii) : bool :=
  let n := nat_of_ascii c in ((48 <=? n) && (n <=? 57))%nat.

Fixpoint all_digits (s : string) : bool :=
  match s with
  | EmptyString => true
  | String c s' => is_digit_char c && all_digits s'
  end.

(** [s.isdigit()] for ASCII text *)
Definition isdigit (s : string) : bool :=
  match s with
  | EmptyString => false
  | _ => all_digits s
  end.

(** Every character is in the ASCII range. *)
Fixpoint isascii (s : string) : bool :=
  match s with
  | EmptyString => true
  | String c s' => (nat_of_ascii c <? 128)%nat && isascii s'
  end.

(** The white space [int] skips around a number in ASCII text (C's
    [isspace]: TAB..CR and SPACE; not FS..US, which [str.strip] removes). *)
Definition is_int_space (c : ascii) : bool :=
  let n := nat_of_ascii c in ((9 <=? n) && (n <=? 13) || (n =? 32))%nat.

Fixpoint int_lstrip (s : string) : string :=
  match s with
  | EmptyString => EmptyString
  | String c s' => if is_int_space c then int_lstrip s' else s
  end.

Fixpoint int_rstrip (s : string) : string :=
  match s with
  | EmptyString => EmptyString
  | String c s' =>
      match int_rstrip s' with
      | EmptyString => if is_int_space c then EmptyString else String c EmptyString
      | r => String c r
      end
  end.

(** Decimal digits with single underscores between them, read from the
    left; [after_digit] tells whether the character before was a digit. *)
Fixpoint int_digits (acc : Z) (after_digit : bool) (s : string) : option Z :=
  match s with
  | EmptyString => if after_digit then Some acc else None
  | String c s' =>
      if is_digit_char c then
        int_digits (10 * acc + Z.of_nat (nat_of_ascii c - 48)) true s'
      else if Ascii.eqb c "_" && after_digit then int_digits acc false s'
      else None
  end.

(** [int(s)] for ASCII text: white space around, an optional sign, then
    the digits; [None] stands for [ValueError]. *)
Definition int_of_ascii (s : string) : option Z :=
  match int_rstrip (int_lstrip s) with
  | String c t =>
      if Ascii.eqb c "+" then int_digits 0 false t
      else if Ascii.eqb c "-" then Z.opp <$> int_digits 0 false t
      else int_digits 0 false (String c t)
  | EmptyString => None
  end.

(** Truth value of a string: non-empty. *)
Definition nonempty (s : string) : bool :=
  match s with EmptyString => false | _ => true end.

(** [s * n] *)
Fixpoint repeat (s : string) (n : nat) : string :=
  match n with
  | O => EmptyString
  | S n' => s +:+ repeat s n'
  end.

(** [enumerate(l, start)] *)
Fixpoint enumerate {A} (start : nat) (l : list A) : list (nat * A) :=
  match l with
  | [] => []
  | x :: l' => (start, x) :: enumerate (S start) l'
  end.

End Py.

(** ** What is left to the interpreter

    [int] and [str.isdigit] consult the Unicode tables of the interpreter
    for text outside ASCII, and recent interpreters make [int] refuse a
    number of too many digits: more than 4300 unless set otherwise, and
    never fewer than 640.  Neither is computed here: for text outside
    ASCII, or longer than 640 characters, the answers of the interpreter
    are taken as they come. *)
Record interpreter := mkInterpreter {
  int_beyond : string -> option Z;          (* int(s); None: ValueError *)
  isdigit_beyond : string -> bool           (* s.isdigit() *)
}.

(** [int(s)]; [None] stands for [ValueError]. *)
Definition py_int (py : interpreter) (s : string) : option Z :=
  if Py.isascii s && (String.length s <=? 640)%nat then Py.int_of_ascii s
  else int_beyond py s.

(** [s.isdigit()] *)
Definition py_isdigit (py : interpreter) (s : string) : bool :=
  if Py.isascii s then Py.isdigit s else isdigit_beyond py s.

(** ** Values, processes and the world *)

(** The values the configuration dictionary holds. *)
Inductive pyval :=
  | PyNone
  | PyBool (b : bool)
  | PyStr (s : string).

(** Truth value of a configuration value ([if v:]). *)
Definition pyval_truthy (v : pyval) : bool :=
  match v with
  | PyNone => false
  | PyBool b => b
  | PyStr s => Py.nonempty s
  end.

(** [str(v)], as an f-string renders it. *)
Definition pyval_str (v : pyval) : string :=
  match v with
  | PyNone => "None"
  | PyBool true => "True"
  | PyBool false => "False"
  | PyStr s => s
  end.

(** [subprocess.CompletedProcess] *)
Record CompletedProcess := mkProc {
  returncode : Z;
  stdout : string;
  stderr : string
}.

(** What [subprocess.run(..., timeout=30)] does: it completes, it raises
    [TimeoutExpired], or it raises something else (binary missing,
    permission denied, ...) with a message. *)
Inductive spawn_outcome :=
  | Completed (r : CompletedProcess)
  | TimeoutExpired
  | SpawnError (msg : string).

(** One spawned process: working directory and argument vector. *)
Definition spawn := (string * list string)%type.

(** What [run_git] returns: [None], the process object, or a boolean. *)
Inductive git_ret :=
  | RNone
  | RResult (r : CompletedProcess)
  | RBool (b : bool).

(** Truth value of a [run_git] return ([if result:]); a
    [CompletedProcess] defines neither [__bool__] nor [__len__], so it is
    always true. *)
Definition truthy (r : git_ret) : bool :=
  match r with
  | RNone => false
  | RResult _ => true
  | RBool b => b
  end.

(** The configuration file on disk: missing, a JSON object as
    [save_config] writes it, or something [json.load] or the [update] that
    follows it rejects with [error] (a file cut short, other JSON). *)
Inductive file :=
  | Absent
  | Json (content : gmap string pyval)
  | Unreadable (error : string).

(** What can go wrong when the configuration is written. *)
Inductive fault :=
  | MakedirsFails (msg : string)            (* os.makedirs raises msg *)
  | OpenFails (msg : string)                (* open(config_file, 'w') raises msg *)
  | WriteFails (msg why : string).          (* json.dump or the closing flush
                                               raises msg, after open has
                                               emptied the file; what is left
                                               of it is rejected with [why] *)

Record storage := mkStorage {
  folder_exists : bool;                     (* os.path.exists(repos_folder) *)
  saved : file;                             (* the configuration file *)
  write_fault : option fault                (* what goes wrong, if anything *)
}.

Record world := mkWorld {
  current_repo : option string;             (* global current_repo *)
  config : gmap string pyval;               (* global config *)
  disk : storage;
  spawned : list spawn;                     (* processes started, oldest first *)
  console : list string;                    (* lines printed, oldest first *)
  stdin : list string                       (* lines still to be typed *)
}.

Definition set_current_repo (r : option string) (w : world) : world :=
  mkWorld r (config w) (disk w) (spawned w) (console w) (stdin w).
Definition set_config_dict (c : gmap string pyval) (w : world) : world :=
  mkWorld (current_repo w) c (disk w) (spawned w) (console w) (stdin w).
Definition set_disk (d : storage) (w : world) : world :=
  mkWorld (current_repo w) (config w) d (spawned w) (console w) (stdin w).
Definition add_spawn (s : spawn) (w : world) : world :=
  mkWorld (current_repo w) (config w) (disk w) (spawned w ++ [s]) (console w) (stdin w).
Definition add_line (l : string) (w : world) : world :=
  mkWorld (current_repo w) (config w) (disk w) (spawned w) (console w ++ [l]) (stdin w).
Definition set_stdin (i : list string) (w : world) : world :=
  mkWorld (current_repo w) (config w) (disk w) (spawned w) (console w) i.

(** The initial [config] dictionary of the module. *)
Definition default_config : gmap string pyval :=
  <["github_token" := PyNone]>
  (<["default_branch" := PyStr "main"]>
  (<["auto_fetch" := PyBool true]>
  (<["editor" := PyStr "nano"]> ∅))).

(** ** The monad: state over [world], with Python exceptions *)

Inductive exn :=
  | EOFError                                (* input() at end of input *)
  | OSError (msg : string).                 (* a system call that failed *)

Inductive result (A : Type) :=
  | Ok (a : A)
  | Raise (e : exn).
Arguments Ok {A} a.
Arguments Raise {A} e.

Definition M (A : Type) : Type := world -> result A * world.

Definition ret {A} (a : A) : M A := fun w => (Ok a, w).

Definition bind {A B} (m : M A) (k : A -> M B) : M B :=
  fun w => match m w with
           | (Ok a, w') => k a w'
           | (Raise e, w') => (Raise e, w')
           end.

#[global] Instance M_ret : MRet M := @ret.
#[global] Instance M_bind : MBind M := fun A B k m => bind m k.

Definition get : M world := fun w => (Ok w, w).
Definition raise {A} (e : exn) : M A := fun w => (Raise e, w).
Definition modify (f : world -> world) : M unit := fun w => (Ok tt, f w).

(** [print(s)] *)
Definition print (s : string) : M unit := modify (add_line s).

(** [input(prompt)]: shows the prompt and reads one line; [EOFError] when
    nothing is left to read. *)
Definition input (prompt : string) : M string :=
  fun w => match stdin w with
           | [] => (Raise EOFError, add_line prompt w)
           | l :: rest => (Ok l, set_stdin rest (add_line prompt w))
           end.

(** [try: m  except: h] with a bare [except]. *)
Definition try_except {A} (m : M A) (h : M A) : M A :=
  fun w => match m w with
           | (Ok a, w') => (Ok a, w')
           | (Raise _, w') => h w'
           end.

(** [for x in l: body x] *)
Fixpoint for_each {A} (l : list A) (body : A -> M unit) : M unit :=
  match l with
  | [] => ret tt
  | x :: l' => body x ;; for_each l' body
  end.

(** [if c: m] with no [else]. *)
Definition when (c : bool) (m : M unit) : M unit := if c then m else ret tt.

(** ** Paths ([pathlib.Path] on POSIX) *)

Module PyPath.

(** The components of a path: the text between slashes, without the
    empty ones and the single dots. *)
Definition parts (p : string) : list string :=
  List.filter (fun c => Py.nonempty c && negb (String.eqb c "."))
              (Py.split "/"%char p).

(** [Path(p).name]: the last component, or the empty string. *)
Definition name (p : string) : string := List.last (parts p) "".

(** [s.rfind(c)]; [None] stands for -1. *)
Fixpoint rfind (c : ascii) (s : string) : option nat :=
  match s with
  | EmptyString => None
  | String d s' =>
      match rfind c s' with
      | Some i => Some (S i)
      | None => if Ascii.eqb d c then Some 0%nat else None
      end
  end.

(** [Path(p).suffix]: from the last dot of the name on, when that dot is
    neither its first nor its last character. *)
Definition suffix (p : string) : string :=
  let n := name p in
  match rfind "."%char n with
  | Some i =>
      if ((0 <? i) && (i <? String.length n - 1))%nat then Py.drop i n else ""
  | None => ""
  end.

End PyPath.

(** ** [defaultdict], keys in insertion order *)

Definition dd_get {V} (d : list (string * V)) (k : string) (default : V) : V :=
  match List.find (fun kv => String.eqb (fst kv) k) d with
  | Some kv => snd kv
  | None => default
  end.

(** [d[k] = f(d[k])], the key being created with [default] when missing. *)
Fixpoint dd_update {V} (f : V -> V) (default : V) (k : string)
    (d : list (string * V)) : list (string * V) :=
  match d with
  | [] => [(k, f default)]
  | (k', v) :: d' =>
      if String.eqb k' k then (k', f v) :: d'
      else (k', v) :: dd_update f default k d'
  end.

(** ** Change sets *)

(** The dictionary [analyze_changes] returns. *)
Record changes_info := mkChanges {
  added : list string;
  modified : list string;
  deleted : list string;
  renamed : list string;
  total : nat
}.

(** One turn of the loop of [analyze_changes] over the status lines. *)
Definition categorize_line (acc : changes_info) (line : string) : changes_info :=
  let status := Py.take 2 line in
  let filename := Py.drop 3 line in
  if Py.has_char "A" status then
    mkChanges (added acc ++ [filename]) (modified acc) (deleted acc) (renamed acc) (total acc)
  else if Py.has_char "M" status then
    mkChanges (added acc) (modified acc ++ [filename]) (deleted acc) (renamed acc) (total acc)
  else if Py.has_char "D" status then
    mkChanges (added acc) (modified acc) (deleted acc ++ [filename]) (renamed acc) (total acc)
  else if Py.has_char "R" status then
    mkChanges (added acc) (modified acc) (deleted acc) (renamed acc ++ [filename]) (total acc)
  else acc.

(** The loop, then the dictionary with [total = len(changes)]. *)
Definition categorize (changes : list string) : changes_info :=
  let acc := foldl categorize_line (mkChanges [] [] [] [] 0) changes in
  mkChanges (added acc) (modified acc) (deleted acc) (renamed acc) (length changes).

(** ** File categories *)

Definition member (x : string) (l : list string) : bool :=
  existsb (String.eqb x) l.

Definition category_of_ext (ext : string) : string :=
  if member ext [".py"; ".js"; ".ts"; ".java"; ".cpp"; ".c"; ".go"; ".rs"] then "code"
  else if member ext [".css"; ".scss"; ".less"; ".html"; ".vue"; ".jsx"; ".tsx"] then "frontend"
  else if member ext [".md"; ".txt"; ".rst"] then "docs"
  else if member ext [".json"; ".yaml"; ".yml"; ".xml"; ".toml"] then "config"
  else if member ext [".sql"] then "database"
  else if member ext [".png"; ".jpg"; ".jpeg"; ".gif"; ".svg"] then "images"
  else "other".

Definition ext_stats := (list (string * nat) * list (string * list string))%type.

(** One turn of the loop of [get_file_extension_stats]. *)
Definition ext_stats_step (acc : ext_stats) (file : string) : ext_stats :=
  let ext := Py.lower (PyPath.suffix file) in
  (dd_update S 0%nat ext (fst acc),
   dd_update (fun l => l ++ [file]) [] (category_of_ext ext) (snd acc)).

Definition get_file_extension_stats (files : list string) : ext_stats :=
  foldl ext_stats_step ([], []) files.

(** ** Diff patterns *)

(** The regular expressions of [analyze_diff_content], by category. *)
Definition patterns_table : list (string * list string) :=
  [ ("bug_fixes",
     ["\bfix\b"; "\bbug\b"; "\berror\b"; "\bissue\b";
      "\.catch\("; "try\s*{"; "except:"; "throw\s+new";
      "console\.error"; "logger\.error"]);
    ("features",
     ["\badd\b"; "\bnew\b"; "\bimplement\b"; "\bcreate\b";
      "function\s+\w+"; "def\s+\w+"; "class\s+\w+";
      "export\s+"; "import\s+"]);
    ("refactoring",
     ["\brefactor\b"; "\bclean\b"; "\boptimize\b";
      "rename"; "move"; "extract"]);
    ("tests",
     ["\btest\b"; "\bspec\b"; "describe\("; "it\(";
      "assert"; "expect\("; "@test"]);
    ("docs",
     ["README"; "\.md"; "documentation"; "comment";
      "#\s"; "\/\*\*"; Py.dquote +:+ Py.dquote +:+ Py.dquote]);
    ("style",
     ["format"; "indent"; "whitespace"; "style";
      "\.css"; "\.scss"; "color:"; "font-"]) ].

(** ** Suggestions *)

(** [patterns[k] > n], false when the key is missing. *)
Definition score_above (patterns : gmap string nat) (k : string) (n : nat) : bool :=
  match patterns !! k with
  | Some c => (n <? c)%nat
  | None => false
  end.

(** The generic suggestion, chosen by the number of status lines. *)
Definition volume_suggestion (ci : changes_info) (all_files : list string) : string :=
  if (total ci =? 1)%nat then
    "📝 Update: Atualiza " +:+ PyPath.name (List.hd "arquivo" all_files)
  else if (total ci <=? 3)%nat then
    "🔄 Update: Pequenas atualizações (" +:+ pretty (total ci) +:+ " arquivos)"
  else
    "🚀 Major: Grandes mudanças (" +:+ pretty (total ci) +:+ " arquivos)".

(** The list [suggestions] of [generate_commit_suggestions] once every
    rule has run, before duplicates are removed. *)
Definition assemble_suggestions (ci : changes_info) (all_files : list string)
    (categories : list (string * list string)) (patterns : gmap string nat)
    : list string :=
  (if score_above patterns "bug_fixes" 2 then
     ["🐛 Fix: Corrige bugs encontrados"; "🔧 Bugfix: Resolve problemas identificados"]
   else []) ++
  (if score_above patterns "features" 3 then
     ["✨ Feat: Adiciona nova funcionalidade"; "🚀 Feature: Implementa nova feature"]
   else []) ++
  (if score_above patterns "refactoring" 1 then
     ["♻️ Refactor: Reestrutura código"; "🔨 Refactor: Melhora estrutura do código"]
   else []) ++
  (if score_above patterns "tests" 2 then
     ["✅ Test: Adiciona/atualiza testes"; "🧪 Tests: Melhora cobertura de testes"]
   else []) ++
  (if score_above patterns "docs" 1 then
     ["📝 Docs: Atualiza documentação"; "📚 Documentation: Melhora docs do projeto"]
   else []) ++
  (if score_above patterns "style" 2 then
     ["💄 Style: Ajustes de formatação e estilo"; "🎨 UI: Melhorias visuais"]
   else []) ++
  (if (0 <? length (dd_get categories "config" []))%nat then
     ["⚙️ Config: Atualiza configurações"]
   else []) ++
  (if (0 <? length (dd_get categories "database" []))%nat then
     ["🗃️ Database: Atualiza esquemas/queries"]
   else []) ++
  (if (length (dd_get categories "code" []) <=? length (dd_get categories "frontend" []))%nat
      && (0 <? length (dd_get categories "frontend" []))%nat then
     ["💻 UI: Atualiza interface do usuário"; "🌐 Frontend: Melhorias no frontend"]
   else []) ++
  (if (length (modified ci) + length (deleted ci) <? length (added ci))%nat then
     ["➕ Add: Adiciona " +:+ pretty (length (added ci)) +:+ " novos arquivos"]
   else []) ++
  (if (0 <? length (deleted ci))%nat then
     ["🗑️ Remove: Remove " +:+ pretty (length (deleted ci)) +:+ " arquivos"]
   else []) ++
  (if (0 <? length (renamed ci))%nat then
     ["🚚 Rename: Reorganiza " +:+ pretty (length (renamed ci)) +:+ " arquivos"]
   else []) ++
  [volume_suggestion ci all_files].

(** The loop that removes duplicates and keeps the order: [seen] is the
    set of strings met so far. *)
Fixpoint unique_from (seen : gset string) (suggestions : list string) : list string :=
  match suggestions with
  | [] => []
  | s :: rest =>
      if decide (s ∈ seen) then unique_from seen rest
      else s :: unique_from ({[s]} ∪ seen) rest
  end.

Definition unique_suggestions (suggestions : list string) : list string :=
  unique_from ∅ suggestions.

(** The closing lines of [generate_commit_suggestions]: duplicates are
    removed, then [unique_suggestions[:8]] is returned. *)
Definition finish_suggestions (suggestions : list string) : list string :=
  take 8 (unique_suggestions suggestions).


Section Manager.

(** The git binary: what [subprocess.run(["git"] + args, cwd=repo, ...)]
    does, given the processes the session has spawned before. *)
Variable git : list spawn -> string -> list string -> spawn_outcome.

(** [len(re.findall(pattern, text, re.IGNORECASE))] *)
Variable findall_count : string -> string -> nat.

(** The interpreter's [int] and [str.isdigit] beyond ASCII. *)
Variable py : interpreter.

(** *** [run_git] *)

Definition run_git (args : list string) (show_output return_output : bool)
  : M git_ret :=
  w ← get;
  match current_repo w with
  | None =>
      print "❌ Nenhum repositório selecionado. Use 'cd <repo>' ou 'clone <url>'" ;;
      ret RNone
  | Some repo =>
      modify (add_spawn (repo, "git" :: args)) ;;
      match git (spawned w) repo ("git" :: args) with
      | Completed r =>
          if return_output then ret (RResult r)
          else
            when show_output
              (when (Py.nonempty (stdout r)) (print (Py.strip (stdout r))) ;;
               when (Py.nonempty (stderr r))
                 (print ("⚠️ " +:+ Py.strip (stderr r)))) ;;
            ret (RBool (returncode r =? 0)%Z)
      | TimeoutExpired =>
          print "⏱️ Comando git expirou (timeout 30s)" ;;
          ret (RBool false)
      | SpawnError msg =>
          print ("❌ Erro ao executar git: " +:+ msg) ;;
          ret (RBool false)
      end
  end.

(** *** [analyze_changes] *)

Definition analyze_changes : M (option changes_info) :=
  w ← get;
  match current_repo w with
  | None => print "❌ Nenhum repositório selecionado." ;; mret None
  | Some _ =>
      result ← run_git ["status"; "--porcelain"] false true;
      match result with
      | RResult r =>
          if Py.nonempty (Py.strip (stdout r)) then
            mret (Some (categorize (Py.split Py.newline (Py.strip (stdout r)))))
          else print "✨ Nenhuma mudança detectada!" ;; mret None
      | _ => print "✨ Nenhuma mudança detectada!" ;; mret None
      end
  end.

(** *** [analyze_diff_content] *)

(** The scoring loop: a category is recorded when its patterns match at
    least once. *)
Definition score_diff (diff_content : string) : gmap string nat :=
  foldl (fun detected entry =>
           let count := foldl (fun c pattern => (c + findall_count pattern diff_content)%nat)
                              0%nat (snd entry) in
           if (0 <? count)%nat then <[fst entry := count]> detected else detected)
        ∅ patterns_table.

Definition analyze_diff_content : M (gmap string nat) :=
  w ← get;
  match current_repo w with
  | None => mret ∅
  | Some _ =>
      result ← run_git ["diff"; "--cached"] false true;
      result ← (if negb (truthy result)
                then run_git ["diff"] false true
                else mret result);
      match result with
      | RResult r =>
          if Py.nonempty (stdout r) then mret (score_diff (stdout r)) else mret ∅
      | _ => mret ∅
      end
  end.

(** *** [generate_commit_suggestions] *)

Definition generate_commit_suggestions (changes : option changes_info)
  : M (list string) :=
  match changes with
  | None => mret []
  | Some ci =>
      let all_files := added ci ++ modified ci ++ deleted ci ++ renamed ci in
      let categories := snd (get_file_extension_stats all_files) in
      patterns ← analyze_diff_content;
      mret (finish_suggestions (assemble_suggestions ci all_files categories patterns))
  end.

(** *** Configuration *)

(** [config.get(k)] as a truth value. *)
Definition config_truthy (w : world) (k : string) : bool :=
  match config w !! k with
  | Some v => pyval_truthy v
  | None => false
  end.

(** [config[k]] where the key is known to be there. *)
Definition config_value (w : world) (k : string) : pyval :=
  default PyNone (config w !! k).

Definition save_config : M unit :=
  w ← get;
  let d := disk w in
  match folder_exists d, write_fault d with
  | false, Some (MakedirsFails msg) => raise (OSError msg)
  | _, Some (OpenFails msg) =>
      modify (set_disk (mkStorage true (saved d) (write_fault d))) ;;
      print ("Erro ao salvar configurações: " +:+ msg)
  | _, Some (WriteFails msg why) =>
      modify (set_disk (mkStorage true (Unreadable why) (write_fault d))) ;;
      print ("Erro ao salvar configurações: " +:+ msg)
  | _, _ => modify (set_disk (mkStorage true (Json (config w)) (write_fault d)))
  end.

(** [load_config]: the keys of the file are merged into the dictionary,
    the file's values winning, and the two identity keys are added when
    they are still missing. *)
Definition load_config : M unit :=
  w ← get;
  match saved (disk w) with
  | Absent => mret tt
  | Json saved_config =>
      let merged := saved_config ∪ config w in
      let named :=
        if decide ("user.name" ∈ dom merged) then merged
        else <["user.name" := PyNone]> merged in
      let mailed :=
        if decide ("user.email" ∈ dom named) then named
        else <["user.email" := PyNone]> named in
      modify (set_config_dict mailed)
  | Unreadable error => print ("Erro ao carregar configurações: " +:+ error)
  end.

Definition set_config (key value : string) : M unit :=
  w ← get;
  match config w !! key with
  | Some _ =>
      (if member key ["auto_fetch"] then
         modify (set_config_dict
                   (<[key := PyBool (member (Py.lower value) ["true"; "1"; "yes"; "sim"])]>
                      (config w)))
       else modify (set_config_dict (<[key := PyStr value]> (config w)))) ;;
      save_config ;;
      w' ← get;
      print ("✅ " +:+ key +:+ " = " +:+ pyval_str (config_value w' key))
  | None =>
      print ("❌ Configuração '" +:+ key +:+
             "' não existe. Use 'config' para ver opções disponíveis.")
  end.

(** [run_git] on an argument list that holds configuration values:
    [subprocess.run] raises [TypeError] on one that is not a string,
    which [run_git] reports like any other failure to start git. *)
Definition run_git_values (args : list pyval) (show_output return_output : bool)
  : M git_ret :=
  match mapM (fun v => match v with PyStr s => Some s | _ => None end) args with
  | Some strs => run_git strs show_output return_output
  | None =>
      w ← get;
      match current_repo w with
      | None =>
          print "❌ Nenhum repositório selecionado. Use 'cd <repo>' ou 'clone <url>'" ;;
          mret RNone
      | Some _ =>
          print "❌ Erro ao executar git: expected str, bytes or os.PathLike object, not bool" ;;
          mret (RBool false)
      end
  end.

Definition set_git_identity (repo_specific : bool) : M bool :=
  w ← get;
  if negb (config_truthy w "user.name") || negb (config_truthy w "user.email") then
    print "⚠️ Identidade Git não configurada (user.name ou user.email faltando)." ;;
    mret false
  else
    let scope := if repo_specific && from_option Py.nonempty false (current_repo w)
                 then "--local" else "--global" in
    run_git_values [PyStr "config"; PyStr scope; PyStr "user.name";
                    config_value w "user.name"] false false ;;
    run_git_values [PyStr "config"; PyStr scope; PyStr "user.email";
                    config_value w "user.email"] false false ;;
    print ("✅ Identidade Git configurada " +:+
           (if repo_specific then "localmente" else "globalmente") +:+ ": " +:+
           pyval_str (config_value w "user.name") +:+ " <" +:+
           pyval_str (config_value w "user.email") +:+ ">") ;;
    mret true.

(** *** [quick_commit] *)

(** The tracking check of [quick_commit] and [quick_push]: the branch
    listing is looked at only when [git branch -vv] gave a result. *)
Definition lacks_upstream (branch_result : git_ret) (branch : string) : bool :=
  match branch_result with
  | RResult r => negb (Py.contains ("[origin/" +:+ branch +:+ "]") (stdout r))
  | _ => false
  end.

(** The part of [quick_commit] after the identity is known to be set. *)
Definition commit_with_identity (message : string) : M unit :=
  ok ← set_git_identity true;
  if negb ok then mret tt
  else
    result ← run_git ["branch"; "--show-current"] false true;
    match result with
    | RResult r =>
        let current_branch := Py.strip (stdout r) in
        branch_result ← run_git ["branch"; "-vv"] false true;
        when (lacks_upstream branch_result current_branch)
          (print ("⚠️ Branch '" +:+ current_branch +:+
                  "' não está rastreando uma branch remota. Configurando...") ;;
           run_git ["branch"; "--set-upstream-to"; "origin/" +:+ current_branch;
                    current_branch] true false ;;
           mret tt)
    | _ => mret tt
    end ;;
    print "💾 Fazendo commit..." ;;
    committed ← run_git ["commit"; "-m"; message] true false;
    if truthy committed then print ("✅ Commit '" +:+ message +:+ "' realizado!")
    else print "❌ Falha no commit. Verifique se há mudanças para commitar.".

Definition quick_commit (message : string) : M unit :=
  print "📝 Adicionando arquivos..." ;;
  staged ← run_git ["add"; "."] true false;
  if negb (truthy staged) then mret tt
  else
    w ← get;
    if negb (config_truthy w "user.name") || negb (config_truthy w "user.email") then
      print "⚠️ Identidade Git não configurada. Configurando agora..." ;;
      name ← input "👤 Digite seu nome para commits Git: ";
      email ← input "📧 Digite seu e-mail para commits Git: ";
      let name := Py.strip name in
      let email := Py.strip email in
      if Py.nonempty name && Py.nonempty email then
        modify (fun w => set_config_dict
                           (<["user.email" := PyStr email]>
                              (<["user.name" := PyStr name]> (config w))) w) ;;
        save_config ;;
        commit_with_identity message
      else
        print "❌ Nome e e-mail são obrigatórios para fazer commits."
    else commit_with_identity message.

(** *** [quick_push] *)

(** The part of [quick_push] once the branch is known. *)
Definition push_branch (branch : string) : M unit :=
  result ← run_git ["log"; "--oneline"; "origin/" +:+ branch +:+ ".." +:+ branch]
                   false true;
  match result with
  | RResult r =>
      if Py.nonempty (Py.strip (stdout r)) then
        result ← run_git ["branch"; "-vv"] false true;
        when (lacks_upstream result branch)
          (print ("⚠️ Branch '" +:+ branch +:+
                  "' não está rastreando uma branch remota. Configurando...") ;;
           run_git ["branch"; "--set-upstream-to"; "origin/" +:+ branch; branch]
                   true false ;;
           mret tt) ;;
        print ("🚀 Fazendo push para '" +:+ branch +:+ "'...") ;;
        result ← run_git ["push"; "origin"; branch] true true;
        match result with
        | RResult p =>
            if (returncode p =? 0)%Z then
              print "✅ Push concluído!" ;;
              when (Py.nonempty (stdout p)) (print ("Saída: " +:+ Py.strip (stdout p))) ;;
              when (Py.nonempty (stderr p)) (print ("Aviso: " +:+ Py.strip (stderr p)))
            else
              print "❌ Falha no push. Verifique conexão, permissões ou regras de proteção." ;;
              when (Py.nonempty (stderr p)) (print ("Erro: " +:+ Py.strip (stderr p)))
        | _ =>
            print "❌ Falha no push. Verifique conexão, permissões ou regras de proteção."
        end
      else print ("ℹ️ Nenhum commit novo para enviar em '" +:+ branch +:+ "'.")
  | _ => print ("ℹ️ Nenhum commit novo para enviar em '" +:+ branch +:+ "'.")
  end.

Definition quick_push (branch : option string) : M unit :=
  w ← get;
  match current_repo w with
  | None => print "❌ Nenhum repositório selecionado."
  | Some _ =>
      match branch with
      | Some b => push_branch b
      | None =>
          result ← run_git ["branch"; "--show-current"] false true;
          match result with
          | RResult r =>
              if Py.nonempty (Py.strip (stdout r)) then push_branch (Py.strip (stdout r))
              else print "❌ Não foi possível determinar a branch atual."
          | _ => print "❌ Não foi possível determinar a branch atual."
          end
      end
  end.

(** *** [quick_sync] *)

Definition quick_sync : M unit :=
  w ← get;
  match current_repo w with
  | None => print "❌ Nenhum repositório selecionado."
  | Some _ =>
      result ← run_git ["branch"; "--show-current"] false true;
      match result with
      | RResult r =>
          let branch := Py.strip (stdout r) in
          print ("🔄 Sincronizando branch '" +:+ branch +:+ "'...") ;;
          pulled ← run_git ["pull"; "origin"; branch] true false;
          if truthy pulled then
            print "✅ Pull concluído!" ;;
            result ← run_git ["log"; "--oneline"; "@{u}..HEAD"] false true;
            let has_unpushed :=
              match result with
              | RResult l => Py.nonempty (Py.strip (stdout l))
              | _ => false
              end in
            if has_unpushed then
              pushed ← run_git ["push"; "origin"; branch] true false;
              if truthy pushed then print "✅ Push concluído!"
              else print "❌ Push falhou. Verifique conexão e permissões."
            else print "✨ Tudo sincronizado! Nenhum push necessário."
          else print "⚠️ Pull falhou. Verifique conflitos."
      | _ => print "❌ Não foi possível determinar a branch atual."
      end
  end.

(** *** [smart_status] *)

Definition category_icon (category : string) : string :=
  dd_get [("code", "💻"); ("frontend", "🌐"); ("docs", "📚"); ("config", "⚙️");
          ("database", "🗃️"); ("images", "🖼️"); ("other", "📄")]
         category "📄".

Definition category_line (entry : string * list string) : string :=
  let (category, files) := entry in
  "  " +:+ category_icon category +:+ " " +:+ Py.title category +:+ ": " +:+
  Py.join ", " (take 3 files) +:+
  (if (3 <? length files)%nat then " (+" +:+ pretty (length files - 3) +:+ " mais)"
   else "").

(** [None] is Python's [None] (nothing to analyse), [Some l] a list. *)
Definition smart_status : M (option (list string)) :=
  print "🔍 Analisando mudanças..." ;;
  print (Py.repeat "-" 50) ;;
  changes ← analyze_changes;
  match changes with
  | None => mret None
  | Some ci =>
      print "📊 Resumo das mudanças:" ;;
      when (0 <? length (added ci))%nat
        (print ("  ➕ " +:+ pretty (length (added ci)) +:+ " arquivo(s) adicionado(s)")) ;;
      when (0 <? length (modified ci))%nat
        (print ("  📝 " +:+ pretty (length (modified ci)) +:+ " arquivo(s) modificado(s)")) ;;
      when (0 <? length (deleted ci))%nat
        (print ("  🗑️ " +:+ pretty (length (deleted ci)) +:+ " arquivo(s) removido(s)")) ;;
      when (0 <? length (renamed ci))%nat
        (print ("  🚚 " +:+ pretty (length (renamed ci)) +:+ " arquivo(s) renomeado(s)")) ;;
      print (String Py.newline "📁 Arquivos afetados:") ;;
      let all_files := added ci ++ modified ci ++ deleted ci ++ renamed ci in
      let categories := snd (get_file_extension_stats all_files) in
      for_each categories
        (fun entry => when (0 <? length (snd entry))%nat (print (category_line entry))) ;;
      suggestions ← generate_commit_suggestions (Some ci);
      match suggestions with
      | [] => mret (Some [])
      | _ =>
          print (String Py.newline "💡 Sugestões de commit:") ;;
          for_each (Py.enumerate 1 suggestions)
            (fun '(i, suggestion) => print ("  " +:+ pretty i +:+ ". " +:+ suggestion)) ;;
          print (String Py.newline "🎯 Comandos sugeridos:") ;;
          print "  smart-commit [número]  - Usa sugestão por número" ;;
          print "  smart-commit          - Usa primeira sugestão" ;;
          print ("  commit " +:+ Py.dquote +:+ "sua mensagem" +:+ Py.dquote +:+
                 " - Commit personalizado") ;;
          mret (Some suggestions)
      end
  end.

(** *** [smart_commit] *)

(** The [suggestion_number] argument: text typed by the user, or a
    number given by the caller. *)
Inductive ordinal :=
  | OrdStr (s : string)
  | OrdInt (z : Z).

(** [int(suggestion_number)]; [None] stands for [ValueError]. *)
Definition int_of_ordinal (o : ordinal) : option Z :=
  match o with
  | OrdStr s => py_int py s
  | OrdInt z => Some z
  end.

(** The confirmation dialogue that ends [smart_commit]. *)
Definition confirm_and_commit (selected_message : string) : M unit :=
  print ("🤖 Commit sugerido: " +:+ selected_message) ;;
  confirm ← input "Confirma este commit? (s/N): ";
  if member (Py.lower confirm) ["s"; "sim"; "yes"; "y"] then quick_commit selected_message
  else print "❌ Commit cancelado.".

Definition smart_commit (suggestion_number : option ordinal)
    (custom_message : option string) : M unit :=
  if from_option Py.nonempty false custom_message then
    quick_commit (default "" custom_message)
  else
    changes ← analyze_changes;
    match changes with
    | None => print "❌ Nenhuma mudança para commit!"
    | Some ci =>
        suggestions ← generate_commit_suggestions (Some ci);
        match suggestions with
        | [] => print "❌ Não foi possível gerar sugestões. Use commit manual."
        | first :: _ =>
            match suggestion_number with
            | Some o =>
                match int_of_ordinal o with
                | Some n =>
                    let index := (n - 1)%Z in
                    if ((0 <=? index) && (index <? Z.of_nat (length suggestions)))%Z then
                      confirm_and_commit (nth (Z.to_nat index) suggestions "")
                    else
                      print ("❌ Número inválido. Use 1-" +:+ pretty (length suggestions))
                | None => print "❌ Número inválido!"
                end
            | None => confirm_and_commit first
            end
        end
    end.

(** *** [auto_stage_and_suggest] *)

Definition ignored_patterns : list string :=
  [".log"; ".tmp"; "node_modules/"; ".env"; "__pycache__/"; ".pyc"].

(** [any(pattern in filename.lower() for pattern in ignored_patterns)] *)
Definition is_ignored (filename : string) : bool :=
  existsb (fun pattern => Py.contains pattern (Py.lower filename)) ignored_patterns.

(** The loop that builds [files_to_add] from the status lines. *)
Definition files_to_add (changes : list string) : list string :=
  foldl (fun acc line =>
           let filename := Py.drop 3 line in
           if negb (is_ignored filename) then acc ++ [filename] else acc)
        [] changes.

(** [choice.lower() in ['n', 'no', 'não']].  [Py.lower] leaves the two
    bytes of [Ã] as they are, where [str.lower] makes them [ã]: the last
    entry stands for the answers written with it. *)
Definition declines (choice : string) : bool :=
  member (Py.lower choice) ["n"; "no"; "não"; "nÃo"].

Definition auto_stage_and_suggest : M unit :=
  w ← get;
  match current_repo w with
  | None => print "❌ Nenhum repositório selecionado."
  | Some _ =>
      result ← run_git ["status"; "--porcelain"] false true;
      match result with
      | RResult r =>
          if Py.nonempty (Py.strip (stdout r)) then
            print "📝 Adicionando arquivos modificados..." ;;
            let changes := Py.split Py.newline (Py.strip (stdout r)) in
            let files := files_to_add changes in
            match files with
            | [] => print "⚠️ Nenhum arquivo adequado para adicionar encontrado."
            | _ =>
                for_each files (fun file => run_git ["add"; file] false false ;; mret tt) ;;
                print ("✅ " +:+ pretty (length files) +:+ " arquivo(s) adicionado(s) ao stage") ;;
                suggestions ← smart_status;
                match suggestions with
                | Some (_ :: _) =>
                    print (String Py.newline "⚡ Quer fazer commit agora?") ;;
                    choice ← input "Digite o número da sugestão ou 'n' para cancelar: ";
                    let choice := Py.strip choice in
                    when (negb (declines choice))
                      (try_except
                         (if py_isdigit py choice then smart_commit (Some (OrdStr choice)) None
                          else smart_commit (Some (OrdInt 1)) None)
                         (print "❌ Opção inválida. Use 'smart-status' para ver sugestões novamente."))
                | _ => mret tt
                end
            end
          else print "✨ Nenhuma mudança detectada!"
      | _ => print "✨ Nenhuma mudança detectada!"
      end
  end.

End Manager.

(** ** The rest of the session commands *)

Module PyMore.

(** The loop of [s.split(sep)] for a separator of several characters:
    [skip] counts the characters of a separator still to be dropped,
    [cur] is the piece being read. *)
Fixpoint split_loop (sep : string) (skip : nat) (cur : string) (s : string)
    : list string :=
  match s with
  | EmptyString => [cur]
  | String c s' =>
      match skip with
      | S k => split_loop sep k cur s'
      | O =>
          if Py.startswith sep s
          then cur :: split_loop sep (String.length sep - 1) EmptyString s'
          else split_loop sep 0 (cur +:+ String c EmptyString) s'
      end
  end.

(** [s.split(sep)], [sep] not empty. *)
Definition split_str (sep s : string) : list string := split_loop sep 0 EmptyString s.

(** [s.replace(old, new)], [old] not empty. *)
Definition replace (old new s : string) : string := Py.join new (split_str old s).

(** [os.path.join(a, b)] on POSIX. *)
Definition path_join (a b : string) : string :=
  if Py.startswith "/" b then b
  else if negb (Py.nonempty a) || Py.startswith "/" (Py.drop (String.length a - 1) a)
  then a +:+ b
  else a +:+ "/" +:+ b.

End PyMore.

(** How a function that may die of an uncaught exception ends. *)
Inductive ended :=
  | Returned
  | Crashed (error : string).

Section Workflow.

Variable git : list spawn -> string -> list string -> spawn_outcome.

(** The folder [repos] of the working directory, and [os.path.isdir]. *)
Variable repos_folder : string.
Variable isdir : string -> bool.

(** [run_git] on arguments that may hold a configuration value; the
    message is that of the [TypeError] of [subprocess.run]. *)
Definition type_name (v : pyval) : string :=
  match v with
  | PyNone => "NoneType"
  | PyBool _ => "bool"
  | PyStr _ => "str"
  end.

Definition first_non_string (args : list pyval) : option pyval :=
  List.find (fun v => match v with PyStr _ => false | _ => true end) args.

Definition run_git_dynamic (args : list pyval) (show_output return_output : bool)
  : M git_ret :=
  match first_non_string args with
  | None =>
      run_git git (omap (fun v => match v with PyStr s => Some s | _ => None end) args)
              show_output return_output
  | Some v =>
      w ← get;
      match current_repo w with
      | None =>
          print "❌ Nenhum repositório selecionado. Use 'cd <repo>' ou 'clone <url>'" ;;
          mret RNone
      | Some _ =>
          print ("❌ Erro ao executar git: expected str, bytes or os.PathLike object, not "
                 +:+ type_name v) ;;
          mret (RBool false)
      end
  end.

(** *** [quick_pull] *)

Definition quick_pull (branch : option string) : M unit :=
  w ← get;
  let branch :=
    match branch with
    | Some b => PyStr b
    | None => default (PyStr "main") (config w !! "default_branch")
    end in
  print ("📥 Fazendo pull de '" +:+ pyval_str branch +:+ "'...") ;;
  pulled ← run_git_dynamic [PyStr "pull"; PyStr "origin"; branch] true false;
  if truthy pulled then print "✅ Pull concluído!"
  else print "❌ Falha no pull. Verifique conflitos.".

(** *** [workflow_suggestions] *)

(** [result and result.stdout.strip()] as a truth value. *)
Definition has_output (result : git_ret) : bool :=
  match result with
  | RResult r => Py.nonempty (Py.strip (stdout r))
  | _ => false
  end.

(** [len(result.stdout.strip().split('\n'))], 0 without output. *)
Definition line_count (result : git_ret) : nat :=
  match result with
  | RResult r =>
      if Py.nonempty (Py.strip (stdout r))
      then length (Py.split Py.newline (Py.strip (stdout r)))
      else 0
  | _ => 0
  end.

(** [v == s] for a configuration value and a string. *)
Definition is_string (v : pyval) (s : string) : bool :=
  match v with
  | PyStr t => String.eqb t s
  | _ => false
  end.

(** The advisories, from what the queries answered. *)
Definition workflow_advice (untracked unstaged staged : git_ret) (unpushed : nat)
    (current_branch : string) (default_branch : pyval) (unpulled : nat)
    : list string :=
  let suggestions :=
    (if has_output untracked then
       ["📁 " +:+ pretty (line_count untracked) +:+
        " arquivo(s) não rastreado(s) - considere 'auto-stage'"]
     else []) ++
    (if has_output unstaged then
       ["📝 " +:+ pretty (line_count unstaged) +:+
        " arquivo(s) modificado(s) - use 'smart-status' ou 'auto-stage'"]
     else []) ++
    (if has_output staged then
       ["✅ " +:+ pretty (line_count staged) +:+
        " arquivo(s) preparado(s) - pronto para 'smart-commit'"]
     else []) ++
    (if (0 <? unpushed)%nat then
       ["🚀 " +:+ pretty unpushed +:+ " commit(s) não enviado(s) - considere 'push'"]
     else []) ++
    (if is_string default_branch current_branch then []
     else ["🌿 Você está na branch '" +:+ current_branch +:+
           "' - merge/push quando pronto"]) ++
    (if (0 <? unpulled)%nat then
       ["📥 " +:+ pretty unpulled +:+
        " commit(s) disponível(is) no remoto - considere 'pull'"]
     else []) in
  match suggestions with
  | [] => ["✨ Tudo limpo! Pronto para trabalhar."]
  | _ => suggestions
  end.

Definition workflow_suggestions : M unit :=
  w ← get;
  match current_repo w with
  | None => print "❌ Nenhum repositório selecionado."
  | Some _ =>
      print "🔮 Análise do workflow atual:" ;;
      print (Py.repeat "-" 40) ;;
      unstaged ← run_git git ["diff"; "--name-only"] false true;
      staged ← run_git git ["diff"; "--cached"; "--name-only"] false true;
      untracked ← run_git git ["ls-files"; "--others"; "--exclude-standard"] false true;
      result ← run_git git ["log"; "--oneline"; "@{u}..HEAD"] false true;
      let unpushed_commits := line_count result in
      branch_result ← run_git git ["branch"; "--show-current"] false true;
      let current_branch :=
        match branch_result with
        | RResult r => Py.strip (stdout r)
        | _ => "unknown"
        end in
      run_git git ["fetch"] false false ;;
      result ← run_git git ["log"; "--oneline"; "HEAD..@{u}"] false true;
      let unpulled_commits := line_count result in
      let suggestions :=
        workflow_advice untracked unstaged staged unpushed_commits current_branch
          (default (PyStr "main") (config w !! "default_branch")) unpulled_commits in
      print "💡 Sugestões de próximos passos:" ;;
      for_each (Py.enumerate 1 suggestions)
        (fun '(i, suggestion) => print ("  " +:+ pretty i +:+ ". " +:+ suggestion)) ;;
      print (String Py.newline "🛠️ Comandos úteis:") ;;
      print "  auto-stage    - Adiciona arquivos e sugere commit" ;;
      print "  smart-status  - Análise detalhada com sugestões" ;;
      print "  workflow      - Esta análise" ;;
      print "  quick-sync    - Pull + Push rápido"
  end.

(** *** [merge_branch] *)

(** The part of [merge_branch] once the target branch is known. *)
Definition merge_into (source_branch target_branch : string) : M ended :=
  result ← run_git git ["status"; "--porcelain"] false true;
  if has_output result then
    print "⚠️ Existem mudanças pendentes. Faça commit ou stash antes do merge." ;;
    mret Returned
  else
    current ← run_git git ["branch"; "--show-current"] false true;
    match current with
    | RResult r =>
        switched ←
          (if negb (String.eqb (Py.strip (stdout r)) target_branch) then
             run_git git ["checkout"; target_branch] true false
           else mret (RBool true));
        if negb (truthy switched) then
          print ("❌ Falha ao mudar para a branch '" +:+ target_branch +:+ "'.") ;;
          mret Returned
        else
          print ("🔄 Fazendo merge da branch '" +:+ source_branch +:+ "' em '" +:+
                 target_branch +:+ "'...") ;;
          result ← run_git git ["merge"; source_branch] true true;
          match result with
          | RResult m =>
              (if (returncode m =? 0)%Z then
                 print ("✅ Merge concluído! Branch '" +:+ source_branch +:+
                        "' mesclada em '" +:+ target_branch +:+ "'.")
               else
                 print "❌ Falha no merge. Verifique conflitos ou se a branch existe." ;;
                 when (Py.nonempty (stderr m)) (print ("Erro: " +:+ Py.strip (stderr m)))) ;;
              mret Returned
          | _ =>
              print "❌ Falha no merge. Verifique conflitos ou se a branch existe." ;;
              mret Returned
          end
    | RBool _ => mret (Crashed "AttributeError: 'bool' object has no attribute 'stdout'")
    | RNone => mret (Crashed "AttributeError: 'NoneType' object has no attribute 'stdout'")
    end.

Definition merge_branch (source_branch : string) (target_branch : option string)
  : M ended :=
  w ← get;
  match current_repo w with
  | None => print "❌ Nenhum repositório selecionado." ;; mret Returned
  | Some _ =>
      match target_branch with
      | Some target => merge_into source_branch target
      | None =>
          result ← run_git git ["branch"; "--show-current"] false true;
          if has_output result then
            match result with
            | RResult r => merge_into source_branch (Py.strip (stdout r))
            | _ => mret Returned
            end
          else
            print "❌ Não foi possível determinar a branch atual." ;;
            mret Returned
      end
  end.

(** *** [add_file_from_branch] *)

Definition add_file_from_branch (branch_name file_path : string) : M unit :=
  w ← get;
  match current_repo w with
  | None => print "❌ Nenhum repositório selecionado."
  | Some _ =>
      print ("📝 Adicionando '" +:+ file_path +:+ "' da branch '" +:+ branch_name +:+ "'...") ;;
      result ← run_git git ["branch"; "-a"] false true;
      let unknown :=
        match result with
        | RResult r => negb (Py.contains branch_name (stdout r))
        | _ => false
        end in
      if unknown then print ("❌ Branch '" +:+ branch_name +:+ "' não encontrada.")
      else
        copied ← run_git git ["checkout"; branch_name; "--"; file_path] true false;
        if truthy copied then
          staged ← run_git git ["add"; file_path] true false;
          if truthy staged then
            print ("✅ Arquivo '" +:+ file_path +:+ "' adicionado da branch '" +:+
                   branch_name +:+ "' ao stage!")
          else print ("❌ Erro ao adicionar '" +:+ file_path +:+ "' ao stage.")
        else print ("❌ Erro ao copiar arquivo da branch '" +:+ branch_name +:+ "'.")
  end.

(** *** [quick_status] *)

(** The first line that mentions [ahead] or [behind]. *)
Definition tracking_line (lines : list string) : option string :=
  List.find (fun line => Py.contains "ahead" line || Py.contains "behind" line) lines.

Definition quick_status : M unit :=
  w ← get;
  match current_repo w with
  | None => mret tt
  | Some _ =>
      result ← run_git git ["branch"; "--show-current"] false true;
      match result with
      | RResult r => print ("🌿 Branch: " +:+ Py.strip (stdout r))
      | _ => mret tt
      end ;;
      result ← run_git git ["status"; "--porcelain"] false true;
      match result with
      | RResult r =>
          let changes :=
            if Py.nonempty (Py.strip (stdout r))
            then Py.split Py.newline (Py.strip (stdout r)) else [] in
          match changes with
          | first :: _ =>
              if Py.nonempty first
              then print ("📝 " +:+ pretty (length changes) +:+ " arquivo(s) modificado(s)")
              else print "✨ Diretório limpo"
          | [] => print "✨ Diretório limpo"
          end
      | _ => mret tt
      end ;;
      result ← run_git git ["status"; "-uno"] false true;
      match result with
      | RResult r =>
          if Py.nonempty (stdout r) then
            match tracking_line (Py.split Py.newline (stdout r)) with
            | Some line => print ("🔄 " +:+ Py.strip line)
            | None => mret tt
            end
          else mret tt
      | _ => mret tt
      end
  end.

(** *** [configure_git_credentials] *)

(** The remote URL without the token it may carry; [None] stands for the
    [IndexError] of [split(...)[1]] on a URL that has the host after an
    [@] but not followed by a slash. *)
Definition clean_url (current_url : string) : option string :=
  if Py.contains "@github.com" current_url then
    match PyMore.split_str "@github.com/" current_url with
    | _ :: rest :: _ => Some ("https://github.com/" +:+ rest)
    | _ => None
    end
  else Some current_url.

(** The URL with the token put in. *)
Definition url_with_token (token clean : string) : string :=
  PyMore.replace "https://github.com/" ("https://" +:+ token +:+ "@github.com/") clean.

Definition configure_git_credentials : M unit :=
  w ← get;
  if negb (config_truthy w "github_token")
     || negb (from_option Py.nonempty false (current_repo w))
  then mret tt
  else
    run_git git ["config"; "--unset"; "credential.helper"] false false ;;
    run_git git ["config"; "--unset"; "credential.https://github.com.username"]
            false false ;;
    result ← run_git git ["remote"; "get-url"; "origin"] false true;
    if has_output result then
      match result with
      | RResult r =>
          match clean_url (Py.strip (stdout r)) with
          | Some clean =>
              if Py.startswith "https://github.com/" clean then
                run_git git ["remote"; "set-url"; "origin";
                             url_with_token (pyval_str (config_value w "github_token")) clean]
                        false false ;;
                print "🔧 Token configurado no remote"
              else mret tt
          | None => print "⚠️ Erro ao configurar credenciais: list index out of range"
          end
      | _ => mret tt
      end
    else mret tt.

(** *** [change_project] *)

Definition change_project (name : string) : M unit :=
  if String.eqb name ".." then
    modify (set_current_repo None) ;;
    print "Saindo do projeto atual."
  else
    let path := PyMore.path_join repos_folder name in
    if isdir path && isdir (PyMore.path_join path ".git") then
      modify (set_current_repo (Some path)) ;;
      print ("📁 Projeto '" +:+ name +:+ "' selecionado.") ;;
      configure_git_credentials ;;
      w ← get;
      when (from_option pyval_truthy true (config w !! "auto_fetch"))
        (print "🔄 Atualizando informações do remoto..." ;;
         run_git git ["fetch"] false false ;;
         mret tt) ;;
      quick_status
    else
      print ("❌ Projeto '" +:+ name +:+
             "' não encontrado. Use 'list' para ver projetos disponíveis.").

(** *** [set_github_token] *)

Definition set_github_token (token : string) (name email : option string) : M unit :=
  let given (o : option string) := from_option Py.nonempty false o in
  modify (fun w => set_config_dict (<["github_token" := PyStr token]> (config w)) w) ;;
  when (given name)
    (modify (fun w => set_config_dict
                        (<["user.name" := PyStr (default "" name)]> (config w)) w)) ;;
  when (given email)
    (modify (fun w => set_config_dict
                        (<["user.email" := PyStr (default "" email)]> (config w)) w)) ;;
  save_config ;;
  when (given name && given email) (set_git_identity git false ;; mret tt) ;;
  print "✅ Token GitHub configurado com sucesso!" ;;
  when (given name && given email)
    (print ("✅ Identidade Git configurada: " +:+ default "" name +:+ " <" +:+
            default "" email +:+ ">")).

End Workflow.

(** ** The classification the analyzer is specified by *)

Inductive category := Added | Modified | Deleted | Renamed.

(** First matching status code, in the order A, M, D, R, among the two
    characters that open a status line. *)
Definition first_match (line : string) : option category :=
  let code := Py.take 2 line in
  if Py.has_char "A" code then Some Added
  else if Py.has_char "M" code then Some Modified
  else if Py.has_char "D" code then Some Deleted
  else if Py.has_char "R" code then Some Renamed
  else None.

Definition category_eqb (a b : category) : bool :=
  match a, b with
  | Added, Added | Modified, Modified | Deleted, Deleted | Renamed, Renamed => true
  | _, _ => false
  end.

(** The paths of the lines whose first matching code is [c], in order. *)
Definition paths_of (c : category) (changes : list string) : list string :=
  map (Py.drop 3)
      (List.filter (fun line => from_option (category_eqb c) false (first_match line))
                   changes).

(** The lines no code matches. *)
Definition unmatched (changes : list string) : list string :=
  List.filter (fun line => bool_decide (first_match line = None)) changes.

(** ** What one call of [run_git] shows and answers

    Read off the body of [run_git] for a selected project, as functions of
    what the spawned process did. *)

Definition answer (return_output : bool) (o : spawn_outcome) : git_ret :=
  match o with
  | Completed r => if return_output then RResult r else RBool (returncode r =? 0)%Z
  | TimeoutExpired | SpawnError _ => RBool false
  end.

Definition echo (show_output return_output : bool) (o : spawn_outcome) : list string :=
  match o with
  | Completed r =>
      if negb return_output && show_output then
        (if Py.nonempty (stdout r) then [Py.strip (stdout r)] else []) ++
        (if Py.nonempty (stderr r) then ["⚠️ " +:+ Py.strip (stderr r)] else [])
      else []
  | TimeoutExpired => ["⏱️ Comando git expirou (timeout 30s)"]
  | SpawnError msg => ["❌ Erro ao executar git: " +:+ msg]
  end.

(** The process succeeded: it completed with exit code 0. *)
Definition succeeded (o : spawn_outcome) : bool :=
  match o with
  | Completed r => (returncode r =? 0)%Z
  | _ => false
  end.

(** The git subcommand of a spawned process ([argv[1]]). *)
Definition subcommand (s : spawn) : string := nth 1 (snd s) "".

(** ** What is handed to [git add] *)

(** The paths in the argument vector of a process, when it is a
    [git add]. *)
Definition added_paths_of (s : spawn) : list string :=
  match snd s with
  | _ :: sub :: paths => if String.eqb sub "add" then paths else []
  | _ => []
  end.

Definition added_paths (l : list spawn) : list string :=
  concat (map added_paths_of l).

(** The lowercased path contains none of the six substrings. *)
Definition free_of_ignored (file : string) : Prop :=
  Forall (fun pattern => Py.contains pattern (Py.lower file) = false)
         [".log"; ".tmp"; "node_modules/"; ".env"; "__pycache__/"; ".pyc"].

(** A computation keeps a property of the list of spawned processes. *)
Definition preserves (P : list spawn -> Prop) {A} (m : M A) : Prop :=
  forall w, P (spawned w) -> P (spawned (snd (m w))).

(** The pull of [quick_sync] is reached and succeeds: a project is
    selected, the branch query completes, and the pull exits with 0. *)
Definition pull_succeeds (git : list spawn -> string -> list string -> spawn_outcome)
    (w : world) : bool :=
  match current_repo w with
  | Some repo =>
      match git (spawned w) repo ["git"; "branch"; "--show-current"] with
      | Completed r =>
          succeeded (git (spawned w ++ [(repo, ["git"; "branch"; "--show-current"])])
                         repo ["git"; "pull"; "origin"; Py.strip (stdout r)])
      | _ => false
      end
  | None => false
  end.

(** What [analyze_diff_content] makes of the process whose output it
    reads: the scores of its output, nothing when there is none. *)
Definition diff_scores (findall_count : string -> string -> nat) (o : spawn_outcome)
  : gmap string nat :=
  match o with
  | Completed r =>
      if Py.nonempty (stdout r) then score_diff findall_count (stdout r) else ∅
  | _ => ∅
  end.

(** The session once [quick_commit] has run [git add .]. *)
Definition staged_world (git : list spawn -> string -> list string -> spawn_outcome)
    (w : world) (repo : string) : world :=
  mkWorld (Some repo) (config w) (disk w)
          (spawned w ++ [(repo, ["git"; "add"; "."])])
          (console w ++ ["📝 Adicionando arquivos..."] ++
           echo true false (git (spawned w) repo ["git"; "add"; "."]))
          (stdin w).

(** A computation leaves the session alone: the selected project, the
    configuration and the configuration file. *)
Definition keeps_session {A} (m : M A) : Prop :=
  forall w,
    current_repo (snd (m w)) = current_repo w /\
    config (snd (m w)) = config w /\
    disk (snd (m w)) = disk w.

(** ** The keys the specification recognises

    The specification's fixed set of configuration keys: the credential
    token, the default branch, the auto-fetch flag, the editor and the two
    identity keys. *)
Definition spec_recognized_keys : list string :=
  ["github_token"; "default_branch"; "auto_fetch"; "editor"; "user.name"; "user.email"].

(** ** What an add puts in the index

    [git add .], run in the top folder of the work tree as [run_git] runs
    it, stages every changed path; an add of a path that the status lists
    stages that path.  [staged_by l changed] is the changed paths that the
    processes of [l] have staged for these two reasons. *)
Definition adds_everything (s : spawn) : bool :=
  bool_decide (snd s = ["git"; "add"; "."]).

Definition staged_by (l : list spawn) (changed : list string) : list string :=
  if existsb adds_everything l then changed
  else filter (fun path => member path (added_paths l)) changed.

(** ** Sessions used as examples *)

(** A git that never answers in time. *)
Definition git_stalled : list spawn -> string -> list string -> spawn_outcome :=
  fun _ _ _ => TimeoutExpired.

Definition no_storage : storage := mkStorage false Absent None.

(** A fresh session: nothing selected, the default configuration. *)
Definition fresh_world : world :=
  mkWorld None default_config no_storage [] [] [].

(** The same session with the project [repos/demo] selected. *)
Definition demo_world : world :=
  mkWorld (Some "repos/demo") default_config no_storage [] [] [].

(** A repository whose index is clean while the working tree holds an
    unstaged fix: [git diff --cached] prints nothing, [git diff] prints
    the change. *)
Definition working_tree_diff : string :=
  "+ fix the bug: fix error on issue".

Definition git_unstaged_change : list spawn -> string -> list string -> spawn_outcome :=
  fun _ _ argv =>
    if bool_decide (argv = ["git"; "diff"]) then
      Completed (mkProc 0 working_tree_diff "")
    else Completed (mkProc 0 "" "").

(** A repository on branch [main] whose pull is refused (exit code 1,
    a conflict message on stderr). *)
Definition git_pull_conflict : list spawn -> string -> list string -> spawn_outcome :=
  fun _ _ argv =>
    if bool_decide (argv = ["git"; "branch"; "--show-current"]) then
      Completed (mkProc 0 ("main" +:+ String Py.newline "") "")
    else if bool_decide (argv = ["git"; "pull"; "origin"; "main"]) then
      Completed (mkProc 1 "" "CONFLICT (content): Merge conflict in a.py")
    else Completed (mkProc 0 "" "").

(** A repository with nothing to report: every command prints nothing. *)
Definition git_clean : list spawn -> string -> list string -> spawn_outcome :=
  fun _ _ _ => Completed (mkProc 0 "" "").

(** A repository on branch [main] with one local commit and no upstream
    set: the verbose listing shows no [[origin/main]]. *)
Definition git_no_upstream : list spawn -> string -> list string -> spawn_outcome :=
  fun _ _ argv =>
    if bool_decide (argv = ["git"; "branch"; "--show-current"]) then
      Completed (mkProc 0 ("main" +:+ String Py.newline "") "")
    else if bool_decide (argv = ["git"; "log"; "--oneline"; "origin/main..main"]) then
      Completed (mkProc 0 "abc1234 fix login" "")
    else if bool_decide (argv = ["git"; "branch"; "-vv"]) then
      Completed (mkProc 0 "* main abc1234 fix login" "")
    else Completed (mkProc 0 "" "").

(** The demo session once the user has logged in with an identity. *)
Definition identified_world : world :=
  mkWorld (Some "repos/demo")
          (<["user.email" := PyStr "ana@example.org"]>
             (<["user.name" := PyStr "Ana"]> default_config))
          no_storage [] [] [].

(** The change set of two added files. *)
Definition two_added : changes_info :=
  mkChanges ["a.py"; "b.py"] [] [] [] 2.

(** A regular-expression engine that finds nothing. *)
Definition no_match : string -> string -> nat := fun _ _ => 0.

(** An interpreter that takes no text outside ASCII for a number. *)
Definition ascii_only : interpreter := mkInterpreter (fun _ => None) (fun _ => false).

(** A repository with one modified source file, already in the index,
    and one untracked log file; the user asks for the first suggestion
    and confirms the commit. *)
Definition git_two_changes : list spawn -> string -> list string -> spawn_outcome :=
  fun _ _ argv =>
    if bool_decide (argv = ["git"; "status"; "--porcelain"]) then
      Completed (mkProc 0 ("M  a.py" +:+ String Py.newline "?? debug.log") "")
    else Completed (mkProc 0 "" "").

Definition staging_world : world :=
  mkWorld (Some "repos/demo")
          (<["user.email" := PyStr "ana@example.org"]>
             (<["user.name" := PyStr "Ana"]> default_config))
          no_storage [] [] ["1"; "s"].

(** A repository on branch [main] with one commit to send, whose listing
    shows the upstream. *)
Definition git_tracked : list spawn -> string -> list string -> spawn_outcome :=
  fun _ _ argv =>
    if bool_decide (argv = ["git"; "log"; "--oneline"; "origin/main..main"]) then
      Completed (mkProc 0 "abc1234 fix login" "")
    else if bool_decide (argv = ["git"; "branch"; "-vv"]) then
      Completed (mkProc 0 "* main abc1234 [origin/main] fix login" "")
    else Completed (mkProc 0 "" "").

(** The demo session of a user without identity who types a name and an
    e-mail when asked. *)
Definition asking_world : world :=
  mkWorld (Some "repos/demo") default_config no_storage [] []
          [" Ana "; "ana@example.org"].

(** A repository on branch [main] with the branches [main] and
    [feature], one local commit ahead of its upstream. *)
Definition git_one_ahead : list spawn -> string -> list string -> spawn_outcome :=
  fun _ _ argv =>
    if bool_decide (argv = ["git"; "branch"; "--show-current"]) then
      Completed (mkProc 0 ("main" +:+ String Py.newline "") "")
    else if bool_decide (argv = ["git"; "log"; "--oneline"; "@{u}..HEAD"]) then
      Completed (mkProc 0 "abc1234 fix login" "")
    else if bool_decide (argv = ["git"; "branch"; "-a"]) then
      Completed (mkProc 0 ("* main" +:+ String Py.newline "  feature") "")
    else Completed (mkProc 0 "" "").

(** A repository whose only changes are two untracked files that the bulk
    staging ignores. *)
Definition git_only_ignored : list spawn -> string -> list string -> spawn_outcome :=
  fun _ _ argv =>
    if bool_decide (argv = ["git"; "status"; "--porcelain"]) then
      Completed (mkProc 0 ("?? debug.log" +:+ String Py.newline "?? node_modules/x.js") "")
    else Completed (mkProc 0 "" "").

(** A repository whose remote carries an older token, and one whose
    remote is reached over SSH. *)
Definition git_remote_with_token : list spawn -> string -> list string -> spawn_outcome :=
  fun _ _ argv =>
    if bool_decide (argv = ["git"; "remote"; "get-url"; "origin"]) then
      Completed (mkProc 0 ("https://ghp_old@github.com/ana/demo.git" +:+
                           String Py.newline "") "")
    else Completed (mkProc 0 "" "").

Definition git_remote_ssh : list spawn -> string -> list string -> spawn_outcome :=
  fun _ _ argv =>
    if bool_decide (argv = ["git"; "remote"; "get-url"; "origin"]) then
      Completed (mkProc 0 ("git@github.com:ana/demo.git" +:+ String Py.newline "") "")
    else Completed (mkProc 0 "" "").

(** The demo session of a user who has logged in with a token. *)
Definition token_world : world :=
  mkWorld (Some "repos/demo") (<["github_token" := PyStr "ghp_new"]> default_config)
          no_storage [] [] [].

(** A repository on the local branch [feature], which [origin] does not
    have yet: the log against [origin/feature] fails and prints nothing on
    its standard output, and the verbose listing shows no upstream. *)
Definition git_unpublished : list spawn -> string -> list string -> spawn_outcome :=
  fun _ _ argv =>
    if bool_decide (argv = ["git"; "log"; "--oneline"; "origin/feature..feature"]) then
      Completed (mkProc 128 ""
                   "fatal: ambiguous argument 'origin/feature..feature': unknown revision")
    else if bool_decide (argv = ["git"; "branch"; "-vv"]) then
      Completed (mkProc 0 "* feature abc1234 add parser" "")
    else Completed (mkProc 0 "" "").

(** A session started over a configuration file that holds a key of its
    own, [colour]. *)
Definition themed_world : world :=
  mkWorld None default_config
          (mkStorage true (Json (<["colour" := PyStr "red"]> ∅)) None) [] [] [].

(** A repository on branch [main] with one modified file. *)
Definition git_pending_on_main : list spawn -> string -> list string -> spawn_outcome :=
  fun _ _ argv =>
    if bool_decide (argv = ["git"; "branch"; "--show-current"]) then
      Completed (mkProc 0 ("main" +:+ String Py.newline "") "")
    else if bool_decide (argv = ["git"; "status"; "--porcelain"]) then
      Completed (mkProc 0 " M a.py" "")
    else Completed (mkProc 0 "" "").

(** ** Properties *)

#[local] Set Warnings "-clear-no-such-hyp,-level-tolerance".
#[local] Arguments Py.take : simpl never.
#[local] Arguments Py.drop : simpl never.
#[local] Arguments Py.strip : simpl never.
#[local] Arguments Py.split : simpl never.
#[local] Arguments Py.contains : simpl never.

Section Properties.

Variable git : list spawn -> string -> list string -> spawn_outcome.
Variable findall_count : string -> string -> nat.
Variable py : interpreter.

(** *** The command executor *)

Lemma run_git_unselected args so ro w :
  current_repo w = None ->
  run_git git args so ro w =
    (Ok RNone,
     add_line "❌ Nenhum repositório selecionado. Use 'cd <repo>' ou 'clone <url>'" w).
Proof.
  intros H. unfold run_git, mbind, M_bind, bind, get. simpl. rewrite H. reflexivity.
Qed.

(** With a project selected the executor spawns exactly one process,
    shows [echo] and answers [answer]. *)
Lemma run_git_eval args so ro w repo :
  current_repo w = Some repo ->
  run_git git args so ro w =
    (Ok (answer ro (git (spawned w) repo ("git" :: args))),
     mkWorld (Some repo) (config w) (disk w)
             (spawned w ++ [(repo, "git" :: args)])
             (console w ++ echo so ro (git (spawned w) repo ("git" :: args)))
             (stdin w)).
Proof.
  intros H. unfold run_git, mbind, M_bind, bind, get. simpl. rewrite H. simpl.
  unfold add_spawn, add_line. rewrite H.
  destruct (git (spawned w) repo ("git" :: args)) as [p| |msg]; simpl;
    [destruct ro, so; simpl;
     try destruct (Py.nonempty (stdout p)); try destruct (Py.nonempty (stderr p));
     simpl | |];
    unfold ret, add_line; simpl; rewrite ?app_nil_r, <- ?app_assoc; reflexivity.
Qed.

(** With a project selected the executor spawns exactly one process and
    never answers [None]. *)
Lemma run_git_selected args so ro w repo :
  current_repo w = Some repo ->
  exists r w',
    run_git git args so ro w = (Ok r, w') /\
    r <> RNone /\
    (ro = true -> (exists p, r = RResult p) \/ r = RBool false) /\
    spawned w' = spawned w ++ [(repo, "git" :: args)] /\
    current_repo w' = current_repo w /\
    config w' = config w /\ disk w' = disk w /\ stdin w' = stdin w.
Proof.
  intros H. unfold run_git, mbind, M_bind, bind, get. simpl. rewrite H. simpl.
  destruct (git (spawned w) repo ("git" :: args)) as [p| |msg]; simpl;
    [destruct ro; simpl;
     [|destruct so; simpl;
       [destruct (Py.nonempty (stdout p)), (Py.nonempty (stderr p)); simpl|]]| |];
    (eexists _, _; split; [reflexivity|];
     split; [discriminate|]; split; [|repeat split; simpl; congruence];
     first [discriminate | intros _; eauto]).
Qed.

(** C4.  With no project selected, [run_git] answers [None] for every
    argument list and spawns no process (the list of spawned processes
    is unchanged); and [None] tells this failure apart from every run
    with a project selected, which never answers [None]. *)
Theorem run_git_no_project_selected (args : list string) (so ro : bool) (w : world) :
  current_repo w = None ->
  fst (run_git git args so ro w) = Ok RNone /\
  spawned (snd (run_git git args so ro w)) = spawned w /\
  forall args' so' ro' w',
    is_Some (current_repo w') ->
    fst (run_git git args' so' ro' w') <> fst (run_git git args so ro w).
Proof.
  intros H. rewrite (run_git_unselected args so ro w H). simpl.
  split; [reflexivity|]. split; [reflexivity|].
  intros args' so' ro' w' [repo Hr].
  destruct (run_git_selected args' so' ro' w' repo Hr) as (r & w'' & -> & Hne & _).
  simpl. congruence.
Qed.

(** *** The change-set analyzer *)

Lemma paths_of_cons c line changes :
  paths_of c (line :: changes) =
    (if from_option (category_eqb c) false (first_match line)
     then [Py.drop 3 line] else []) ++ paths_of c changes.
Proof.
  unfold paths_of. simpl.
  destruct (from_option (category_eqb c) false (first_match line)); reflexivity.
Qed.

(** The loop appends to each list the paths of its category, in order. *)
Lemma categorize_loop changes : forall acc,
  foldl categorize_line acc changes =
    mkChanges (added acc ++ paths_of Added changes)
              (modified acc ++ paths_of Modified changes)
              (deleted acc ++ paths_of Deleted changes)
              (renamed acc ++ paths_of Renamed changes)
              (total acc).
Proof.
  induction changes as [|line changes IH]; intros acc.
  - destruct acc. simpl. unfold paths_of. simpl. rewrite !app_nil_r. reflexivity.
  - simpl. rewrite IH. rewrite !paths_of_cons.
    unfold categorize_line, first_match.
    destruct (Py.has_char "A" (Py.take 2 line)); simpl;
      [rewrite <- ?app_assoc; reflexivity|].
    destruct (Py.has_char "M" (Py.take 2 line)); simpl;
      [rewrite <- ?app_assoc; reflexivity|].
    destruct (Py.has_char "D" (Py.take 2 line)); simpl;
      [rewrite <- ?app_assoc; reflexivity|].
    destruct (Py.has_char "R" (Py.take 2 line)); simpl;
      rewrite <- ?app_assoc; reflexivity.
Qed.

(** Every line falls in exactly one of five classes. *)
Lemma classes_partition changes :
  length (paths_of Added changes) + length (paths_of Modified changes) +
  length (paths_of Deleted changes) + length (paths_of Renamed changes) +
  length (unmatched changes) = length changes.
Proof.
  induction changes as [|line changes IH]; [reflexivity|].
  rewrite !paths_of_cons. unfold unmatched in *. simpl.
  destruct (first_match line) as [[]|]; simpl; rewrite ?length_app; simpl; lia.
Qed.

(** C1.  For every sequence of status lines, [analyze_changes] puts the
    path of each line in the list of its first matching code, in the
    order A, M, D, R: [added] holds the paths of the lines whose code
    contains A, [modified] those of the remaining lines whose code
    contains M, then D, then R, each in input order.  Lines that match
    no code are in none of the lists, [total] is the number of lines,
    the four lists together with the unmatched lines account for every
    line once, and the four lengths add up to at most [total]. *)
Theorem categorize_first_match (changes : list string) :
  added (categorize changes) = paths_of Added changes /\
  modified (categorize changes) = paths_of Modified changes /\
  deleted (categorize changes) = paths_of Deleted changes /\
  renamed (categorize changes) = paths_of Renamed changes /\
  total (categorize changes) = length changes /\
  length (added (categorize changes)) + length (modified (categorize changes)) +
  length (deleted (categorize changes)) + length (renamed (categorize changes)) +
  length (unmatched changes) = total (categorize changes) /\
  length (added (categorize changes)) + length (modified (categorize changes)) +
  length (deleted (categorize changes)) + length (renamed (categorize changes))
    <= total (categorize changes).
Proof.
  unfold categorize. rewrite categorize_loop. simpl.
  pose proof (classes_partition changes).
  repeat split; try reflexivity; lia.
Qed.

(** What [analyze_changes] answers once the status process has run. *)
Lemma analyze_changes_eval w repo :
  current_repo w = Some repo ->
  let o := git (spawned w) repo ["git"; "status"; "--porcelain"] in
  let w1 := mkWorld (Some repo) (config w) (disk w)
                    (spawned w ++ [(repo, ["git"; "status"; "--porcelain"])])
                    (console w ++ echo false true o) (stdin w) in
  analyze_changes git w =
    match o with
    | Completed r =>
        if Py.nonempty (Py.strip (stdout r)) then
          (Ok (Some (categorize (Py.split Py.newline (Py.strip (stdout r))))), w1)
        else (Ok None, add_line "✨ Nenhuma mudança detectada!" w1)
    | _ => (Ok None, add_line "✨ Nenhuma mudança detectada!" w1)
    end.
Proof.
  intros H o w1. unfold analyze_changes, mbind, M_bind, bind, get. rewrite H.
  rewrite (run_git_eval _ _ _ _ _ H). fold o. fold w1.
  destruct o as [r| |msg]; simpl; try reflexivity.
  destruct (Py.nonempty (Py.strip (stdout r))); reflexivity.
Qed.

(** *** The content classifier *)

(** [analyze_diff_content] always answers, and only ever adds to the
    spawned processes and the console. *)
Lemma analyze_diff_content_total w :
  exists patterns w', analyze_diff_content git findall_count w = (Ok patterns, w').
Proof.
  unfold analyze_diff_content, mbind, M_bind, bind, get.
  destruct (current_repo w) as [repo|] eqn:H; [|eexists _, _; reflexivity].
  rewrite (run_git_eval _ _ _ _ _ H).
  destruct (git (spawned w) repo ["git"; "diff"; "--cached"]) as [r| |msg]; simpl.
  - destruct (Py.nonempty (stdout r)); eexists _, _; reflexivity.
  - erewrite run_git_eval by reflexivity. simpl.
    destruct (git _ repo ["git"; "diff"]) as [r| |msg]; simpl;
      try destruct (Py.nonempty (stdout r)); eexists _, _; reflexivity.
  - erewrite run_git_eval by reflexivity. simpl.
    destruct (git _ repo ["git"; "diff"]) as [r| |msg']; simpl;
      try destruct (Py.nonempty (stdout r)); eexists _, _; reflexivity.
Qed.

(** *** The suggestion generator *)

Lemma unique_from_elem seen l s :
  s ∈ unique_from seen l <-> s ∈ l /\ s ∉ seen.
Proof.
  revert seen. induction l as [|x l IH]; intros seen; simpl.
  - set_solver.
  - destruct (decide (x ∈ seen)).
    + rewrite IH. set_solver.
    + rewrite elem_of_cons, IH. destruct (decide (s = x)); set_solver.
Qed.

Lemma unique_from_NoDup seen l : NoDup (unique_from seen l).
Proof.
  revert seen. induction l as [|x l IH]; intros seen; simpl.
  - constructor.
  - destruct (decide (x ∈ seen)); [apply IH|].
    constructor; [|apply IH].
    rewrite unique_from_elem. set_solver.
Qed.

Lemma size_fresh (x : string) (T : gset string) :
  x ∉ T -> size ({[x]} ∪ T) = S (size T).
Proof.
  intros H. rewrite size_union by set_solver. rewrite size_singleton. reflexivity.
Qed.

Lemma split_fresh (x : string) (T seen : gset string) :
  x ∉ seen ->
  ({[x]} ∪ T) ∖ seen = {[x]} ∪ (T ∖ ({[x]} ∪ seen)).
Proof.
  intros Hx. apply set_eq. intros y. destruct (decide (y = x)); set_solver.
Qed.

(** Where a string ends up: at the index that counts the distinct strings
    not yet seen before its first occurrence. *)
Lemma unique_from_lookup l : forall (seen : gset string) i s,
  unique_from seen l !! i = Some s <->
  exists j, l !! j = Some s /\ s ∉ seen /\ s ∉ take j l /\
            i = size (list_to_set (take j l) ∖ seen : gset string).
Proof.
  induction l as [|x l IH]; intros seen i s; simpl.
  - split; [intros H; inversion H | intros (j & H & _); inversion H].
  - destruct (decide (x ∈ seen)) as [Hx|Hx].
    + rewrite IH. split.
      * intros (j & Hj & Hs & Ht & ->). exists (S j). simpl.
        repeat split; [assumption|assumption|set_solver|].
        f_equal. set_solver.
      * intros ([|j] & Hj & Hs & Ht & ->); simpl in *.
        { inversion Hj; subst. contradiction. }
        exists j. repeat split; [assumption|assumption|set_solver|].
        f_equal. set_solver.
    + destruct i as [|i]; simpl.
      * split.
        { intros H. inversion H; subst. exists 0. simpl.
          repeat split; [assumption|set_solver|].
          symmetry. apply (size_empty_iff (C:=gset string)). set_solver. }
        { intros ([|j] & Hj & Hs & Ht & Hi); simpl in *; [congruence|].
          symmetry in Hi. apply (size_empty_iff (C:=gset string)) in Hi. set_solver. }
      * rewrite IH. split.
        { intros (j & Hj & Hs & Ht & ->). exists (S j). simpl.
          repeat split; [assumption|set_solver|set_solver|].
          rewrite split_fresh by assumption.
          rewrite size_fresh by set_solver. reflexivity. }
        { intros ([|j] & Hj & Hs & Ht & Hi); simpl in *.
          - exfalso.
            assert (E : size (list_to_set [] ∖ seen : gset string) = 0)
              by (apply size_empty_iff; set_solver).
            simpl in E. rewrite E in Hi. discriminate.
          - exists j.
            assert (s <> x) by set_solver.
            repeat split; [assumption|set_solver|set_solver|].
            rewrite split_fresh in Hi by assumption.
            rewrite size_fresh in Hi by set_solver. lia. }
Qed.

(** What [generate_commit_suggestions] answers on a change set, given the
    scores the classifier finds. *)
Lemma generate_eval ci w patterns w' :
  analyze_diff_content git findall_count w = (Ok patterns, w') ->
  generate_commit_suggestions git findall_count (Some ci) w =
    (Ok (take 8 (unique_suggestions
                   (assemble_suggestions ci
                      (added ci ++ modified ci ++ deleted ci ++ renamed ci)
                      (snd (get_file_extension_stats
                              (added ci ++ modified ci ++ deleted ci ++ renamed ci)))
                      patterns))), w').
Proof.
  intros H. unfold generate_commit_suggestions, mbind, M_bind, bind.
  rewrite H. reflexivity.
Qed.

(** C2.  The generator ends by removing duplicates and cutting to 8, in
    that order ([finish_suggestions]), and this is what the two steps do
    to any list whatever:
    removing duplicates loses no string of the list and adds none; the
    result after the cut has at most 8 entries and no duplicate, and a
    string is at index [i] of it exactly when [i < 8] and [i] different
    strings come before its first occurrence in the list.  So
    strings are compared by equality, the first occurrence is the one
    kept, a later equal string changes no position, and the cut counts
    different strings, not entries.  For every change set and session the
    answer of the generator is these two steps applied to the list its
    rules assembled, and so has at most 8 entries and no duplicate. *)
Theorem suggestions_deduplicated_then_cut :
  (forall suggestions : list string,
     let out := finish_suggestions suggestions in
     length out <= 8 /\
     NoDup out /\
     (forall s, s ∈ unique_suggestions suggestions <-> s ∈ suggestions) /\
     forall i s,
       out !! i = Some s <->
       i < 8 /\
       exists j, suggestions !! j = Some s /\ s ∉ take j suggestions /\
                 i = size (list_to_set (take j suggestions) : gset string)) /\
  (forall (ci : changes_info) (w : world),
     exists patterns out w',
       analyze_diff_content git findall_count w = (Ok patterns, w') /\
       generate_commit_suggestions git findall_count (Some ci) w = (Ok out, w') /\
       let all_files := added ci ++ modified ci ++ deleted ci ++ renamed ci in
       let assembled :=
         assemble_suggestions ci all_files (snd (get_file_extension_stats all_files))
                              patterns in
       out = finish_suggestions assembled /\
       length out <= 8 /\
       NoDup out).
Proof.
  split.
  - intros suggestions. cbv zeta. unfold finish_suggestions.
    split; [rewrite length_take; lia|].
    split; [eapply sublist_NoDup; [apply unique_from_NoDup|apply sublist_take]|].
    split.
    + intros s. unfold unique_suggestions. rewrite unique_from_elem. set_solver.
    + intros i s. rewrite lookup_take_Some. unfold unique_suggestions.
      rewrite unique_from_lookup. split.
      * intros [(j & Hj & _ & Ht & ->) Hi]. split; [assumption|].
        exists j. rewrite difference_empty_L in *. auto.
      * intros [Hi (j & Hj & Ht & ->)]. split; [|assumption].
        exists j. rewrite difference_empty_L. repeat split; auto. set_solver.
  - intros ci w.
    destruct (analyze_diff_content_total w) as (patterns & w' & Hp).
    eexists patterns, _, w'. split; [exact Hp|].
    split; [apply (generate_eval _ _ _ _ Hp)|].
    cbv zeta. split; [reflexivity|]. unfold finish_suggestions.
    split; [rewrite length_take; lia|].
    eapply sublist_NoDup; [apply unique_from_NoDup|apply sublist_take].
Qed.


(** When the staged diff completes, its output alone is scored: the
    working-tree diff is not asked for, whatever the staged diff printed. *)
Lemma analyze_diff_content_staged w repo r :
  current_repo w = Some repo ->
  git (spawned w) repo ["git"; "diff"; "--cached"] = Completed r ->
  analyze_diff_content git findall_count w =
    (Ok (if Py.nonempty (stdout r) then score_diff findall_count (stdout r) else ∅),
     mkWorld (Some repo) (config w) (disk w)
             (spawned w ++ [(repo, ["git"; "diff"; "--cached"])])
             (console w) (stdin w)).
Proof.
  intros H Hg. unfold analyze_diff_content, mbind, M_bind, bind, get. rewrite H.
  rewrite (run_git_eval _ _ _ _ _ H), Hg. simpl. rewrite app_nil_r.
  destruct (Py.nonempty (stdout r)); reflexivity.
Qed.

(** *** Synchronisation *)

(** Unfolds the monad around the next call. *)
Ltac run := unfold mbind, M_bind, bind, get, print, modify, mret, M_ret, ret.

(** Uses what is known of a process, [H : git h repo argv = o], at the
    call of the goal with the same history and arguments. *)
Ltac outcome H :=
  match type of H with
  | git ?h' ?repo ?a' = ?o =>
      match goal with
      | |- context [git ?h repo ?a] =>
          unify a a'; unify h h';
          let E := fresh in
          assert (E : git h repo a = o) by exact H; rewrite E; clear E
      end
  end.

(** What [quick_sync] does when its pull fails. *)
Lemma quick_sync_pull_failed w repo r :
  current_repo w = Some repo ->
  git (spawned w) repo ["git"; "branch"; "--show-current"] = Completed r ->
  let show := (repo, ["git"; "branch"; "--show-current"]) in
  let pull := (repo, ["git"; "pull"; "origin"; Py.strip (stdout r)]) in
  let o := git (spawned w ++ [show]) repo (snd pull) in
  succeeded o = false ->
  quick_sync git w =
    (Ok tt,
     mkWorld (Some repo) (config w) (disk w)
             (spawned w ++ [show; pull])
             (console w ++
              ["🔄 Sincronizando branch '" +:+ Py.strip (stdout r) +:+ "'..."] ++
              echo true false o ++
              ["⚠️ Pull falhou. Verifique conflitos."])
             (stdin w)).
Proof.
  intros H Hshow show pull o Ho.
  unfold quick_sync. run. rewrite H.
  rewrite (run_git_eval _ _ _ _ _ H), Hshow. simpl.
  erewrite run_git_eval by reflexivity. simpl.
  change (git (spawned w ++ [(repo, ["git"; "branch"; "--show-current"])]) repo
              ["git"; "pull"; "origin"; Py.strip (stdout r)]) with o.
  assert (Ha : truthy (answer false o) = false).
  { destruct o as [p| |msg]; simpl in *; auto. }
  rewrite Ha. unfold add_line. simpl.
  rewrite <- !app_assoc. reflexivity.
Qed.

(** The unpushed-commit query and the push come only after a pull that
    succeeded: without one, [quick_sync] spawns neither. *)
Lemma quick_sync_push_only_after_pull w :
  pull_succeeds git w = false ->
  Forall (fun s => subcommand s <> "push" /\ subcommand s <> "log")
         (drop (length (spawned w)) (spawned (snd (quick_sync git w)))).
Proof.
  unfold pull_succeeds. intros Hp.
  destruct (current_repo w) as [repo|] eqn:H.
  - destruct (git (spawned w) repo ["git"; "branch"; "--show-current"])
      as [r| |msg] eqn:Hs.
    + rewrite (quick_sync_pull_failed w repo r H Hs Hp). simpl.
      rewrite drop_app_length. repeat constructor; simpl; discriminate.
    + unfold quick_sync. run. rewrite H.
      rewrite (run_git_eval _ _ _ _ _ H), Hs. simpl.
      rewrite drop_app_length. repeat constructor; simpl; discriminate.
    + unfold quick_sync. run. rewrite H.
      rewrite (run_git_eval _ _ _ _ _ H), Hs. simpl.
      rewrite drop_app_length. repeat constructor; simpl; discriminate.
  - unfold quick_sync. run. rewrite H. simpl. rewrite drop_all. constructor.
Qed.

(** C5.  When the pull of [quick_sync] fails (the process does not
    complete with exit code 0), the operation spawns the branch query and
    the pull and nothing else: no [git log] for unpushed commits, no
    [git push].  What it reports is the synchronisation banner, what the
    pull printed, and the pull-failure message as the last line. *)
Theorem quick_sync_stops_on_pull_failure (w : world) (repo : string)
    (r : CompletedProcess) :
  current_repo w = Some repo ->
  let show := (repo, ["git"; "branch"; "--show-current"]) in
  git (spawned w) repo (snd show) = Completed r ->
  let branch := Py.strip (stdout r) in
  let pull := (repo, ["git"; "pull"; "origin"; branch]) in
  let o := git (spawned w ++ [show]) repo (snd pull) in
  succeeded o = false ->
  exists w',
    quick_sync git w = (Ok tt, w') /\
    spawned w' = spawned w ++ [show; pull] /\
    Forall (fun s => subcommand s <> "push" /\ subcommand s <> "log")
           (drop (length (spawned w)) (spawned w')) /\
    console w' = console w ++
                 ["🔄 Sincronizando branch '" +:+ branch +:+ "'..."] ++
                 echo true false o ++
                 ["⚠️ Pull falhou. Verifique conflitos."].
Proof.
  intros H show Hshow branch pull o Ho.
  eexists. split; [exact (quick_sync_pull_failed w repo r H Hshow Ho)|].
  simpl. split; [reflexivity|]. split; [|reflexivity].
  rewrite drop_app_length.
  repeat constructor; simpl; discriminate.
Qed.

(** *** Configuration *)

(** C7.  Setting a key that the configuration dictionary does not hold
    fails: the dictionary in memory and the file on disk are both left as
    they were, nothing is spawned, and only the refusal is printed.  The
    keys the function knows are those of the dictionary at the time of the
    call, not a fixed set: a key merged from the configuration file is
    accepted. *)
Theorem set_config_unknown_key (key value : string) (w : world) :
  key ∉ dom (config w) ->
  exists w',
    set_config key value w = (Ok tt, w') /\
    config w' = config w /\
    disk w' = disk w /\
    current_repo w' = current_repo w /\
    spawned w' = spawned w /\
    console w' = console w ++
      ["❌ Configuração '" +:+ key +:+
       "' não existe. Use 'config' para ver opções disponíveis."].
Proof.
  intros H. apply not_elem_of_dom in H.
  unfold set_config. run. rewrite H.
  eexists. split; [reflexivity|]. repeat split; reflexivity.
Qed.

(** A key the configuration holds is updated and the whole dictionary is
    written to disk. *)
Lemma set_config_known_key key value w :
  key ∈ dom (config w) ->
  write_fault (disk w) = None ->
  exists w',
    set_config key value w = (Ok tt, w') /\
    is_Some (config w' !! key) /\
    saved (disk w') = Json (config w').
Proof.
  intros H Hd. apply elem_of_dom in H as [v Hv].
  unfold set_config. run. rewrite Hv.
  destruct (member key ["auto_fetch"]); simpl;
    unfold save_config; run; simpl; rewrite Hd;
    destruct (folder_exists (disk w)); simpl;
    (eexists; split; [reflexivity|]; simpl; split; [|reflexivity]);
    rewrite lookup_insert_eq; eauto.
Qed.

(** *** Upstream tracking *)

Lemma quick_push_repairs_upstream w repo branch l v :
  current_repo w = Some repo ->
  let log := (repo, ["git"; "log"; "--oneline"; "origin/" +:+ branch +:+ ".." +:+ branch]) in
  let listing := (repo, ["git"; "branch"; "-vv"]) in
  let track := (repo, ["git"; "branch"; "--set-upstream-to"; "origin/" +:+ branch; branch]) in
  let push := (repo, ["git"; "push"; "origin"; branch]) in
  git (spawned w) repo (snd log) = Completed l ->
  Py.nonempty (Py.strip (stdout l)) = true ->
  git (spawned w ++ [log]) repo (snd listing) = Completed v ->
  Py.contains ("[origin/" +:+ branch +:+ "]") (stdout v) = false ->
  spawned (snd (quick_push git (Some branch) w)) = spawned w ++ [log; listing; track; push].
Proof.
  intros H log listing track push Hl Hne Hv Hc.
  unfold log in Hl. unfold log, listing in Hv. simpl in Hl, Hv.
  unfold quick_push, push_branch. run. rewrite H.
  rewrite (run_git_eval _ _ _ _ _ H), Hl. simpl. rewrite Hne.
  erewrite run_git_eval by reflexivity. simpl. rewrite Hv. simpl.
  unfold lacks_upstream. rewrite Hc. simpl. run. simpl.
  erewrite run_git_eval by reflexivity. simpl.
  erewrite run_git_eval by reflexivity. simpl.
  rewrite <- !app_assoc. simpl.
  match goal with
  | |- context [answer true ?o] => destruct o as [p| |msg]; simpl
  end; [destruct (returncode p =? 0)%Z; simpl;
        unfold when; repeat (match goal with |- context [if ?b then _ else _] =>
                                               destruct b end; simpl) | |];
    reflexivity.
Qed.

Lemma quick_commit_repairs_upstream w repo message name email r v :
  current_repo w = Some repo ->
  config w !! "user.name" = Some (PyStr name) -> Py.nonempty name = true ->
  config w !! "user.email" = Some (PyStr email) -> Py.nonempty email = true ->
  let scope := if Py.nonempty repo then "--local" else "--global" in
  let add := (repo, ["git"; "add"; "."]) in
  let id_name := (repo, ["git"; "config"; scope; "user.name"; name]) in
  let id_email := (repo, ["git"; "config"; scope; "user.email"; email]) in
  let show := (repo, ["git"; "branch"; "--show-current"]) in
  let listing := (repo, ["git"; "branch"; "-vv"]) in
  let branch := Py.strip (stdout r) in
  let track := (repo, ["git"; "branch"; "--set-upstream-to"; "origin/" +:+ branch; branch]) in
  let commit := (repo, ["git"; "commit"; "-m"; message]) in
  succeeded (git (spawned w) repo (snd add)) = true ->
  git (spawned w ++ [add; id_name; id_email]) repo (snd show) = Completed r ->
  git (spawned w ++ [add; id_name; id_email; show]) repo (snd listing) = Completed v ->
  Py.contains ("[origin/" +:+ branch +:+ "]") (stdout v) = false ->
  spawned (snd (quick_commit git message w)) =
    spawned w ++ [add; id_name; id_email; show; listing; track; commit].
Proof.
  intros H Hn Hnn He Hen scope add id_name id_email show listing branch track commit
         Ha Hr Hv Hc.
  unfold add in Ha. unfold add, id_name, id_email, show in Hr.
  unfold add, id_name, id_email, show, listing in Hv.
  unfold scope in Hr, Hv. simpl in Ha, Hr, Hv.
  unfold quick_commit. run. simpl.
  erewrite run_git_eval by (simpl; exact H). simpl.
  assert (Hok : truthy (answer false (git (spawned w) repo ["git"; "add"; "."])) = true).
  { destruct (git (spawned w) repo ["git"; "add"; "."]); simpl in *; auto;
      discriminate. }
  rewrite Hok. simpl.
  unfold config_truthy. simpl. rewrite Hn, He. simpl. rewrite Hnn, Hen. simpl.
  unfold commit_with_identity, set_git_identity. run. simpl.
  unfold config_truthy, config_value. simpl. rewrite Hn, He. simpl.
  rewrite Hnn, Hen. simpl.
  unfold run_git_values. simpl.
  erewrite run_git_eval by reflexivity. simpl.
  erewrite run_git_eval by reflexivity. simpl.
  erewrite run_git_eval by reflexivity. simpl.
  rewrite <- !app_assoc. simpl.
  outcome Hr. simpl.
  erewrite run_git_eval by reflexivity. simpl.
  rewrite <- !app_assoc. simpl. outcome Hv.
  unfold lacks_upstream. unfold branch in Hc. simpl in Hc. simpl. rewrite Hc.
  simpl. run. simpl.
  erewrite run_git_eval by reflexivity. simpl.
  erewrite run_git_eval by reflexivity. simpl.
  rewrite <- !app_assoc. simpl.
  match goal with
  | |- context [truthy ?a] => destruct (truthy a)
  end; reflexivity.
Qed.

(** C6.  A push on a branch that has a commit to send (the log against
    [origin/<branch>] prints something) and whose verbose listing lacks
    [[origin/<branch>]] spawns, after the listing, the command that sets
    the upstream and then the push itself, whatever the former answers;
    the commit flow does the same before it commits.  [quick_push] looks
    at the log first: on a branch whose log prints nothing it returns
    before the listing. *)
Theorem upstream_set_before_push_and_commit :
  (forall w repo branch l v,
     current_repo w = Some repo ->
     let log := (repo, ["git"; "log"; "--oneline";
                        "origin/" +:+ branch +:+ ".." +:+ branch]) in
     let listing := (repo, ["git"; "branch"; "-vv"]) in
     let track := (repo, ["git"; "branch"; "--set-upstream-to";
                          "origin/" +:+ branch; branch]) in
     let push := (repo, ["git"; "push"; "origin"; branch]) in
     git (spawned w) repo (snd log) = Completed l ->
     Py.nonempty (Py.strip (stdout l)) = true ->
     git (spawned w ++ [log]) repo (snd listing) = Completed v ->
     Py.contains ("[origin/" +:+ branch +:+ "]") (stdout v) = false ->
     spawned (snd (quick_push git (Some branch) w)) =
       spawned w ++ [log; listing; track; push]) /\
  (forall w repo message name email r v,
     current_repo w = Some repo ->
     config w !! "user.name" = Some (PyStr name) -> Py.nonempty name = true ->
     config w !! "user.email" = Some (PyStr email) -> Py.nonempty email = true ->
     let scope := if Py.nonempty repo then "--local" else "--global" in
     let add := (repo, ["git"; "add"; "."]) in
     let id_name := (repo, ["git"; "config"; scope; "user.name"; name]) in
     let id_email := (repo, ["git"; "config"; scope; "user.email"; email]) in
     let show := (repo, ["git"; "branch"; "--show-current"]) in
     let listing := (repo, ["git"; "branch"; "-vv"]) in
     let branch := Py.strip (stdout r) in
     let track := (repo, ["git"; "branch"; "--set-upstream-to";
                          "origin/" +:+ branch; branch]) in
     let commit := (repo, ["git"; "commit"; "-m"; message]) in
     succeeded (git (spawned w) repo (snd add)) = true ->
     git (spawned w ++ [add; id_name; id_email]) repo (snd show) = Completed r ->
     git (spawned w ++ [add; id_name; id_email; show]) repo (snd listing) = Completed v ->
     Py.contains ("[origin/" +:+ branch +:+ "]") (stdout v) = false ->
     spawned (snd (quick_commit git message w)) =
       spawned w ++ [add; id_name; id_email; show; listing; track; commit]).
Proof.
  split.
  - intros. apply quick_push_repairs_upstream with (l := l) (v := v); assumption.
  - intros. apply quick_commit_repairs_upstream with (r := r) (v := v); assumption.
Qed.

(** *** Nothing to analyse *)

(** On a change set the generator always asks git for the staged diff
    first. *)
Lemma generate_spawns_diff ci w repo :
  current_repo w = Some repo ->
  exists suggestions w' more,
    generate_commit_suggestions git findall_count (Some ci) w = (Ok suggestions, w') /\
    spawned w' = spawned w ++ (repo, ["git"; "diff"; "--cached"]) :: more.
Proof.
  intros H. unfold generate_commit_suggestions, analyze_diff_content. run. rewrite H.
  rewrite (run_git_eval _ _ _ _ _ H). simpl.
  destruct (git (spawned w) repo ["git"; "diff"; "--cached"]) as [r| |msg]; simpl.
  - destruct (Py.nonempty (stdout r)); eexists _, _, []; split; reflexivity.
  - erewrite run_git_eval by reflexivity. simpl.
    destruct (git _ repo ["git"; "diff"]) as [r| |msg]; simpl;
      try destruct (Py.nonempty (stdout r)); eexists _, _, [_]; simpl;
      rewrite <- app_assoc; split; reflexivity.
  - erewrite run_git_eval by reflexivity. simpl.
    destruct (git _ repo ["git"; "diff"]) as [r| |msg']; simpl;
      try destruct (Py.nonempty (stdout r)); eexists _, _, [_]; simpl;
      rewrite <- app_assoc; split; reflexivity.
Qed.

(** C8.  When [git status --porcelain] prints nothing (or blanks only),
    [analyze_changes] answers [None], not a change set; [smart_status]
    and [smart_commit] then stop at once: each spawns the status query
    and nothing else, although the generator, whenever it runs on a
    change set, spawns the staged diff.  So the generator was not run. *)
Theorem no_changes_short_circuit (w : world) (repo : string) (r : CompletedProcess)
    (number : option ordinal) :
  current_repo w = Some repo ->
  let status := (repo, ["git"; "status"; "--porcelain"]) in
  git (spawned w) repo (snd status) = Completed r ->
  Py.strip (stdout r) = "" ->
  fst (analyze_changes git w) = Ok None /\
  (exists w',
     smart_status git findall_count w = (Ok None, w') /\
     spawned w' = spawned w ++ [status] /\
     console w' = console w ++
       ["🔍 Analisando mudanças..."; Py.repeat "-" 50; "✨ Nenhuma mudança detectada!"]) /\
  (exists w',
     smart_commit git findall_count py number None w = (Ok tt, w') /\
     spawned w' = spawned w ++ [status] /\
     console w' = console w ++
       ["✨ Nenhuma mudança detectada!"; "❌ Nenhuma mudança para commit!"]) /\
  (forall ci w0,
     current_repo w0 = Some repo ->
     exists suggestions w1 more,
       generate_commit_suggestions git findall_count (Some ci) w0 = (Ok suggestions, w1) /\
       spawned w1 = spawned w0 ++ (repo, ["git"; "diff"; "--cached"]) :: more).
Proof.
  intros H status Hs He. unfold status in *. simpl in Hs.
  split; [|split; [|split]].
  - rewrite (analyze_changes_eval w repo H). cbv zeta. rewrite Hs, He. reflexivity.
  - unfold smart_status. run. simpl.
    erewrite analyze_changes_eval by (simpl; exact H). cbv zeta. simpl.
    rewrite Hs, He. simpl.
    eexists. split; [reflexivity|]. simpl. rewrite <- !app_assoc. split; reflexivity.
  - unfold smart_commit. run. simpl.
    rewrite (analyze_changes_eval w repo H). cbv zeta. rewrite Hs, He. simpl.
    eexists. split; [reflexivity|]. simpl. rewrite <- !app_assoc. split; reflexivity.
  - intros ci w0 H0. apply generate_spawns_diff. exact H0.
Qed.

(** *** Properties kept along a whole command *)

Section Preservation.

(** [P] is a property of the processes spawned so far that survives one
    more process, provided that process is [ok]. *)
Variable P : list spawn -> Prop.
Variable ok : spawn -> Prop.
Hypothesis P_snoc : forall l s, P l -> ok s -> P (l ++ [s]).
Hypothesis ok_other : forall repo sub rest,
  String.eqb sub "add" = false -> ok (repo, "git" :: sub :: rest).
Hypothesis ok_add : forall repo file,
  is_ignored file = false -> ok (repo, ["git"; "add"; file]).

Lemma preserves_mret {A} (a : A) : preserves P (mret a).
Proof. intros w H. exact H. Qed.

Lemma preserves_bind {A B} (m : M A) (k : A -> M B) :
  preserves P m -> (forall a, preserves P (k a)) -> preserves P (m ≫= k).
Proof.
  intros Hm Hk w H. unfold mbind, M_bind, bind. specialize (Hm w H).
  destruct (m w) as [[a|e] w1]; simpl in *; [apply Hk|]; assumption.
Qed.

Lemma preserves_get : preserves P get.
Proof. intros w H. exact H. Qed.

Lemma preserves_print s : preserves P (print s).
Proof. intros w H. exact H. Qed.

Lemma preserves_input s : preserves P (input s).
Proof. intros w H. unfold input. destruct (stdin w); exact H. Qed.

Lemma preserves_set_config_dict (f : world -> gmap string pyval) :
  preserves P (modify (fun w => set_config_dict (f w) w)).
Proof. intros w H. exact H. Qed.

Lemma preserves_save_config : preserves P save_config.
Proof.
  intros w H. unfold save_config, raise. run. simpl.
  destruct (folder_exists (disk w)), (write_fault (disk w)) as [[msg|msg|msg why]|];
    exact H.
Qed.

Lemma preserves_when c m : preserves P m -> preserves P (when c m).
Proof. intros Hm. destruct c; [exact Hm|apply preserves_mret]. Qed.

Lemma preserves_for_each {A} (l : list A) (body : A -> M unit) :
  (forall x, x ∈ l -> preserves P (body x)) -> preserves P (for_each l body).
Proof.
  induction l as [|x l IH]; intros Hb; simpl.
  - apply preserves_mret.
  - apply preserves_bind; [apply Hb; left|]. intros _. apply IH.
    intros y Hy. apply Hb. right. exact Hy.
Qed.

Lemma preserves_try_except {A} (m h : M A) :
  preserves P m -> preserves P h -> preserves P (try_except m h).
Proof.
  intros Hm Hh w H. unfold try_except. specialize (Hm w H).
  destruct (m w) as [[a|e] w1]; simpl in *; [assumption|apply Hh; assumption].
Qed.

Lemma preserves_run_git args so ro :
  (forall repo, ok (repo, "git" :: args)) -> preserves P (run_git git args so ro).
Proof.
  intros Hok w H. destruct (current_repo w) as [repo|] eqn:E.
  - rewrite (run_git_eval _ _ _ _ _ E). simpl. apply P_snoc; [exact H|apply Hok].
  - rewrite (run_git_unselected _ _ _ _ E). exact H.
Qed.

Lemma preserves_run_git_config rest so ro :
  preserves P (run_git_values git (PyStr "config" :: rest) so ro).
Proof.
  unfold run_git_values. simpl.
  destruct (mapM _ rest) as [strs|]; simpl.
  - apply preserves_run_git. intros repo. apply ok_other. reflexivity.
  - intros w H. run. destruct (current_repo w); exact H.
Qed.

(** One step of a preservation proof: the rule of the construct at the
    head of the computation. *)
Ltac preserve_step :=
  first
    [ apply preserves_mret
    | apply preserves_get
    | apply preserves_print
    | apply preserves_input
    | apply preserves_save_config
    | apply preserves_set_config_dict
    | apply preserves_run_git_config
    | apply preserves_run_git; intros; apply ok_other; reflexivity
    | apply preserves_when
    | apply preserves_try_except
    | apply preserves_for_each; intros
    | apply preserves_bind; [|intros]
    | match goal with
      | |- preserves _ (match ?x with _ => _ end) => destruct x
      | |- preserves _ (if ?b then _ else _) => destruct b
      end ].

Ltac preserve := cbv zeta; repeat preserve_step.

Lemma preserves_analyze_changes : preserves P (analyze_changes git).
Proof. unfold analyze_changes. preserve. Qed.

Lemma preserves_analyze_diff_content :
  preserves P (analyze_diff_content git findall_count).
Proof. unfold analyze_diff_content. preserve. Qed.

Lemma preserves_generate changes :
  preserves P (generate_commit_suggestions git findall_count changes).
Proof.
  unfold generate_commit_suggestions. destruct changes; [|apply preserves_mret].
  cbv zeta. apply preserves_bind; [apply preserves_analyze_diff_content|].
  intros. apply preserves_mret.
Qed.

Lemma preserves_smart_status : preserves P (smart_status git findall_count).
Proof.
  unfold smart_status.
  do 2 (apply preserves_bind; [apply preserves_print|intros _]).
  apply preserves_bind; [apply preserves_analyze_changes|intros [ci|]];
    [|apply preserves_mret].
  do 7 (apply preserves_bind; [preserve|intros _]).
  apply preserves_bind; [apply preserves_generate|intros suggestions].
  destruct suggestions; [apply preserves_mret|].
  preserve.
Qed.

Lemma preserves_set_git_identity b : preserves P (set_git_identity git b).
Proof. unfold set_git_identity. preserve. Qed.

Lemma preserves_commit_with_identity message :
  preserves P (commit_with_identity git message).
Proof.
  unfold commit_with_identity.
  apply preserves_bind; [apply preserves_set_git_identity|intros ok'].
  preserve.
Qed.

Lemma preserves_quick_commit message : preserves P (quick_commit git message).
Proof.
  unfold quick_commit.
  apply preserves_bind; [apply preserves_print|intros _].
  apply preserves_bind.
  { apply preserves_run_git. intros repo. apply ok_add. reflexivity. }
  intros staged. destruct (negb (truthy staged)); [apply preserves_mret|].
  apply preserves_bind; [apply preserves_get|intros w].
  destruct (_ || _); [|apply preserves_commit_with_identity].
  do 3 (apply preserves_bind; [preserve|intros ?]).
  cbv zeta. destruct (_ && _); [|apply preserves_print].
  do 2 (apply preserves_bind; [preserve|intros ?]).
  apply preserves_commit_with_identity.
Qed.

Lemma preserves_smart_commit number custom :
  preserves P (smart_commit git findall_count py number custom).
Proof.
  unfold smart_commit, confirm_and_commit.
  destruct (from_option _ _ custom); [apply preserves_quick_commit|].
  apply preserves_bind; [apply preserves_analyze_changes|intros [ci|]];
    [|apply preserves_print].
  apply preserves_bind; [apply preserves_generate|intros suggestions].
  destruct suggestions as [|first rest]; [apply preserves_print|].
  destruct number as [o|].
  - destruct (int_of_ordinal py o); [|apply preserves_print].
    cbv zeta. destruct (_ && _)%bool; [|apply preserves_print].
    do 2 (apply preserves_bind; [preserve|intros ?]).
    destruct (member _ _); [apply preserves_quick_commit|apply preserves_print].
  - do 2 (apply preserves_bind; [preserve|intros ?]).
    destruct (member _ _); [apply preserves_quick_commit|apply preserves_print].
Qed.

(** No path the staging loop keeps is an ignored one. *)
Lemma files_to_add_filter changes :
  files_to_add changes =
    List.filter (fun file => negb (is_ignored file)) (map (Py.drop 3) changes).
Proof.
  unfold files_to_add.
  assert (G : forall acc,
             foldl (fun acc line =>
                      if negb (is_ignored (Py.drop 3 line))
                      then acc ++ [Py.drop 3 line] else acc) acc changes =
             acc ++ List.filter (fun file => negb (is_ignored file))
                                (map (Py.drop 3) changes)).
  { induction changes as [|line changes IH]; intros acc; simpl.
    - rewrite app_nil_r. reflexivity.
    - rewrite IH. destruct (negb (is_ignored (Py.drop 3 line)));
        [rewrite <- app_assoc|]; reflexivity. }
  apply (G []).
Qed.

Lemma files_to_add_unignored changes file :
  file ∈ files_to_add changes -> is_ignored file = false.
Proof.
  rewrite files_to_add_filter, list_elem_of_In, filter_In.
  intros [_ H]. apply negb_true_iff in H. exact H.
Qed.

Lemma preserves_auto_stage : preserves P (auto_stage_and_suggest git findall_count py).
Proof.
  unfold auto_stage_and_suggest.
  apply preserves_bind; [apply preserves_get|intros w].
  destruct (current_repo w); [|apply preserves_print].
  apply preserves_bind; [preserve|intros result].
  destruct result as [|r|]; try apply preserves_print.
  destruct (Py.nonempty _); [|apply preserves_print].
  apply preserves_bind; [apply preserves_print|intros _]. cbv zeta.
  pose proof (files_to_add_unignored (Py.split Py.newline (Py.strip (stdout r))))
    as Hfiles.
  destruct (files_to_add _) as [|file files]; [apply preserves_print|].
  apply preserves_bind.
  { apply preserves_for_each. intros x Hx.
    apply preserves_bind; [|intros; apply preserves_mret].
    apply preserves_run_git. intros repo. apply ok_add. apply Hfiles. exact Hx. }
  intros _.
  apply preserves_bind; [apply preserves_print|intros _].
  apply preserves_bind; [apply preserves_smart_status|intros suggestions].
  destruct suggestions as [[|s0 l0]|]; try apply preserves_mret.
  do 2 (apply preserves_bind; [preserve|intros ?]). cbv zeta.
  apply preserves_when. apply preserves_try_except; [|apply preserves_print].
  destruct (py_isdigit _ _); apply preserves_smart_commit.
Qed.

End Preservation.

(** *** Bulk staging *)

Lemma is_ignored_free file : is_ignored file = false <-> free_of_ignored file.
Proof.
  unfold is_ignored, free_of_ignored, ignored_patterns. simpl.
  rewrite !orb_false_iff, !Forall_cons, Forall_nil. tauto.
Qed.

Lemma added_paths_snoc (Q : string -> Prop) n l s :
  Forall Q (added_paths (drop n l)) ->
  Forall Q (added_paths_of s) ->
  Forall Q (added_paths (drop n (l ++ [s]))).
Proof.
  intros Hl Hs. rewrite drop_app. unfold added_paths in *.
  rewrite map_app, concat_app, Forall_app. split; [exact Hl|].
  destruct (n - length l); simpl; [rewrite app_nil_r; exact Hs|].
  rewrite drop_nil. constructor.
Qed.


End Properties.

(** ** The theorems at concrete sessions *)

Lemma run_git_no_project_selected_witness :
  current_repo fresh_world = None /\
  (fst (run_git git_stalled ["status"] true false fresh_world) = Ok RNone /\
   spawned (snd (run_git git_stalled ["status"] true false fresh_world)) = spawned fresh_world /\
   forall args' so' ro' w',
     is_Some (current_repo w') ->
     fst (run_git git_stalled args' so' ro' w') <>
     fst (run_git git_stalled ["status"] true false fresh_world)).
Proof.
  split; [reflexivity|].
  apply (run_git_no_project_selected git_stalled ["status"] true false fresh_world).
  reflexivity.
Defined.

(** C3.  In a repository with nothing staged and an unstaged change,
    [analyze_diff_content] asks for the staged diff only and answers the
    empty score map: the process object it gets back is always true, so
    the working-tree diff, which [git diff] would print, is never read. *)
Theorem analyze_diff_content_skips_working_tree
    (findall_count : string -> string -> nat) :
  git_unstaged_change [("repos/demo", ["git"; "diff"; "--cached"])] "repos/demo"
                      ["git"; "diff"]
    = Completed (mkProc 0 working_tree_diff "") /\
  Py.nonempty working_tree_diff = true /\
  fst (analyze_diff_content git_unstaged_change findall_count demo_world) = Ok ∅ /\
  spawned (snd (analyze_diff_content git_unstaged_change findall_count demo_world))
    = [("repos/demo", ["git"; "diff"; "--cached"])].
Proof.
  split; [reflexivity|]. split; [reflexivity|].
  rewrite (analyze_diff_content_staged git_unstaged_change findall_count
             demo_world "repos/demo" (mkProc 0 "" "")) by reflexivity.
  split; reflexivity.
Qed.


Lemma quick_sync_stops_on_pull_failure_witness :
  let show := ("repos/demo", ["git"; "branch"; "--show-current"]) in
  let pull := ("repos/demo", ["git"; "pull"; "origin"; "main"]) in
  let o := Completed (mkProc 1 "" "CONFLICT (content): Merge conflict in a.py") in
  current_repo demo_world = Some "repos/demo" /\
  git_pull_conflict [] "repos/demo" (snd show)
    = Completed (mkProc 0 ("main" +:+ String Py.newline "") "") /\
  git_pull_conflict [show] "repos/demo" (snd pull) = o /\
  succeeded o = false /\
  exists w',
    quick_sync git_pull_conflict demo_world = (Ok tt, w') /\
    spawned w' = [show; pull] /\
    Forall (fun s => subcommand s <> "push" /\ subcommand s <> "log")
           (drop 0 (spawned w')) /\
    console w' = ["🔄 Sincronizando branch 'main'...";
                  "⚠️ CONFLICT (content): Merge conflict in a.py";
                  "⚠️ Pull falhou. Verifique conflitos."].
Proof.
  cbv zeta. do 4 (split; [reflexivity|]).
  exact (quick_sync_stops_on_pull_failure git_pull_conflict demo_world "repos/demo"
           (mkProc 0 ("main" +:+ String Py.newline "") "")
           eq_refl eq_refl eq_refl).
Defined.

Lemma set_config_unknown_key_witness :
  "colour" ∉ dom (config fresh_world) /\
  exists w',
    set_config "colour" "red" fresh_world = (Ok tt, w') /\
    config w' = config fresh_world /\
    disk w' = disk fresh_world /\
    current_repo w' = current_repo fresh_world /\
    spawned w' = spawned fresh_world /\
    console w' = console fresh_world ++
      ["❌ Configuração 'colour' não existe. Use 'config' para ver opções disponíveis."].
Proof.
  assert (H : "colour" ∉ dom (config fresh_world)).
  { apply not_elem_of_dom. reflexivity. }
  split; [exact H|].
  exact (set_config_unknown_key "colour" "red" fresh_world H).
Defined.

Lemma no_changes_short_circuit_witness :
  let status := ("repos/demo", ["git"; "status"; "--porcelain"]) in
  current_repo demo_world = Some "repos/demo" /\
  git_clean (spawned demo_world) "repos/demo" (snd status) = Completed (mkProc 0 "" "") /\
  Py.strip "" = "" /\
  fst (analyze_changes git_clean demo_world) = Ok None /\
  (exists w',
     smart_status git_clean no_match demo_world = (Ok None, w') /\
     spawned w' = [status] /\
     console w' =
       ["🔍 Analisando mudanças..."; Py.repeat "-" 50; "✨ Nenhuma mudança detectada!"]) /\
  (exists w',
     smart_commit git_clean no_match ascii_only None None demo_world = (Ok tt, w') /\
     spawned w' = [status] /\
     console w' =
       ["✨ Nenhuma mudança detectada!"; "❌ Nenhuma mudança para commit!"]) /\
  (forall ci w0,
     current_repo w0 = Some "repos/demo" ->
     exists suggestions w1 more,
       generate_commit_suggestions git_clean no_match (Some ci) w0 = (Ok suggestions, w1) /\
       spawned w1 = spawned w0 ++ ("repos/demo", ["git"; "diff"; "--cached"]) :: more).
Proof.
  cbv zeta. do 3 (split; [reflexivity|]).
  exact (no_changes_short_circuit git_clean no_match ascii_only demo_world "repos/demo"
           (mkProc 0 "" "") None eq_refl eq_refl eq_refl).
Defined.

Lemma upstream_set_before_push_and_commit_witness :
  spawned (snd (quick_push git_no_upstream (Some "main") demo_world)) =
    [("repos/demo", ["git"; "log"; "--oneline"; "origin/main..main"]);
     ("repos/demo", ["git"; "branch"; "-vv"]);
     ("repos/demo", ["git"; "branch"; "--set-upstream-to"; "origin/main"; "main"]);
     ("repos/demo", ["git"; "push"; "origin"; "main"])] /\
  spawned (snd (quick_commit git_no_upstream "fix login" identified_world)) =
    [("repos/demo", ["git"; "add"; "."]);
     ("repos/demo", ["git"; "config"; "--local"; "user.name"; "Ana"]);
     ("repos/demo", ["git"; "config"; "--local"; "user.email"; "ana@example.org"]);
     ("repos/demo", ["git"; "branch"; "--show-current"]);
     ("repos/demo", ["git"; "branch"; "-vv"]);
     ("repos/demo", ["git"; "branch"; "--set-upstream-to"; "origin/main"; "main"]);
     ("repos/demo", ["git"; "commit"; "-m"; "fix login"])].
Proof.
  split.
  - exact (proj1 (upstream_set_before_push_and_commit git_no_upstream)
             demo_world "repos/demo" "main"
             (mkProc 0 "abc1234 fix login" "") (mkProc 0 "* main abc1234 fix login" "")
             eq_refl eq_refl eq_refl eq_refl eq_refl).
  - exact (proj2 (upstream_set_before_push_and_commit git_no_upstream)
             identified_world "repos/demo" "fix login" "Ana" "ana@example.org"
             (mkProc 0 ("main" +:+ String Py.newline "") "")
             (mkProc 0 "* main abc1234 fix login" "")
             eq_refl eq_refl eq_refl eq_refl eq_refl eq_refl eq_refl eq_refl eq_refl).
Defined.

(** ** Where three claims stop holding *)

(** C6, as worded, at a branch that [origin] does not have: the listing
    lacks the [[origin/feature]] marker, yet [quick_push] sets no upstream
    and pushes nothing.  The log against [origin/feature] prints nothing,
    so the function reports that there is no new commit and returns; the
    log is the only process. *)
Lemma quick_push_unpublished_branch_not_pushed :
  let log := ("repos/demo", ["git"; "log"; "--oneline"; "origin/feature..feature"]) in
  let w' := snd (quick_push git_unpublished (Some "feature") demo_world) in
  (exists r, git_unpublished [log] "repos/demo" ["git"; "branch"; "-vv"] = Completed r /\
             Py.contains "[origin/feature]" (stdout r) = false) /\
  spawned w' = [log] /\
  Forall (fun s => subcommand s <> "push" /\ subcommand s <> "branch") (spawned w') /\
  console w' = ["ℹ️ Nenhum commit novo para enviar em 'feature'."].
Proof.
  cbv zeta. split; [eexists; split; reflexivity|].
  split; [reflexivity|]. split; [|reflexivity].
  repeat constructor; discriminate.
Qed.

(** C7, as worded, at a key outside the recognised set that the
    configuration file holds: [load_config] merges it into the
    dictionary, and [set_config] then accepts it, changes it in memory and
    writes it to the file. *)
Lemma set_config_loaded_key_accepted :
  let w := snd (load_config themed_world) in
  let w' := snd (set_config "colour" "blue" w) in
  member "colour" spec_recognized_keys = false /\
  config w !! "colour" = Some (PyStr "red") /\
  fst (set_config "colour" "blue" w) = Ok tt /\
  config w' !! "colour" = Some (PyStr "blue") /\
  saved (disk w') = Json (config w') /\
  console w' = ["✅ colour = blue"].
Proof. cbv zeta. repeat split; reflexivity. Qed.


(** ** Worked sessions *)

(** Status lines of every kind: a conflict line ([UU]) is counted in
    [total] and listed nowhere. *)
Example categorize_mixed :
  categorize ["M  a.py"; " D b.txt"; "?? c"; "AM d.py"; "R  x -> y"; "UU e.c"] =
    mkChanges ["d.py"] ["a.py"] ["b.txt"] ["x -> y"] 6.
Proof. reflexivity. Qed.

(** Two added files and no pattern score: the suggestions are the
    "adds 2 files" entry and the small-update entry. *)
Example suggestions_two_added :
  fst (generate_commit_suggestions git_stalled no_match (Some two_added) demo_world) =
    Ok ["➕ Add: Adiciona 2 novos arquivos";
        "🔄 Update: Pequenas atualizações (2 arquivos)"].
Proof. vm_compute. reflexivity. Qed.

(** A repeated string keeps the place of its first occurrence. *)
Example unique_keeps_first :
  unique_suggestions ["a"; "b"; "a"; "c"; "b"] = ["a"; "b"; "c"].
Proof. vm_compute. reflexivity. Qed.

(** Bulk staging, then the first suggestion committed: the log file is
    not handed to [git add]; the commit itself adds the current
    directory. *)
Example staging_session :
  map snd (spawned (snd (auto_stage_and_suggest git_two_changes no_match ascii_only staging_world))) =
    [["git"; "status"; "--porcelain"];
     ["git"; "add"; "a.py"];
     ["git"; "status"; "--porcelain"];
     ["git"; "diff"; "--cached"];
     ["git"; "status"; "--porcelain"];
     ["git"; "diff"; "--cached"];
     ["git"; "add"; "."];
     ["git"; "config"; "--local"; "user.name"; "Ana"];
     ["git"; "config"; "--local"; "user.email"; "ana@example.org"];
     ["git"; "branch"; "--show-current"];
     ["git"; "branch"; "-vv"];
     ["git"; "branch"; "--set-upstream-to"; "origin/"; ""];
     ["git"; "commit"; "-m"; "🔄 Update: Pequenas atualizações (2 arquivos)"]].
Proof. vm_compute. reflexivity. Qed.

(** A recognised key is stored and written to disk. *)
Example set_config_editor :
  let w := snd (set_config "editor" "vim" fresh_world) in
  config w !! "editor" = Some (PyStr "vim") /\ saved (disk w) = Json (config w).
Proof. vm_compute. split; reflexivity. Qed.

(** What [int] makes of ASCII text, whatever the interpreter does beyond
    it: white space around and a sign are accepted, underscores only
    between digits. *)
Example py_int_reads (py : interpreter) :
  py_int py "2" = Some 2%Z /\ py_int py " 2 " = Some 2%Z /\
  py_int py "+2" = Some 2%Z /\ py_int py "-2" = Some (-2)%Z /\
  py_int py "1_0" = Some 10%Z /\ py_int py "007" = Some 7%Z /\
  py_int py "1__0" = None /\ py_int py "_1" = None /\ py_int py "1_" = None /\
  py_int py "" = None /\ py_int py "+" = None /\ py_int py "+ 2" = None /\
  py_int py "٢" = int_beyond py "٢".
Proof. repeat split; reflexivity. Qed.

(** ** Further properties of the session commands *)

(** *** File categories *)

Lemma dd_get_update {V} (f : V -> V) (d : V) k k' (cats : list (string * V)) :
  dd_get (dd_update f d k cats) k' d =
    if String.eqb k k' then f (dd_get cats k' d) else dd_get cats k' d.
Proof.
  unfold dd_get. induction cats as [|[k0 v] cats IH]; simpl.
  - destruct (String.eqb_spec k k'); reflexivity.
  - destruct (String.eqb_spec k0 k) as [->|Hk0]; simpl.
    + destruct (String.eqb_spec k k'); reflexivity.
    + destruct (String.eqb_spec k0 k') as [->|Hk']; simpl.
      * destruct (String.eqb_spec k k'); [congruence|reflexivity].
      * exact IH.
Qed.

Lemma dd_update_keys {V} (f : V -> V) (d : V) k (cats : list (string * V)) :
  map fst (dd_update f d k cats) =
    if member k (map fst cats) then map fst cats else map fst cats ++ [k].
Proof.
  unfold member. induction cats as [|[k0 v] cats IH]; simpl; [reflexivity|].
  destruct (String.eqb_spec k0 k) as [->|Hk0].
  - rewrite String.eqb_refl. reflexivity.
  - assert (E : String.eqb k k0 = false) by (apply String.eqb_neq; congruence).
    rewrite E. simpl. rewrite IH. destruct (existsb _ _); reflexivity.
Qed.

Lemma member_spec x l : member x l = true <-> x ∈ l.
Proof.
  unfold member. rewrite existsb_exists. split.
  - intros (y & Hy & E). apply String.eqb_eq in E. subst. apply list_elem_of_In. exact Hy.
  - intros H. exists x. split; [apply list_elem_of_In; exact H|apply String.eqb_refl].
Qed.

(** The category a file falls in. *)
Lemma category_of_ext_cases ext :
  category_of_ext ext ∈
    ["code"; "frontend"; "docs"; "config"; "database"; "images"; "other"].
Proof.
  unfold category_of_ext.
  repeat (match goal with |- context [if ?b then _ else _] => destruct b end);
    set_solver.
Qed.

(** X1.  [get_file_extension_stats] puts every file in exactly one
    category: the list kept under a tag is the files whose lowercased
    suffix belongs to that tag, in input order; no tag is kept twice, none
    with an empty list, every tag is one of the seven, and the lists
    together have as many entries as there are files. *)
Theorem file_categories_partition (files : list string) :
  let categories := snd (get_file_extension_stats files) in
  let category_of file := category_of_ext (Py.lower (PyPath.suffix file)) in
  (forall tag,
     dd_get categories tag [] =
       List.filter (fun file => String.eqb (category_of file) tag) files) /\
  NoDup (map fst categories) /\
  (forall tag l, (tag, l) ∈ categories ->
     l <> [] /\
     tag ∈ ["code"; "frontend"; "docs"; "config"; "database"; "images"; "other"]) /\
  length (concat (map snd categories)) = length files.
Proof.
  cbv zeta. unfold get_file_extension_stats.
  induction files as [|file files IH] using rev_ind.
  - simpl. repeat split; try constructor; intros; try reflexivity; set_solver.
  - rewrite foldl_snoc. unfold ext_stats_step at 1. simpl.
    set (acc := foldl ext_stats_step ([], []) files) in *.
    set (tag0 := category_of_ext (Py.lower (PyPath.suffix file))).
    destruct IH as (Hget & Hnd & Hne & Hlen).
    split; [|split; [|split]].
    + intros tag. rewrite dd_get_update, List.filter_app, Hget. simpl.
      fold tag0. destruct (String.eqb tag0 tag); [reflexivity|].
      rewrite app_nil_r. reflexivity.
    + rewrite dd_update_keys. destruct (member tag0 (map fst acc.2)) eqn:E; [exact Hnd|].
      apply NoDup_app. split; [exact Hnd|]. split; [|apply NoDup_singleton].
      intros x Hx Hx'. apply list_elem_of_singleton in Hx'. subst.
      apply member_spec in Hx. congruence.
    + intros tag l Hin.
      assert (Hl : dd_get (dd_update (fun l => l ++ [file]) [] tag0 acc.2) tag [] = l).
      { revert Hin.
        assert (Hnd' : NoDup (map fst (dd_update (fun l => l ++ [file]) [] tag0 acc.2))).
        { rewrite dd_update_keys.
          destruct (member tag0 (map fst acc.2)) eqn:E; [exact Hnd|].
          apply NoDup_app. split; [exact Hnd|]. split; [|apply NoDup_singleton].
          intros x Hx Hx'. apply list_elem_of_singleton in Hx'. subst.
          apply member_spec in Hx. congruence. }
        revert Hnd'. generalize (dd_update (fun l => l ++ [file]) [] tag0 acc.2).
        intros cats. unfold dd_get.
        induction cats as [|[k v] cats IHc]; simpl; intros Hnd' Hin; [inversion Hin|].
        apply NoDup_cons in Hnd' as [Hk Hnd'].
        apply elem_of_cons in Hin as [E|Hin].
        - inversion E; subst. rewrite String.eqb_refl. reflexivity.
        - destruct (String.eqb_spec k tag) as [->|]; [|apply IHc; assumption].
          exfalso. apply Hk. apply list_elem_of_fmap. exists (tag, l). split; auto. }
      rewrite dd_get_update in Hl.
      destruct (String.eqb_spec tag0 tag) as [<-|Hneq].
      * split; [subst l; destruct (dd_get acc.2 tag0 []); discriminate|].
        apply category_of_ext_cases.
      * assert (Hin' : (tag, l) ∈ acc.2).
        { clear -Hin Hneq. induction (acc.2) as [|[k v] cats IHc]; simpl in Hin.
          - apply list_elem_of_singleton in Hin. congruence.
          - destruct (String.eqb_spec k tag0) as [->|].
            + apply elem_of_cons in Hin as [E|Hin]; [congruence|]. right. exact Hin.
            + apply elem_of_cons in Hin as [E|Hin]; [rewrite E; left|right; auto]. }
        apply Hne. exact Hin'.
    + rewrite length_app. simpl. rewrite <- Hlen. clear.
      induction (acc.2) as [|[k v] cats IHc]; simpl; [reflexivity|].
      destruct (String.eqb k tag0); simpl; rewrite ?length_app in *; simpl; lia.
Qed.

(** *** Duplicates *)

Lemma unique_from_fresh seen l :
  NoDup l -> (forall s, s ∈ l -> s ∉ seen) -> unique_from seen l = l.
Proof.
  revert seen. induction l as [|x l IH]; intros seen Hnd Hfresh; simpl; [reflexivity|].
  apply NoDup_cons in Hnd as [Hx Hnd].
  destruct (decide (x ∈ seen)) as [Hin|_].
  - exfalso. apply (Hfresh x); [left|exact Hin].
  - f_equal. apply IH; [exact Hnd|].
    intros s Hs. specialize (Hfresh s (list_elem_of_further _ _ _ Hs)).
    assert (s <> x) by (intros ->; contradiction). set_solver.
Qed.

(** X2.  Removing duplicates leaves a list without duplicates as it is,
    keeps exactly the strings of the list, and done twice gives what it
    gives once. *)
Theorem unique_suggestions_idempotent (suggestions : list string) :
  (NoDup suggestions -> unique_suggestions suggestions = suggestions) /\
  (forall s, s ∈ unique_suggestions suggestions <-> s ∈ suggestions) /\
  unique_suggestions (unique_suggestions suggestions) = unique_suggestions suggestions.
Proof.
  unfold unique_suggestions. split; [|split].
  - intros Hnd. apply unique_from_fresh; [exact Hnd|set_solver].
  - intros s. rewrite (unique_from_elem no_match). set_solver.
  - apply unique_from_fresh; [apply (unique_from_NoDup no_match)|set_solver].
Qed.

Section Extras.

Variable git : list spawn -> string -> list string -> spawn_outcome.
Variable findall_count : string -> string -> nat.
Variable py : interpreter.

(** Unfolds the monad around the next call. *)
Ltac run := unfold mbind, M_bind, bind, get, print, modify, mret, M_ret, ret.

(** *** Pattern scores *)

Lemma count_fold diff pats n :
  foldl (fun c pattern => c + findall_count pattern diff) n pats =
    n + sum_list (map (fun pattern => findall_count pattern diff) pats).
Proof.
  revert n. induction pats as [|p pats IH]; intros n; simpl; [lia|].
  rewrite IH. lia.
Qed.

Lemma score_fold diff (table : list (string * list string)) :
  forall acc : gmap string nat,
    NoDup (map fst table) ->
    (forall k, k ∈ map fst table -> acc !! k = None) ->
    forall tag,
      foldl (fun detected entry =>
               let count := foldl (fun c pattern => c + findall_count pattern diff)
                                  0 (snd entry) in
               if 0 <? count then <[fst entry := count]> detected else detected)
            acc table !! tag =
      match (list_to_map table : gmap string (list string)) !! tag with
      | Some pats =>
          let n := sum_list (map (fun pattern => findall_count pattern diff) pats) in
          if 0 <? n then Some n else None
      | None => acc !! tag
      end.
Proof.
  induction table as [|[k pats] table IH]; intros acc Hnd Hacc tag.
  - simpl. rewrite lookup_empty. reflexivity.
  - rewrite fmap_cons in Hnd, Hacc. cbn [fst] in Hnd, Hacc.
    apply NoDup_cons in Hnd as [Hk Hnd].
    cbn [foldl fst snd list_to_map foldr uncurry]. rewrite count_fold. cbn [Nat.add].
    rewrite IH; [|exact Hnd|].
    + destruct (decide (k = tag)) as [->|Hne].
      * rewrite lookup_insert_eq.
        rewrite (not_elem_of_list_to_map_1 table tag) by exact Hk. cbv zeta.
        destruct (0 <? _); [apply lookup_insert_eq|].
        apply Hacc. left.
      * rewrite lookup_insert_ne by exact Hne.
        destruct (list_to_map table !! tag); [reflexivity|].
        destruct (0 <? _); [apply lookup_insert_ne; exact Hne|reflexivity].
    + intros k' Hk'.
      assert (k <> k') by (intros ->; contradiction).
      destruct (0 <? _); [rewrite lookup_insert_ne by assumption|];
        apply Hacc; right; exact Hk'.
Qed.

(** X3.  The score map of a diff holds a tag exactly when the patterns of
    that tag match at least once in all, and then it holds the number of
    matches summed over the patterns; so every score is positive, and
    only the six tags of the table can appear. *)
Theorem score_diff_positive_only (diff : string) :
  (forall tag pats,
     (tag, pats) ∈ patterns_table ->
     score_diff findall_count diff !! tag =
       let n := sum_list (map (fun pattern => findall_count pattern diff) pats) in
       if 0 <? n then Some n else None) /\
  (forall tag n,
     score_diff findall_count diff !! tag = Some n ->
     0 < n /\
     tag ∈ ["bug_fixes"; "features"; "refactoring"; "tests"; "docs"; "style"]).
Proof.
  assert (Hnd : NoDup (map fst patterns_table)).
  { apply (bool_decide_unpack _). vm_compute. exact I. }
  assert (Hlook : forall tag,
            score_diff findall_count diff !! tag =
              match (list_to_map patterns_table : gmap string (list string)) !! tag with
              | Some pats =>
                  let n := sum_list (map (fun pattern => findall_count pattern diff) pats) in
                  if 0 <? n then Some n else None
              | None => None
              end).
  { intros tag. unfold score_diff. rewrite (score_fold diff patterns_table ∅ Hnd).
    - rewrite lookup_empty. reflexivity.
    - intros. apply lookup_empty. }
  split.
  - intros tag pats Hin. rewrite Hlook.
    rewrite (elem_of_list_to_map_1 patterns_table tag pats Hnd Hin). reflexivity.
  - intros tag n. rewrite Hlook.
    destruct (list_to_map patterns_table !! tag) as [pats|] eqn:E; [|discriminate].
    cbv zeta. destruct (Nat.ltb_spec 0 (sum_list (map (fun p => findall_count p diff) pats)));
      [|discriminate].
    intros [= <-]. split; [assumption|].
    apply elem_of_list_to_map_2 in E.
    apply (list_elem_of_fmap_2 fst) in E. exact E.
Qed.

(** *** Which diff is scored *)

(** X4.  With a project selected, [analyze_diff_content] always asks for
    the staged diff; it asks for the working-tree diff as well exactly
    when the staged diff could not be run (time-out, failure to start),
    and scores the output of the last process it ran.  With no project
    selected it answers the empty map, spawning and printing nothing. *)
Theorem analyze_diff_content_sources (w : world) :
  match current_repo w with
  | None => analyze_diff_content git findall_count w = (Ok ∅, w)
  | Some repo =>
      let staged := (repo, ["git"; "diff"; "--cached"]) in
      let working := (repo, ["git"; "diff"]) in
      let o1 := git (spawned w) repo (snd staged) in
      let o2 := git (spawned w ++ [staged]) repo (snd working) in
      match o1 with
      | Completed _ =>
          fst (analyze_diff_content git findall_count w) = Ok (diff_scores findall_count o1) /\
          spawned (snd (analyze_diff_content git findall_count w)) =
            spawned w ++ [staged]
      | _ =>
          fst (analyze_diff_content git findall_count w) = Ok (diff_scores findall_count o2) /\
          spawned (snd (analyze_diff_content git findall_count w)) =
            spawned w ++ [staged; working]
      end
  end.
Proof.
  destruct (current_repo w) as [repo|] eqn:H.
  - cbv zeta. unfold analyze_diff_content. run. rewrite H.
    rewrite (run_git_eval git _ _ _ _ _ H). simpl.
    destruct (git (spawned w) repo ["git"; "diff"; "--cached"]) as [r| |msg]; simpl.
    + destruct (Py.nonempty (stdout r)); split; reflexivity.
    + erewrite run_git_eval by reflexivity. simpl.
      destruct (git _ repo ["git"; "diff"]) as [r| |msg]; simpl;
        try destruct (Py.nonempty (stdout r)); rewrite <- app_assoc; split; reflexivity.
    + erewrite run_git_eval by reflexivity. simpl.
      destruct (git _ repo ["git"; "diff"]) as [r| |msg']; simpl;
        try destruct (Py.nonempty (stdout r)); rewrite <- app_assoc; split; reflexivity.
  - unfold analyze_diff_content. run. rewrite H. reflexivity.
Qed.

(** *** Pushing *)

(** X5.  [quick_push] on a branch with nothing to send (the log of
    commits ahead of [origin/<branch>] prints nothing, or could not be
    run) spawns that log and nothing else: no listing, no push; it says
    that there is no new commit. *)
Theorem quick_push_nothing_to_send (w : world) (repo branch : string) :
  current_repo w = Some repo ->
  let log := (repo, ["git"; "log"; "--oneline"; "origin/" +:+ branch +:+ ".." +:+ branch]) in
  let o := git (spawned w) repo (snd log) in
  has_output (answer true o) = false ->
  quick_push git (Some branch) w =
    (Ok tt,
     mkWorld (Some repo) (config w) (disk w) (spawned w ++ [log])
             (console w ++ echo false true o ++
              ["ℹ️ Nenhum commit novo para enviar em '" +:+ branch +:+ "'."])
             (stdin w)).
Proof.
  intros H log o Ho. unfold o, log in *. clear o log. simpl snd in *.
  unfold quick_push, push_branch. run. rewrite H.
  rewrite (run_git_eval git _ _ _ _ _ H). simpl.
  destruct (git (spawned w) repo _) as [l| |msg]; simpl in *.
  - rewrite Ho. unfold add_line. simpl. rewrite app_nil_r. reflexivity.
  - unfold add_line. simpl. rewrite <- app_assoc. reflexivity.
  - unfold add_line. simpl. rewrite <- app_assoc. reflexivity.
Qed.

(** X6.  When the verbose listing shows [[origin/<branch>]], [quick_push]
    does not touch the upstream: after the log and the listing it spawns
    the push directly. *)
Theorem quick_push_tracked_branch (w : world) (repo branch : string)
    (l v : CompletedProcess) :
  current_repo w = Some repo ->
  let log := (repo, ["git"; "log"; "--oneline"; "origin/" +:+ branch +:+ ".." +:+ branch]) in
  let listing := (repo, ["git"; "branch"; "-vv"]) in
  let push := (repo, ["git"; "push"; "origin"; branch]) in
  git (spawned w) repo (snd log) = Completed l ->
  Py.nonempty (Py.strip (stdout l)) = true ->
  git (spawned w ++ [log]) repo (snd listing) = Completed v ->
  Py.contains ("[origin/" +:+ branch +:+ "]") (stdout v) = true ->
  spawned (snd (quick_push git (Some branch) w)) = spawned w ++ [log; listing; push].
Proof.
  intros H log listing push Hl Hne Hv Hc.
  unfold log in Hl. unfold log, listing in Hv. simpl in Hl, Hv.
  unfold quick_push, push_branch. run. rewrite H.
  rewrite (run_git_eval git _ _ _ _ _ H), Hl. simpl. rewrite Hne.
  erewrite run_git_eval by reflexivity. simpl. rewrite Hv. simpl.
  unfold lacks_upstream. rewrite Hc. simpl. run. simpl.
  erewrite run_git_eval by reflexivity. simpl.
  rewrite <- !app_assoc. simpl.
  match goal with
  | |- context [answer true ?o] => destruct o as [p| |msg]; simpl
  end; [destruct (returncode p =? 0)%Z; simpl;
        unfold when; repeat (match goal with |- context [if ?b then _ else _] =>
                                               destruct b end; simpl) | |];
    reflexivity.
Qed.

(** X7.  [quick_push] without a branch argument pushes the branch that is
    checked out: once [git branch --show-current] has named it, the
    command goes on as [quick_push] of that branch; when the query names
    nothing (detached head) or cannot be run, nothing more is spawned and
    the failure is reported. *)
Theorem quick_push_current_branch (w : world) (repo : string) :
  current_repo w = Some repo ->
  let show := (repo, ["git"; "branch"; "--show-current"]) in
  let o := git (spawned w) repo (snd show) in
  let w1 := mkWorld (Some repo) (config w) (disk w) (spawned w ++ [show])
                    (console w ++ echo false true o) (stdin w) in
  quick_push git None w =
    match o with
    | Completed r =>
        if Py.nonempty (Py.strip (stdout r))
        then quick_push git (Some (Py.strip (stdout r))) w1
        else (Ok tt, add_line "❌ Não foi possível determinar a branch atual." w1)
    | _ => (Ok tt, add_line "❌ Não foi possível determinar a branch atual." w1)
    end.
Proof.
  intros H show o w1. unfold w1, o, show. clear w1 o show. simpl snd.
  unfold quick_push. run. rewrite H.
  rewrite (run_git_eval git _ _ _ _ _ H).
  destruct (git (spawned w) repo _) as [r| |msg]; simpl; try reflexivity.
  destruct (Py.nonempty (Py.strip (stdout r))); reflexivity.
Qed.

(** *** Committing *)

(** X8.  When [git add .] fails, [quick_commit] stops there: nothing else
    is spawned (no commit), nothing is read from the keyboard, and the
    configuration in memory and on disk is untouched. *)
Theorem quick_commit_stops_when_add_fails (message : string) (w : world)
    (repo : string) :
  current_repo w = Some repo ->
  let add := (repo, ["git"; "add"; "."]) in
  let o := git (spawned w) repo (snd add) in
  succeeded o = false ->
  quick_commit git message w =
    (Ok tt,
     mkWorld (Some repo) (config w) (disk w) (spawned w ++ [add])
             (console w ++ ["📝 Adicionando arquivos..."] ++ echo true false o)
             (stdin w)).
Proof.
  intros H add o Ho. unfold o, add in *. clear o add. simpl snd in *.
  unfold quick_commit. run. simpl.
  erewrite run_git_eval by (simpl; exact H). simpl.
  destruct (git (spawned w) repo _) as [p| |msg]; simpl in *.
  - rewrite Ho. simpl. rewrite <- app_assoc. reflexivity.
  - rewrite <- app_assoc. reflexivity.
  - rewrite <- app_assoc. reflexivity.
Qed.

(** X9.  With no identity in the configuration, [quick_commit] asks for a
    name and an e-mail after staging.  If either answer is blank it gives
    up: no commit is spawned and the configuration is left as it was.
    Otherwise both answers, stripped, are stored under [user.name] and
    [user.email], the configuration is saved, and the commit goes on from
    there. *)
Theorem quick_commit_asks_identity (message : string) (w : world) (repo : string)
    (name email : string) (rest : list string) :
  current_repo w = Some repo ->
  succeeded (git (spawned w) repo ["git"; "add"; "."]) = true ->
  config_truthy w "user.name" && config_truthy w "user.email" = false ->
  stdin w = name :: email :: rest ->
  let w1 := staged_world git w repo in
  let asked :=
    console w1 ++ ["⚠️ Identidade Git não configurada. Configurando agora...";
                   "👤 Digite seu nome para commits Git: ";
                   "📧 Digite seu e-mail para commits Git: "] in
  quick_commit git message w =
    if Py.nonempty (Py.strip name) && Py.nonempty (Py.strip email) then
      (save_config ;; commit_with_identity git message)
        (mkWorld (Some repo)
                 (<["user.email" := PyStr (Py.strip email)]>
                    (<["user.name" := PyStr (Py.strip name)]> (config w)))
                 (disk w) (spawned w1) asked rest)
    else
      (Ok tt,
       mkWorld (Some repo) (config w) (disk w) (spawned w1)
               (asked ++ ["❌ Nome e e-mail são obrigatórios para fazer commits."])
               rest).
Proof.
  intros H Hadd Hid Hin. unfold staged_world. cbv zeta.
  unfold quick_commit. run. simpl.
  erewrite run_git_eval by (simpl; exact H). simpl.
  assert (Hok : truthy (answer false (git (spawned w) repo ["git"; "add"; "."])) = true).
  { destruct (git (spawned w) repo ["git"; "add"; "."]); simpl in *; auto;
      discriminate. }
  rewrite Hok. simpl.
  assert (Hid' : negb (config_truthy w "user.name") || negb (config_truthy w "user.email")
                 = true).
  { destruct (config_truthy w "user.name"), (config_truthy w "user.email");
      simpl in *; congruence. }
  unfold config_truthy in *. simpl. rewrite Hid'.
  unfold input. simpl. rewrite Hin. simpl.
  destruct (Py.nonempty (Py.strip name) && Py.nonempty (Py.strip email)); simpl.
  - unfold set_config_dict, add_line, set_stdin. simpl.
    rewrite <- !app_assoc. reflexivity.
  - unfold set_config_dict, add_line, set_stdin. simpl.
    rewrite <- !app_assoc. reflexivity.
Qed.

(** X10.  [set_git_identity] refuses, spawning nothing, when the name or
    the e-mail is missing from the configuration.  When both are there it
    answers [True] whatever git does with the two [git config] commands:
    it does not look at their results. *)
Theorem set_git_identity_answer (repo_specific : bool) (w : world) :
  (config_truthy w "user.name" && config_truthy w "user.email" = false ->
   set_git_identity git repo_specific w =
     (Ok false,
      add_line "⚠️ Identidade Git não configurada (user.name ou user.email faltando)." w))
  /\
  (config_truthy w "user.name" && config_truthy w "user.email" = true ->
   fst (set_git_identity git repo_specific w) = Ok true).
Proof.
  split; intros Hid.
  - unfold set_git_identity. run.
    destruct (config_truthy w "user.name"), (config_truthy w "user.email");
      simpl in *; try discriminate; reflexivity.
  - unfold set_git_identity. run.
    apply andb_true_iff in Hid as [-> ->]. simpl.
    destruct (run_git_values git _ false false w) as [[a|e] w1] eqn:E1.
    + destruct (run_git_values git _ false false w1) as [[a2|e2] w2] eqn:E2;
        [reflexivity|].
      exfalso. revert E2. unfold run_git_values.
      destruct (mapM _ _); [|run; destruct (current_repo w1); discriminate].
      destruct (current_repo w1) as [r|] eqn:Hr.
      * rewrite (run_git_eval git _ _ _ _ _ Hr). discriminate.
      * rewrite (run_git_unselected git _ _ _ _ Hr). discriminate.
    + exfalso. revert E1. unfold run_git_values.
      destruct (mapM _ _); [|run; destruct (current_repo w); discriminate].
      destruct (current_repo w) as [r|] eqn:Hr.
      * rewrite (run_git_eval git _ _ _ _ _ Hr). discriminate.
      * rewrite (run_git_unselected git _ _ _ _ Hr). discriminate.
Qed.

(** *** Configuration *)

(** X11.  Setting a key the configuration holds replaces its value and
    nothing else: [auto_fetch] gets the boolean that tells whether the
    text, lowercased, is one of [true], [1], [yes], [sim]; any other key
    gets the text itself; no key appears or disappears, and nothing is
    spawned.  The dictionary is then written to disk, and the new value
    stays in memory whatever happens there.  When the file is written, it
    holds the new dictionary.  When [open] fails, the file is what it was
    and the failure is printed before the confirmation.  When the write
    fails after [open] has emptied the file, the old content is lost: the
    file is left unreadable, and the failure is printed before the
    confirmation.  When the folder is missing and cannot be made, the
    [OSError] leaves [set_config] uncaught: nothing is printed and the
    disk is untouched. *)
Theorem set_config_stores (key value : string) (w : world) (old : pyval) :
  config w !! key = Some old ->
  let v := if String.eqb key "auto_fetch"
           then PyBool (member (Py.lower value) ["true"; "1"; "yes"; "sim"])
           else PyStr value in
  let w' := snd (set_config key value w) in
  let confirmation := "✅ " +:+ key +:+ " = " +:+ pyval_str v in
  config w' = <[key := v]> (config w) /\
  dom (config w') = dom (config w) /\
  (forall k, k <> key -> config w' !! k = config w !! k) /\
  spawned w' = spawned w /\
  match folder_exists (disk w), write_fault (disk w) with
  | false, Some (MakedirsFails msg) =>
      fst (set_config key value w) = Raise (OSError msg) /\
      disk w' = disk w /\
      console w' = console w
  | _, Some (OpenFails msg) =>
      fst (set_config key value w) = Ok tt /\
      saved (disk w') = saved (disk w) /\
      console w' = console w ++ ["Erro ao salvar configurações: " +:+ msg; confirmation]
  | _, Some (WriteFails msg why) =>
      fst (set_config key value w) = Ok tt /\
      saved (disk w') = Unreadable why /\
      console w' = console w ++ ["Erro ao salvar configurações: " +:+ msg; confirmation]
  | _, _ =>
      fst (set_config key value w) = Ok tt /\
      saved (disk w') = Json (config w') /\
      console w' = console w ++ [confirmation]
  end.
Proof.
  intros Hk. cbv zeta. unfold set_config. run. rewrite Hk.
  assert (E : member key ["auto_fetch"] = String.eqb key "auto_fetch")
    by (unfold member; simpl; apply orb_false_r).
  rewrite E. clear E.
  unfold save_config, raise. run.
  destruct (String.eqb key "auto_fetch"); simpl;
    destruct (folder_exists (disk w)),
             (write_fault (disk w)) as [[msg|msg|msg why]|]; simpl;
    unfold config_value; simpl; rewrite ?lookup_insert_eq; simpl;
    (split; [reflexivity|]);
    (split; [apply dom_insert_lookup_L; eauto|]);
    (split; [intros k Hne; apply lookup_insert_ne; congruence|]);
    (split; [reflexivity|]);
    (split; [reflexivity|]); split; try reflexivity;
    rewrite <- app_assoc; reflexivity.
Qed.

(** *** Choosing a suggestion *)

(** The generator never answers an empty list on a change set. *)
Lemma generate_nonempty ci w :
  exists first rest w',
    generate_commit_suggestions git findall_count (Some ci) w = (Ok (first :: rest), w').
Proof.
  destruct (analyze_diff_content_total git findall_count w) as (patterns & w' & Hp).
  rewrite (generate_eval _ _ _ _ _ _ Hp).
  set (all_files := added ci ++ modified ci ++ deleted ci ++ renamed ci).
  set (assembled := assemble_suggestions ci all_files _ patterns).
  assert (Hin : volume_suggestion ci all_files ∈ unique_suggestions assembled).
  { unfold unique_suggestions. rewrite (unique_from_elem no_match). split; [|set_solver].
    unfold assembled, assemble_suggestions. rewrite !app_assoc. set_solver. }
  destruct (unique_suggestions assembled) as [|first rest]; [inversion Hin|].
  eexists first, _, w'. reflexivity.
Qed.

(** X12.  [smart_commit] takes the ordinal as a number from 1, read as
    [int] reads it (a number given as such is taken as it is): for a
    number [n] with [1 <= n <= len(suggestions)] it goes on to confirm the
    [n]-th suggestion; for any other number it says which numbers are
    valid, and for text that [int] refuses it says that the number is
    invalid; in both cases it stops, with nothing read from the keyboard
    and nothing spawned after the analysis; with no ordinal it confirms
    the first suggestion. *)
Theorem smart_commit_ordinal (w w1 w2 : world) (ci : changes_info)
    (suggestions : list string) (number : option ordinal) :
  analyze_changes git w = (Ok (Some ci), w1) ->
  generate_commit_suggestions git findall_count (Some ci) w1 = (Ok suggestions, w2) ->
  smart_commit git findall_count py number None w =
    match number with
    | None => confirm_and_commit git (nth 0 suggestions "") w2
    | Some o =>
        match int_of_ordinal py o with
        | Some n =>
            if ((1 <=? n) && (n <=? Z.of_nat (length suggestions)))%Z
            then confirm_and_commit git (nth (Z.to_nat (n - 1)) suggestions "") w2
            else (Ok tt,
                  add_line ("❌ Número inválido. Use 1-" +:+ pretty (length suggestions)) w2)
        | None => (Ok tt, add_line "❌ Número inválido!" w2)
        end
    end.
Proof.
  intros Ha Hg. unfold smart_commit. cbn [from_option].
  unfold mbind, M_bind, bind. rewrite Ha, Hg.
  destruct (generate_nonempty ci w1) as (first & rest & w' & Hne).
  rewrite Hg in Hne. injection Hne as -> ->.
  destruct number as [o|]; [|reflexivity].
  destruct (int_of_ordinal py o) as [n|]; [|reflexivity].
  replace ((0 <=? n - 1)%Z && (n - 1 <? Z.of_nat (length (first :: rest)))%Z)
    with ((1 <=? n)%Z && (n <=? Z.of_nat (length (first :: rest)))%Z).
  - destruct (_ && _); reflexivity.
  - destruct (Z.leb_spec 1 n), (Z.leb_spec 0 (n - 1)); try lia; simpl;
      destruct (Z.leb_spec n (Z.of_nat (length (first :: rest)))),
               (Z.ltb_spec (n - 1) (Z.of_nat (length (first :: rest)))); lia || reflexivity.
Qed.

(** X13.  The confirmation defaults to no: [confirm_and_commit] commits
    only when the answer, lowercased, is [s], [sim], [yes] or [y]; on any
    other answer it spawns nothing and says that the commit is
    cancelled. *)
Theorem commit_needs_confirmation (message answer : string) (rest : list string)
    (w : world) :
  stdin w = answer :: rest ->
  let asked := mkWorld (current_repo w) (config w) (disk w) (spawned w)
                       (console w ++ ["🤖 Commit sugerido: " +:+ message;
                                      "Confirma este commit? (s/N): "])
                       rest in
  confirm_and_commit git message w =
    if member (Py.lower answer) ["s"; "sim"; "yes"; "y"]
    then quick_commit git message asked
    else (Ok tt, add_line "❌ Commit cancelado." asked).
Proof.
  intros Hin. cbv zeta. unfold confirm_and_commit. run. unfold input. simpl.
  rewrite Hin. unfold add_line, set_stdin. simpl. rewrite <- !app_assoc. simpl.
  match goal with |- context [if ?b then _ else _] => destruct b end;
    simpl; rewrite <- ?app_assoc; reflexivity.
Qed.

(** *** Synchronising and pulling *)

(** X14.  After a successful pull, [quick_sync] asks for the commits
    ahead of the upstream and pushes only when there are some: the push,
    when it comes, is the last process and goes to the branch that was
    pulled; otherwise the log is the last process and the session is
    reported as synchronised. *)
Theorem quick_sync_pushes_if_needed (w : world) (repo : string)
    (r : CompletedProcess) :
  current_repo w = Some repo ->
  let show := (repo, ["git"; "branch"; "--show-current"]) in
  git (spawned w) repo (snd show) = Completed r ->
  let branch := Py.strip (stdout r) in
  let pull := (repo, ["git"; "pull"; "origin"; branch]) in
  succeeded (git (spawned w ++ [show]) repo (snd pull)) = true ->
  let log := (repo, ["git"; "log"; "--oneline"; "@{u}..HEAD"]) in
  let push := (repo, ["git"; "push"; "origin"; branch]) in
  let ahead := answer true (git (spawned w ++ [show; pull]) repo (snd log)) in
  let w' := snd (quick_sync git w) in
  if has_output ahead then
    spawned w' = spawned w ++ [show; pull; log; push]
  else
    spawned w' = spawned w ++ [show; pull; log] /\
    last (console w') = Some "✨ Tudo sincronizado! Nenhum push necessário.".
Proof.
  intros H show Hshow branch pull Hpull log push ahead w'.
  unfold w', ahead, log, push, pull, branch, show in *.
  clear w' ahead log push. simpl snd in *.
  unfold quick_sync. run. rewrite H.
  rewrite (run_git_eval git _ _ _ _ _ H), Hshow. simpl.
  erewrite run_git_eval by reflexivity. simpl.
  destruct (git (spawned w ++ [(repo, ["git"; "branch"; "--show-current"])]) repo
                ["git"; "pull"; "origin"; Py.strip (stdout r)]) as [p| |msg];
    simpl in Hpull; try discriminate.
  simpl. rewrite Hpull. simpl.
  erewrite run_git_eval by reflexivity. simpl. rewrite <- !app_assoc. simpl.
  destruct (git _ repo ["git"; "log"; "--oneline"; "@{u}..HEAD"]) as [l| |msg];
    simpl.
  - destruct (Py.nonempty (Py.strip (stdout l))); simpl.
    + erewrite run_git_eval by reflexivity. simpl. rewrite <- !app_assoc. simpl.
      match goal with |- context [truthy ?a] => destruct (truthy a) end; reflexivity.
    + split; [reflexivity|]. unfold add_line. simpl. apply last_snoc.
  - split; [reflexivity|]. unfold add_line. simpl. apply last_snoc.
  - split; [reflexivity|]. unfold add_line. simpl. apply last_snoc.
Qed.

(** X15.  [quick_pull] without a branch argument pulls the branch named
    by [default_branch] in the configuration, [main] when the key is
    missing, and never asks which branch is checked out: the pull is the
    only process it spawns. *)
Theorem quick_pull_default_branch (w : world) (repo branch : string) :
  current_repo w = Some repo ->
  default (PyStr "main") (config w !! "default_branch") = PyStr branch ->
  spawned (snd (quick_pull git None w)) =
    spawned w ++ [(repo, ["git"; "pull"; "origin"; branch])].
Proof.
  intros H Hb. unfold quick_pull. run. simpl. rewrite Hb. simpl.
  unfold run_git_dynamic. simpl.
  erewrite run_git_eval by (simpl; exact H). simpl.
  match goal with |- context [truthy ?a] => destruct (truthy a) end; reflexivity.
Qed.

(** *** Bulk staging of ignored files only *)

(** X16.  When every changed path is an ignored one, the bulk staging
    adds nothing and suggests nothing: the status query is the only
    process, and the user is told that no suitable file was found. *)
Theorem auto_stage_nothing_suitable (w : world) (repo : string)
    (r : CompletedProcess) :
  current_repo w = Some repo ->
  let status := (repo, ["git"; "status"; "--porcelain"]) in
  git (spawned w) repo (snd status) = Completed r ->
  Py.nonempty (Py.strip (stdout r)) = true ->
  Forall (fun line => is_ignored (Py.drop 3 line) = true)
         (Py.split Py.newline (Py.strip (stdout r))) ->
  auto_stage_and_suggest git findall_count py w =
    (Ok tt,
     mkWorld (Some repo) (config w) (disk w) (spawned w ++ [status])
             (console w ++ ["📝 Adicionando arquivos modificados...";
                            "⚠️ Nenhum arquivo adequado para adicionar encontrado."])
             (stdin w)).
Proof.
  intros H status Hs Hne Hall. unfold status in *. clear status. simpl snd in *.
  unfold auto_stage_and_suggest. run. rewrite H.
  rewrite (run_git_eval git _ _ _ _ _ H), Hs. simpl. rewrite Hne.
  assert (E : files_to_add (Py.split Py.newline (Py.strip (stdout r))) = []).
  { rewrite files_to_add_filter.
    induction Hall as [|line lines Hi _ IH]; simpl; [reflexivity|].
    rewrite Hi. simpl. exact IH. }
  rewrite E. unfold add_line. simpl. rewrite app_nil_r, <- app_assoc. reflexivity.
Qed.

(** *** Merging *)

(** X17.  [merge_branch] refuses to merge over pending changes: when the
    status query prints anything, it warns and returns without a checkout
    and without a merge.  The status query is then the last process it has
    spawned, and the only one when a target branch was given; when none
    was given, the query for the current branch, which has to name one,
    comes before it. *)
Theorem merge_branch_refuses_pending (source : string) (target : option string)
    (w : world) (repo : string) (r : CompletedProcess) :
  current_repo w = Some repo ->
  let show := (repo, ["git"; "branch"; "--show-current"]) in
  let status := (repo, ["git"; "status"; "--porcelain"]) in
  let asked := match target with Some _ => [] | None => [show] end in
  (target = None -> has_output (answer true (git (spawned w) repo (snd show))) = true) ->
  git (spawned w ++ asked) repo (snd status) = Completed r ->
  Py.nonempty (Py.strip (stdout r)) = true ->
  merge_branch git source target w =
    (Ok Returned,
     mkWorld (Some repo) (config w) (disk w) (spawned w ++ asked ++ [status])
             (console w ++
              ["⚠️ Existem mudanças pendentes. Faça commit ou stash antes do merge."])
             (stdin w)).
Proof.
  intros H show status asked Hshow Hs Hne.
  unfold asked, status, show in *. clear asked status show. simpl snd in *.
  unfold merge_branch. run. rewrite H.
  destruct target as [target|].
  - rewrite app_nil_r in Hs. unfold merge_into. run.
    rewrite (run_git_eval git _ _ _ _ _ H), Hs. simpl. rewrite Hne.
    unfold add_line. simpl. rewrite app_nil_r. reflexivity.
  - specialize (Hshow eq_refl).
    rewrite (run_git_eval git _ _ _ _ _ H). simpl. rewrite Hshow.
    destruct (git (spawned w) repo ["git"; "branch"; "--show-current"]) as [b| |msg];
      simpl in Hshow; try discriminate.
    simpl. unfold merge_into. run.
    erewrite run_git_eval by reflexivity. simpl. rewrite Hs. simpl. rewrite Hne.
    unfold add_line. simpl. rewrite !app_nil_r, <- app_assoc. reflexivity.
Qed.

(** X18.  With a clean tree, [merge_branch] asks which branch is checked
    out.  If that is the target it merges at once; if not it checks the
    target out first and merges only when the checkout succeeded.  If the
    query itself cannot be run (time-out, failure to start), the function
    dies of the [AttributeError] raised by reading [.stdout] of [False],
    and no merge is spawned. *)
Theorem merge_branch_checkout_then_merge (source target : string) (w : world)
    (repo : string) :
  current_repo w = Some repo ->
  let status := (repo, ["git"; "status"; "--porcelain"]) in
  let show := (repo, ["git"; "branch"; "--show-current"]) in
  let checkout := (repo, ["git"; "checkout"; target]) in
  let merge := (repo, ["git"; "merge"; source]) in
  has_output (answer true (git (spawned w) repo (snd status))) = false ->
  let result := merge_branch git source (Some target) w in
  match git (spawned w ++ [status]) repo (snd show) with
  | Completed r =>
      fst result = Ok Returned /\
      if String.eqb (Py.strip (stdout r)) target then
        spawned (snd result) = spawned w ++ [status; show; merge]
      else if succeeded (git (spawned w ++ [status; show]) repo (snd checkout)) then
        spawned (snd result) = spawned w ++ [status; show; checkout; merge]
      else
        spawned (snd result) = spawned w ++ [status; show; checkout]
  | _ =>
      fst result = Ok (Crashed "AttributeError: 'bool' object has no attribute 'stdout'") /\
      spawned (snd result) = spawned w ++ [status; show]
  end.
Proof.
  intros H status show checkout merge Hclean result.
  unfold result, status, show, checkout, merge in *.
  clear result status show checkout merge. simpl snd in *.
  unfold merge_branch, merge_into. run. rewrite H.
  rewrite (run_git_eval git _ _ _ _ _ H). simpl. rewrite Hclean.
  erewrite run_git_eval by reflexivity. simpl.
  destruct (git (spawned w ++ [(repo, ["git"; "status"; "--porcelain"])]) repo
                ["git"; "branch"; "--show-current"]) as [r| |msg]; simpl;
    [|rewrite <- app_assoc; split; reflexivity
     |rewrite <- app_assoc; split; reflexivity].
  destruct (String.eqb (Py.strip (stdout r)) target); simpl.
  - erewrite run_git_eval by reflexivity. simpl. rewrite <- !app_assoc. simpl.
    destruct (git _ repo ["git"; "merge"; source]) as [m| |msg]; simpl;
      [destruct (returncode m =? 0)%Z; simpl; [|destruct (Py.nonempty (stderr m))]| |];
      split; reflexivity.
  - erewrite run_git_eval by reflexivity. simpl. rewrite <- !app_assoc. simpl.
    destruct (git _ repo ["git"; "checkout"; target]) as [c| |msg]; simpl;
      [destruct (returncode c =? 0)%Z; simpl| |];
      try (split; reflexivity).
    erewrite run_git_eval by reflexivity. simpl. rewrite <- !app_assoc. simpl.
    destruct (git _ repo ["git"; "merge"; source]) as [m| |msg]; simpl;
      [destruct (returncode m =? 0)%Z; simpl; [|destruct (Py.nonempty (stderr m))]| |];
      split; reflexivity.
Qed.

(** *** Copying a file from another branch *)

(** X19.  [add_file_from_branch] looks for the branch name in the listing
    of all branches, as a piece of text: when the listing completes and
    does not contain the name, nothing else is spawned.  Otherwise (also
    when the listing could not be run) it checks the file out of the
    branch, and adds it to the index only if the checkout succeeded. *)
Theorem add_file_from_branch_steps (branch file : string) (w : world)
    (repo : string) :
  current_repo w = Some repo ->
  let listing := (repo, ["git"; "branch"; "-a"]) in
  let checkout := (repo, ["git"; "checkout"; branch; "--"; file]) in
  let add := (repo, ["git"; "add"; file]) in
  let w' := snd (add_file_from_branch git branch file w) in
  let known :=
    match git (spawned w) repo (snd listing) with
    | Completed r => Py.contains branch (stdout r)
    | _ => true
    end in
  if negb known then spawned w' = spawned w ++ [listing]
  else if succeeded (git (spawned w ++ [listing]) repo (snd checkout))
  then spawned w' = spawned w ++ [listing; checkout; add]
  else spawned w' = spawned w ++ [listing; checkout].
Proof.
  intros H listing checkout add w' known.
  unfold known, w', add, checkout, listing. clear known w' add checkout listing.
  simpl snd. unfold add_file_from_branch. run. rewrite H. simpl.
  erewrite run_git_eval by (simpl; exact H). simpl.
  destruct (git (spawned w) repo ["git"; "branch"; "-a"]) as [r| |]; simpl;
    [destruct (Py.contains branch (stdout r)); simpl; [|reflexivity]| |];
    (erewrite run_git_eval by reflexivity; simpl; rewrite <- !app_assoc; simpl;
     destruct (git _ repo ["git"; "checkout"; branch; "--"; file]) as [c| |]; simpl;
     [destruct (returncode c =? 0)%Z; simpl| |]; try reflexivity;
     erewrite run_git_eval by reflexivity; simpl; rewrite <- !app_assoc; simpl;
     match goal with |- context [truthy ?a] => destruct (truthy a) end; reflexivity).
Qed.

(** *** The workflow advisory *)

(** A computation that answers goes on with what follows it. *)
Lemma bind_ok {A B} (m : M A) (k : A -> M B) (w : world) (a : A) (w1 : world) :
  m w = (Ok a, w1) -> (m ≫= k) w = k a w1.
Proof. intros E. unfold mbind, M_bind, bind. rewrite E. reflexivity. Qed.

(** A loop that only prints adds its lines to the console. *)
Lemma for_each_print {A} (l : list A) (body : A -> M unit) (line : A -> string) :
  (forall x w, body x w = (Ok tt, add_line (line x) w)) ->
  forall w,
    for_each l body w =
      (Ok tt, mkWorld (current_repo w) (config w) (disk w) (spawned w)
                      (console w ++ map line l) (stdin w)).
Proof.
  intros Hb. induction l as [|x l IH]; intros w; simpl.
  - rewrite app_nil_r. destruct w. reflexivity.
  - rewrite (bind_ok (body x) _ w tt _ (Hb x w)). rewrite IH.
    unfold add_line. simpl. rewrite <- app_assoc. reflexivity.
Qed.

(** X20.  With a project selected, [workflow_suggestions] always runs the
    same seven queries in the same order, whatever they answer: unstaged
    names, staged names, untracked files, commits ahead, current branch,
    then a fetch, and only after it the commits behind. *)
Theorem workflow_queries (w : world) (repo : string) :
  current_repo w = Some repo ->
  spawned (snd (workflow_suggestions git w)) =
    spawned w ++
    map (fun args => (repo, "git" :: args))
        [["diff"; "--name-only"];
         ["diff"; "--cached"; "--name-only"];
         ["ls-files"; "--others"; "--exclude-standard"];
         ["log"; "--oneline"; "@{u}..HEAD"];
         ["branch"; "--show-current"];
         ["fetch"];
         ["log"; "--oneline"; "HEAD..@{u}"]].
Proof.
  intros H. destruct w as [cr cfg dsk sp co si]. simpl in H. subst cr.
  unfold workflow_suggestions.
  rewrite (bind_ok get _ _ _ _ eq_refl). cbn [current_repo].
  do 2 (rewrite (bind_ok (print _) _ _ tt _ eq_refl); unfold add_line;
        cbn [current_repo config disk spawned console stdin]).
  do 4 (erewrite (bind_ok (run_git git _ _ _)) by (apply run_git_eval; reflexivity);
        cbn [current_repo config disk spawned console stdin]).
  cbv zeta.
  do 3 (erewrite (bind_ok (run_git git _ _ _)) by (apply run_git_eval; reflexivity);
        cbn [current_repo config disk spawned console stdin]).
  cbv zeta.
  rewrite (bind_ok (print _) _ _ tt _ eq_refl). unfold add_line.
  cbn [current_repo config disk spawned console stdin].
  erewrite (bind_ok (for_each _ _))
    by (apply (for_each_print _ _ (fun x => "  " +:+ pretty (fst x) +:+ ". " +:+ snd x));
        intros [i s] w0; reflexivity).
  cbn [current_repo config disk spawned console stdin].
  do 4 (rewrite (bind_ok (print _) _ _ tt _ eq_refl); unfold add_line;
        cbn [current_repo config disk spawned console stdin]).
  unfold print, modify, add_line.
  cbn [snd current_repo config disk spawned console stdin map].
  rewrite <- !app_assoc. reflexivity.
Qed.


End Extras.

(** ** What the commands leave alone, and selecting a project *)

Section Selection.

Variable git : list spawn -> string -> list string -> spawn_outcome.
Variable repos_folder : string.
Variable isdir : string -> bool.

Lemma keeps_mret {A} (a : A) : keeps_session (mret a).
Proof. intros w. repeat split. Qed.

Lemma keeps_bind {A B} (m : M A) (k : A -> M B) :
  keeps_session m -> (forall a, keeps_session (k a)) -> keeps_session (m ≫= k).
Proof.
  intros Hm Hk w. unfold mbind, M_bind, bind. specialize (Hm w).
  destruct (m w) as [[a|e] w1]; simpl in *; [|exact Hm].
  destruct (Hk a w1) as (H1 & H2 & H3). destruct Hm as (G1 & G2 & G3).
  repeat split; congruence.
Qed.

Lemma keeps_get : keeps_session get.
Proof. intros w. repeat split. Qed.

Lemma keeps_print s : keeps_session (print s).
Proof. intros w. repeat split. Qed.

Lemma keeps_when c m : keeps_session m -> keeps_session (when c m).
Proof. intros Hm. destruct c; [exact Hm|apply keeps_mret]. Qed.

Lemma keeps_for_each {A} (l : list A) (body : A -> M unit) :
  (forall x, keeps_session (body x)) -> keeps_session (for_each l body).
Proof.
  intros Hb. induction l as [|x l IH]; simpl; [apply keeps_mret|].
  apply keeps_bind; [apply Hb|intros _; exact IH].
Qed.

Lemma keeps_run_git args so ro : keeps_session (run_git git args so ro).
Proof.
  intros w. destruct (current_repo w) as [repo|] eqn:E.
  - rewrite (run_git_eval git _ _ _ _ _ E). simpl. repeat split.
  - rewrite (run_git_unselected git _ _ _ _ E). simpl. repeat split. exact E.
Qed.

(** One step of a proof that a command keeps the session. *)
Ltac keep_step :=
  first
    [ apply keeps_mret
    | apply keeps_get
    | apply keeps_print
    | apply keeps_run_git
    | apply keeps_when
    | apply keeps_for_each; intros
    | apply keeps_bind; [|intros]
    | match goal with
      | |- keeps_session (match ?x with _ => _ end) => destruct x
      | |- keeps_session (if ?b then _ else _) => destruct b
      end ].

Ltac keep := cbv zeta; repeat keep_step.

Lemma keeps_quick_status : keeps_session (quick_status git).
Proof. unfold quick_status. keep. Qed.

Lemma keeps_configure_git_credentials : keeps_session (configure_git_credentials git).
Proof. unfold configure_git_credentials. keep. Qed.

(** X22.  None of the commands that only drive git changes the session:
    after [analyze_changes], [quick_status], [quick_push], [quick_sync],
    [workflow_suggestions], [merge_branch], [add_file_from_branch] and
    [configure_git_credentials] the selected project, the configuration
    and the configuration file are what they were, whatever git answers. *)
Theorem git_commands_keep_session :
  keeps_session (analyze_changes git) /\
  keeps_session (quick_status git) /\
  (forall branch, keeps_session (quick_push git branch)) /\
  keeps_session (quick_sync git) /\
  keeps_session (workflow_suggestions git) /\
  (forall source target, keeps_session (merge_branch git source target)) /\
  (forall branch file, keeps_session (add_file_from_branch git branch file)) /\
  keeps_session (configure_git_credentials git).
Proof.
  split; [unfold analyze_changes; keep|].
  split; [apply keeps_quick_status|].
  split; [intros branch; unfold quick_push, push_branch; keep|].
  split; [unfold quick_sync; keep|].
  split; [unfold workflow_suggestions; keep|].
  split; [intros source target; unfold merge_branch, merge_into; keep|].
  split; [intros branch file; unfold add_file_from_branch; keep|].
  apply keeps_configure_git_credentials.
Qed.

(** What [change_project] does once the project is found. *)
Lemma keeps_after_selection :
  keeps_session
    (configure_git_credentials git ;;
     w ← get;
     when (from_option pyval_truthy true (config w !! "auto_fetch"))
       (print "🔄 Atualizando informações do remoto..." ;;
        run_git git ["fetch"] false false ;;
        mret tt) ;;
     quick_status git).
Proof.
  apply keeps_bind; [apply keeps_configure_git_credentials|intros _].
  apply keeps_bind; [apply keeps_get|intros w].
  apply keeps_bind; [keep|intros _]. apply keeps_quick_status.
Qed.

(** X23.  [change_project] never touches the configuration or its file.
    The selection after it is: nothing for the name [..]; the folder of
    that name under [repos] when it is a directory holding a [.git]
    directory; and otherwise what it was before, with nothing spawned. *)
Theorem change_project_selection (name : string) (w : world) :
  let path := PyMore.path_join repos_folder name in
  let found := isdir path && isdir (PyMore.path_join path ".git") in
  let w' := snd (change_project git repos_folder isdir name w) in
  config w' = config w /\
  disk w' = disk w /\
  current_repo w' =
    (if String.eqb name ".." then None
     else if found then Some path else current_repo w) /\
  (String.eqb name ".." || negb found = true -> spawned w' = spawned w).
Proof.
  cbv zeta. unfold change_project.
  destruct (String.eqb name ".."); [repeat split|].
  destruct (isdir _ && isdir _); [|repeat split].
  rewrite (bind_ok (modify _) _ w tt _ eq_refl).
  rewrite (bind_ok (print _) _ _ tt _ eq_refl).
  match goal with
  | |- context [snd (?m ?w0)] =>
      destruct (keeps_after_selection w0) as (H1 & H2 & H3)
  end.
  rewrite H1, H2, H3. simpl. repeat split. discriminate.
Qed.

(** The three queries of [quick_status]. *)
Lemma quick_status_queries (w : world) (repo : string) :
  current_repo w = Some repo ->
  spawned (snd (quick_status git w)) =
    spawned w ++ [(repo, ["git"; "branch"; "--show-current"]);
                  (repo, ["git"; "status"; "--porcelain"]);
                  (repo, ["git"; "status"; "-uno"])].
Proof.
  intros H. destruct w as [cr cfg dsk sp co si]. simpl in H. subst cr.
  unfold quick_status.
  rewrite (bind_ok get _ _ _ _ eq_refl). cbn [current_repo].
  erewrite (bind_ok (run_git git _ _ _)) by (apply run_git_eval; reflexivity).
  cbn [current_repo config disk spawned console stdin].
  match goal with
  | |- context [(?m ≫= _) ?w0] =>
      assert (E1 : exists out, m w0 = (Ok tt, mkWorld (Some repo) cfg dsk
                    (sp ++ [(repo, ["git"; "branch"; "--show-current"])]) out si))
  end.
  { destruct (git sp repo ["git"; "branch"; "--show-current"]); cbn [answer];
      eexists; reflexivity. }
  destruct E1 as [out1 E1]. rewrite (bind_ok _ _ _ _ _ E1). clear E1.
  erewrite (bind_ok (run_git git _ _ _)) by (apply run_git_eval; reflexivity).
  cbn [current_repo config disk spawned console stdin].
  match goal with
  | |- context [(?m ≫= _) ?w0] =>
      assert (E2 : exists out, m w0 = (Ok tt, mkWorld (Some repo) cfg dsk
                    ((sp ++ [(repo, ["git"; "branch"; "--show-current"])]) ++
                     [(repo, ["git"; "status"; "--porcelain"])]) out si))
  end.
  { match goal with |- context [answer true ?o] => destruct o end; cbn [answer];
      [cbv zeta; destruct (Py.nonempty (Py.strip (stdout _)));
       [destruct (Py.split _ _) as [|first l]; [|destruct (Py.nonempty first)]|]| |];
      eexists; reflexivity. }
  destruct E2 as [out2 E2]. rewrite (bind_ok _ _ _ _ _ E2). clear E2.
  erewrite (bind_ok (run_git git _ _ _)) by (apply run_git_eval; reflexivity).
  cbn [current_repo config disk spawned console stdin].
  match goal with |- context [answer true ?o] => destruct o as [r| |msg] end;
    cbn [answer];
    [destruct (Py.nonempty (stdout r)); [destruct (tracking_line _)|]| |];
    cbn [print modify mret M_ret ret add_line snd spawned];
    rewrite <- !app_assoc; reflexivity.
Qed.

Lemma configure_without_token (w : world) :
  config_truthy w "github_token" = false ->
  configure_git_credentials git w = (Ok tt, w).
Proof.
  intros H. unfold configure_git_credentials.
  unfold mbind, M_bind, bind, get. rewrite H. reflexivity.
Qed.

(** X24.  Selecting a project with no token configured runs a fetch first
    when [auto_fetch] is true (or missing), and then the three status
    queries, all of them in the folder just selected. *)
Theorem change_project_queries (name : string) (w : world) :
  String.eqb name ".." = false ->
  let path := PyMore.path_join repos_folder name in
  isdir path && isdir (PyMore.path_join path ".git") = true ->
  config_truthy w "github_token" = false ->
  spawned (snd (change_project git repos_folder isdir name w)) =
    spawned w ++
    (if from_option pyval_truthy true (config w !! "auto_fetch")
     then [(path, ["git"; "fetch"])] else []) ++
    [(path, ["git"; "branch"; "--show-current"]);
     (path, ["git"; "status"; "--porcelain"]);
     (path, ["git"; "status"; "-uno"])].
Proof.
  intros Hname path Hfound Htoken. unfold path in *. clear path.
  unfold change_project. rewrite Hname, Hfound.
  rewrite (bind_ok (modify _) _ w tt _ eq_refl).
  rewrite (bind_ok (print _) _ _ tt _ eq_refl).
  erewrite (bind_ok (configure_git_credentials git))
    by (apply configure_without_token; exact Htoken).
  rewrite (bind_ok get _ _ _ _ eq_refl).
  unfold add_line, set_current_repo.
  cbn [current_repo config disk spawned console stdin].
  destruct (from_option pyval_truthy true (config w !! "auto_fetch")); cbn [when].
  - erewrite (bind_ok (print _ ;; _) _ _ tt)
      by (rewrite (bind_ok (print _) _ _ tt _ eq_refl);
          erewrite (bind_ok (run_git git _ _ _)) by (apply run_git_eval; reflexivity);
          reflexivity).
    rewrite quick_status_queries with (repo := PyMore.path_join repos_folder name)
      by reflexivity.
    cbn [current_repo config disk spawned console stdin]. rewrite <- app_assoc.
    reflexivity.
  - rewrite (bind_ok _ _ _ tt _ eq_refl).
    rewrite quick_status_queries with (repo := PyMore.path_join repos_folder name)
      by reflexivity.
    reflexivity.
Qed.

End Selection.

(** ** The token in the remote URL *)

Lemma str_app_cons (c : ascii) (s t : string) : String c s +:+ t = String c (s +:+ t).
Proof. reflexivity. Qed.

Lemma str_app_nil_r (s : string) : s +:+ "" = s.
Proof.
  induction s as [|c s IH]; [reflexivity|]. rewrite str_app_cons, IH. reflexivity.
Qed.

Lemma str_app_assoc (a b c : string) : (a +:+ b) +:+ c = a +:+ (b +:+ c).
Proof.
  induction a as [|x a IH]; [reflexivity|]. rewrite !str_app_cons, IH. reflexivity.
Qed.

Lemma contains_step (p : string) (c : ascii) (s : string) :
  Py.contains p (String c s) = Py.startswith p (String c s) || Py.contains p s.
Proof. reflexivity. Qed.

Lemma startswith_app (p s : string) : Py.startswith p (p +:+ s) = true.
Proof.
  induction p as [|a p IH]; [reflexivity|].
  rewrite str_app_cons. simpl. rewrite Ascii.eqb_refl. exact IH.
Qed.

Lemma contains_app (p a b : string) : Py.contains p (a +:+ p +:+ b) = true.
Proof.
  induction a as [|x a IH].
  - change ("" +:+ p +:+ b) with (p +:+ b).
    destruct (p +:+ b) eqn:E; unfold Py.contains; fold Py.contains;
      rewrite <- E, startswith_app; reflexivity.
  - change (String x a +:+ p +:+ b) with (String x (a +:+ p +:+ b)).
    rewrite contains_step, IH. apply orb_true_r.
Qed.

(** A text without the first character of [p] does not contain [p]. *)
Lemma contains_first_char (a : ascii) (p s : string) :
  Py.has_char a s = false -> Py.contains (String a p) s = false.
Proof.
  induction s as [|c s IH]; intros H; [reflexivity|].
  simpl in H. apply orb_false_elim in H as [Hc Hs].
  rewrite contains_step, (IH Hs). simpl. rewrite Hc. reflexivity.
Qed.

(** A text that does not contain the separator is one piece. *)
Lemma split_loop_no_sep (sep : string) (s : string) : forall cur,
  Py.contains sep s = false -> PyMore.split_loop sep 0 cur s = [cur +:+ s].
Proof.
  induction s as [|c s IH]; intros cur H.
  - simpl. rewrite str_app_nil_r. reflexivity.
  - rewrite contains_step in H. apply orb_false_elim in H as [Hp Hs].
    unfold PyMore.split_loop; fold PyMore.split_loop. rewrite Hp.
    rewrite (IH _ Hs), str_app_assoc. reflexivity.
Qed.

(** The characters of a separator that was found are skipped. *)
Lemma split_loop_skip (sep pre s : string) (cur : string) :
  PyMore.split_loop sep (String.length pre) cur (pre +:+ s) =
  PyMore.split_loop sep 0 cur s.
Proof.
  induction pre as [|c pre IH]; [reflexivity|].
  rewrite str_app_cons. simpl. exact IH.
Qed.

(** A prefix without the first character of the separator stays in the
    piece being read. *)
Lemma split_loop_prefix (a : ascii) (p pre s : string) : forall cur,
  Py.has_char a pre = false ->
  PyMore.split_loop (String a p) 0 cur (pre +:+ s) =
  PyMore.split_loop (String a p) 0 (cur +:+ pre) s.
Proof.
  induction pre as [|c pre IH]; intros cur H.
  - simpl. rewrite str_app_nil_r. reflexivity.
  - simpl in H. apply orb_false_elim in H as [Hc Hs].
    change (String c pre +:+ s) with (String c (pre +:+ s)).
    unfold PyMore.split_loop; fold PyMore.split_loop.
    simpl Py.startswith. rewrite Hc. simpl.
    rewrite (IH _ Hs), str_app_assoc. reflexivity.
Qed.

(** The URL that carries a token loses it. *)
Lemma clean_url_carried (old rest : string) :
  Py.has_char "@" old = false ->
  Py.has_char "@" rest = false ->
  clean_url ("https://" +:+ old +:+ "@github.com/" +:+ rest) =
    Some ("https://github.com/" +:+ rest).
Proof.
  intros Ho Hr. unfold clean_url.
  assert (E : Py.contains "@github.com" ("https://" +:+ old +:+ "@github.com/" +:+ rest)
              = true).
  { rewrite <- str_app_assoc.
    change ("@github.com/" +:+ rest) with ("@github.com" +:+ ("/" +:+ rest)).
    apply contains_app. }
  rewrite E. unfold PyMore.split_str.
  rewrite <- str_app_assoc.
  rewrite split_loop_prefix by (simpl; exact Ho).
  change ("@github.com/" +:+ rest) with (String "@" ("github.com/" +:+ rest)).
  unfold PyMore.split_loop; fold PyMore.split_loop.
  change (String "@" ("github.com/" +:+ rest)) with ("@github.com/" +:+ rest).
  rewrite startswith_app.
  change (String.length "@github.com/" - 1) with (String.length "github.com/").
  rewrite split_loop_skip.
  rewrite split_loop_no_sep by (apply contains_first_char; exact Hr).
  reflexivity.
Qed.

(** A URL without [@] is taken as it is. *)
Lemma clean_url_plain (rest : string) :
  Py.has_char "@" rest = false ->
  clean_url ("https://github.com/" +:+ rest) = Some ("https://github.com/" +:+ rest).
Proof.
  intros Hr. unfold clean_url.
  rewrite contains_first_char; [reflexivity|]. simpl. exact Hr.
Qed.

(** The token goes in front of the host. *)
Lemma url_with_token_prefix (token rest : string) :
  Py.contains "https://github.com/" rest = false ->
  url_with_token token ("https://github.com/" +:+ rest) =
    "https://" +:+ token +:+ "@github.com/" +:+ rest.
Proof.
  intros Hr. unfold url_with_token, PyMore.replace, PyMore.split_str.
  change ("https://github.com/" +:+ rest)
    with (String "h" ("ttps://github.com/" +:+ rest)).
  unfold PyMore.split_loop; fold PyMore.split_loop.
  change (String "h" ("ttps://github.com/" +:+ rest))
    with ("https://github.com/" +:+ rest).
  rewrite startswith_app.
  change (String.length "https://github.com/" - 1)
    with (String.length "ttps://github.com/").
  rewrite split_loop_skip, (split_loop_no_sep _ _ _ Hr).
  simpl Py.join. rewrite !str_app_assoc. reflexivity.
Qed.

Section Credentials.

Variable git : list spawn -> string -> list string -> spawn_outcome.

(** X25.  With a token configured and a project selected,
    [configure_git_credentials] rewrites an HTTPS remote of GitHub so that
    it carries the configured token, whether the URL carried none or
    another one before: the old token is dropped, not kept beside the new
    one. *)
Theorem credentials_token_put_in (w : world) (repo token : string)
    (r : CompletedProcess) (carried : option string) (rest : string) :
  current_repo w = Some repo ->
  Py.nonempty repo = true ->
  config w !! "github_token" = Some (PyStr token) ->
  Py.nonempty token = true ->
  let unset := [(repo, ["git"; "config"; "--unset"; "credential.helper"]);
                (repo, ["git"; "config"; "--unset";
                        "credential.https://github.com.username"])] in
  let query := (repo, ["git"; "remote"; "get-url"; "origin"]) in
  git (spawned w ++ unset) repo (snd query) = Completed r ->
  Py.strip (stdout r) =
    match carried with
    | Some old => "https://" +:+ old +:+ "@github.com/" +:+ rest
    | None => "https://github.com/" +:+ rest
    end ->
  from_option (Py.has_char "@") false carried = false ->
  Py.has_char "@" rest = false ->
  Py.contains "https://github.com/" rest = false ->
  spawned (snd (configure_git_credentials git w)) =
    spawned w ++ unset ++
    [query;
     (repo, ["git"; "remote"; "set-url"; "origin";
             "https://" +:+ token +:+ "@github.com/" +:+ rest])].
Proof.
  intros H Hrepo Htoken Hne unset query Hq Hurl Hold Hrest Hfree.
  unfold unset, query in *. clear unset query. simpl snd in *.
  assert (Hclean : clean_url (Py.strip (stdout r)) = Some ("https://github.com/" +:+ rest)).
  { rewrite Hurl. destruct carried as [old|]; simpl in Hold.
    - apply clean_url_carried; assumption.
    - apply clean_url_plain; assumption. }
  assert (Hout : Py.nonempty (Py.strip (stdout r)) = true).
  { rewrite Hurl. destruct carried; reflexivity. }
  unfold configure_git_credentials.
  rewrite (bind_ok get _ w w w eq_refl).
  unfold config_truthy, config_value. rewrite Htoken, H.
  cbn [pyval_truthy from_option default pyval_str]. rewrite Hne, Hrepo.
  cbn [negb orb].
  do 3 (erewrite (bind_ok (run_git git _ _ _))
          by (apply run_git_eval; first [exact H|reflexivity]);
        cbn [current_repo config disk spawned console stdin]).
  rewrite <- app_assoc. cbn [app].
  match goal with
  | |- context [git ?h repo ?a] =>
      replace (git h repo a) with (Completed r) by (symmetry; exact Hq)
  end.
  cbn [answer has_output]. rewrite Hout, Hclean.
  rewrite startswith_app, url_with_token_prefix by exact Hfree.
  erewrite (bind_ok (run_git git _ _ _)) by (apply run_git_eval; reflexivity).
  unfold print, modify, add_line.
  cbn [snd current_repo config disk spawned console stdin].
  rewrite <- !app_assoc. reflexivity.
Qed.

(** X26.  A remote that names the host after an [@] without the slash
    that the code splits at, as every SSH remote [git@github.com:...]
    does, is left as it is: no [set-url] is spawned, and the function ends
    on the message of the [IndexError] it has caught. *)
Theorem credentials_ssh_remote (w : world) (repo token : string)
    (r : CompletedProcess) :
  current_repo w = Some repo ->
  Py.nonempty repo = true ->
  config w !! "github_token" = Some (PyStr token) ->
  Py.nonempty token = true ->
  let unset := [(repo, ["git"; "config"; "--unset"; "credential.helper"]);
                (repo, ["git"; "config"; "--unset";
                        "credential.https://github.com.username"])] in
  let query := (repo, ["git"; "remote"; "get-url"; "origin"]) in
  git (spawned w ++ unset) repo (snd query) = Completed r ->
  Py.nonempty (Py.strip (stdout r)) = true ->
  Py.contains "@github.com" (Py.strip (stdout r)) = true ->
  Py.contains "@github.com/" (Py.strip (stdout r)) = false ->
  let w' := snd (configure_git_credentials git w) in
  spawned w' = spawned w ++ unset ++ [query] /\
  last (console w') =
    Some "⚠️ Erro ao configurar credenciais: list index out of range".
Proof.
  intros H Hrepo Htoken Hne unset query Hq Hout Hat Hslash w'.
  unfold w', unset, query in *. clear w' unset query. simpl snd in *.
  assert (Hclean : clean_url (Py.strip (stdout r)) = None).
  { unfold clean_url, PyMore.split_str. rewrite Hat.
    rewrite (split_loop_no_sep _ _ _ Hslash). reflexivity. }
  unfold configure_git_credentials.
  rewrite (bind_ok get _ w w w eq_refl).
  unfold config_truthy, config_value. rewrite Htoken, H.
  cbn [pyval_truthy from_option default pyval_str]. rewrite Hne, Hrepo.
  cbn [negb orb].
  do 3 (erewrite (bind_ok (run_git git _ _ _))
          by (apply run_git_eval; first [exact H|reflexivity]);
        cbn [current_repo config disk spawned console stdin]).
  rewrite <- app_assoc. cbn [app].
  match goal with
  | |- context [git ?h repo ?a] =>
      replace (git h repo a) with (Completed r) by (symmetry; exact Hq)
  end.
  cbn [answer has_output]. rewrite Hout, Hclean.
  unfold print, modify, add_line.
  cbn [snd current_repo config disk spawned console stdin].
  split; [rewrite <- !app_assoc; reflexivity|apply last_snoc].
Qed.

End Credentials.

(** ** The further properties at concrete sessions *)

Lemma quick_push_nothing_to_send_witness :
  let log := ("repos/demo", ["git"; "log"; "--oneline"; "origin/main..main"]) in
  current_repo demo_world = Some "repos/demo" /\
  has_output (answer true (git_clean [] "repos/demo" (snd log))) = false /\
  quick_push git_clean (Some "main") demo_world =
    (Ok tt,
     mkWorld (Some "repos/demo") default_config no_storage [log]
             ["ℹ️ Nenhum commit novo para enviar em 'main'."] []).
Proof.
  cbv zeta. do 2 (split; [reflexivity|]).
  exact (quick_push_nothing_to_send git_clean demo_world "repos/demo" "main"
           eq_refl eq_refl).
Defined.

Lemma quick_push_tracked_branch_witness :
  let log := ("repos/demo", ["git"; "log"; "--oneline"; "origin/main..main"]) in
  let listing := ("repos/demo", ["git"; "branch"; "-vv"]) in
  let push := ("repos/demo", ["git"; "push"; "origin"; "main"]) in
  current_repo demo_world = Some "repos/demo" /\
  git_tracked [] "repos/demo" (snd log) = Completed (mkProc 0 "abc1234 fix login" "") /\
  git_tracked [log] "repos/demo" (snd listing) =
    Completed (mkProc 0 "* main abc1234 [origin/main] fix login" "") /\
  Py.contains "[origin/main]" "* main abc1234 [origin/main] fix login" = true /\
  spawned (snd (quick_push git_tracked (Some "main") demo_world)) = [log; listing; push].
Proof.
  cbv zeta. do 4 (split; [reflexivity|]).
  exact (quick_push_tracked_branch git_tracked demo_world "repos/demo" "main"
           (mkProc 0 "abc1234 fix login" "")
           (mkProc 0 "* main abc1234 [origin/main] fix login" "")
           eq_refl eq_refl eq_refl eq_refl eq_refl).
Defined.

Lemma quick_push_current_branch_witness :
  current_repo demo_world = Some "repos/demo" /\
  quick_push git_no_upstream None demo_world =
    quick_push git_no_upstream (Some "main")
      (mkWorld (Some "repos/demo") default_config no_storage
               [("repos/demo", ["git"; "branch"; "--show-current"])] [] []).
Proof.
  split; [reflexivity|].
  exact (quick_push_current_branch git_no_upstream demo_world "repos/demo" eq_refl).
Defined.

Lemma quick_commit_stops_when_add_fails_witness :
  current_repo demo_world = Some "repos/demo" /\
  succeeded (git_stalled [] "repos/demo" ["git"; "add"; "."]) = false /\
  quick_commit git_stalled "fix login" demo_world =
    (Ok tt,
     mkWorld (Some "repos/demo") default_config no_storage
             [("repos/demo", ["git"; "add"; "."])]
             ["📝 Adicionando arquivos..."; "⏱️ Comando git expirou (timeout 30s)"] []).
Proof.
  do 2 (split; [reflexivity|]).
  exact (quick_commit_stops_when_add_fails git_stalled "fix login" demo_world
           "repos/demo" eq_refl eq_refl).
Defined.

Lemma quick_commit_asks_identity_witness :
  current_repo asking_world = Some "repos/demo" /\
  succeeded (git_clean (spawned asking_world) "repos/demo" ["git"; "add"; "."]) = true /\
  config_truthy asking_world "user.name" && config_truthy asking_world "user.email"
    = false /\
  stdin asking_world = [" Ana "; "ana@example.org"] /\
  quick_commit git_clean "fix login" asking_world =
    (save_config ;; commit_with_identity git_clean "fix login")
      (mkWorld (Some "repos/demo")
               (<["user.email" := PyStr "ana@example.org"]>
                  (<["user.name" := PyStr "Ana"]> default_config))
               no_storage
               [("repos/demo", ["git"; "add"; "."])]
               ["📝 Adicionando arquivos...";
                "⚠️ Identidade Git não configurada. Configurando agora...";
                "👤 Digite seu nome para commits Git: ";
                "📧 Digite seu e-mail para commits Git: "] []).
Proof.
  do 4 (split; [reflexivity|]).
  exact (quick_commit_asks_identity git_clean "fix login" asking_world "repos/demo"
           " Ana " "ana@example.org" [] eq_refl eq_refl eq_refl eq_refl).
Defined.

Lemma set_config_stores_witness :
  config fresh_world !! "auto_fetch" = Some (PyBool true) /\
  let w' := snd (set_config "auto_fetch" "No" fresh_world) in
  config w' = <["auto_fetch" := PyBool false]> (config fresh_world) /\
  dom (config w') = dom (config fresh_world) /\
  (forall k, k <> "auto_fetch" -> config w' !! k = config fresh_world !! k) /\
  spawned w' = spawned fresh_world /\
  fst (set_config "auto_fetch" "No" fresh_world) = Ok tt /\
  saved (disk w') = Json (config w') /\
  console w' = console fresh_world ++ ["✅ auto_fetch = False"].
Proof.
  split; [reflexivity|].
  exact (set_config_stores "auto_fetch" "No" fresh_world (PyBool true) eq_refl).
Defined.

Lemma commit_needs_confirmation_witness :
  stdin staging_world = ["1"; "s"] /\
  confirm_and_commit git_clean "fix login" staging_world =
    (Ok tt,
     mkWorld (Some "repos/demo") (config staging_world) no_storage []
             ["🤖 Commit sugerido: fix login"; "Confirma este commit? (s/N): ";
              "❌ Commit cancelado."] ["s"]).
Proof.
  split; [reflexivity|].
  exact (commit_needs_confirmation git_clean "fix login" "1" ["s"] staging_world eq_refl).
Defined.

Lemma smart_commit_ordinal_witness :
  let analysed := analyze_changes git_two_changes staging_world in
  let ci := categorize ["M  a.py"; "?? debug.log"] in
  let generated :=
    generate_commit_suggestions git_two_changes no_match (Some ci) (snd analysed) in
  let suggestions := ["🔄 Update: Pequenas atualizações (2 arquivos)"] in
  analysed = (Ok (Some ci), snd analysed) /\
  generated = (Ok suggestions, snd generated) /\
  smart_commit git_two_changes no_match ascii_only (Some (OrdStr "2")) None staging_world =
    (Ok tt, add_line "❌ Número inválido. Use 1-1" (snd generated)).
Proof.
  cbv zeta.
  assert (Ha : analyze_changes git_two_changes staging_world =
               (Ok (Some (categorize ["M  a.py"; "?? debug.log"])),
                snd (analyze_changes git_two_changes staging_world)))
    by (vm_compute; reflexivity).
  assert (Hg : generate_commit_suggestions git_two_changes no_match
                 (Some (categorize ["M  a.py"; "?? debug.log"]))
                 (snd (analyze_changes git_two_changes staging_world)) =
               (Ok ["🔄 Update: Pequenas atualizações (2 arquivos)"],
                snd (generate_commit_suggestions git_two_changes no_match
                       (Some (categorize ["M  a.py"; "?? debug.log"]))
                       (snd (analyze_changes git_two_changes staging_world)))))
    by (vm_compute; reflexivity).
  split; [exact Ha|]. split; [exact Hg|].
  exact (smart_commit_ordinal git_two_changes no_match ascii_only staging_world _ _ _ _
           (Some (OrdStr "2")) Ha Hg).
Defined.

Lemma quick_sync_pushes_if_needed_witness :
  let show := ("repos/demo", ["git"; "branch"; "--show-current"]) in
  let pull := ("repos/demo", ["git"; "pull"; "origin"; "main"]) in
  let log := ("repos/demo", ["git"; "log"; "--oneline"; "@{u}..HEAD"]) in
  let push := ("repos/demo", ["git"; "push"; "origin"; "main"]) in
  current_repo demo_world = Some "repos/demo" /\
  git_one_ahead [] "repos/demo" (snd show) =
    Completed (mkProc 0 ("main" +:+ String Py.newline "") "") /\
  succeeded (git_one_ahead [show] "repos/demo" (snd pull)) = true /\
  spawned (snd (quick_sync git_one_ahead demo_world)) = [show; pull; log; push].
Proof.
  cbv zeta. do 3 (split; [reflexivity|]).
  exact (quick_sync_pushes_if_needed git_one_ahead demo_world "repos/demo"
           (mkProc 0 ("main" +:+ String Py.newline "") "") eq_refl eq_refl eq_refl).
Defined.

Lemma quick_pull_default_branch_witness :
  current_repo demo_world = Some "repos/demo" /\
  default (PyStr "main") (config demo_world !! "default_branch") = PyStr "main" /\
  spawned (snd (quick_pull git_clean None demo_world)) =
    [("repos/demo", ["git"; "pull"; "origin"; "main"])].
Proof.
  do 2 (split; [reflexivity|]).
  exact (quick_pull_default_branch git_clean demo_world "repos/demo" "main"
           eq_refl eq_refl).
Defined.

Lemma auto_stage_nothing_suitable_witness :
  let out := mkProc 0 ("?? debug.log" +:+ String Py.newline "?? node_modules/x.js") "" in
  current_repo demo_world = Some "repos/demo" /\
  git_only_ignored [] "repos/demo" ["git"; "status"; "--porcelain"] = Completed out /\
  Py.nonempty (Py.strip (stdout out)) = true /\
  Forall (fun line => is_ignored (Py.drop 3 line) = true)
         (Py.split Py.newline (Py.strip (stdout out))) /\
  auto_stage_and_suggest git_only_ignored no_match ascii_only demo_world =
    (Ok tt,
     mkWorld (Some "repos/demo") default_config no_storage
             [("repos/demo", ["git"; "status"; "--porcelain"])]
             ["📝 Adicionando arquivos modificados...";
              "⚠️ Nenhum arquivo adequado para adicionar encontrado."] []).
Proof.
  cbv zeta.
  assert (Hall : Forall (fun line => is_ignored (Py.drop 3 line) = true)
                   (Py.split Py.newline
                      (Py.strip ("?? debug.log" +:+ String Py.newline
                                 "?? node_modules/x.js"))))
    by (vm_compute; repeat constructor).
  do 3 (split; [reflexivity|]). split; [exact Hall|].
  exact (auto_stage_nothing_suitable git_only_ignored no_match ascii_only demo_world
           "repos/demo"
           (mkProc 0 ("?? debug.log" +:+ String Py.newline "?? node_modules/x.js") "")
           eq_refl eq_refl eq_refl Hall).
Defined.

Lemma merge_branch_refuses_pending_witness :
  let show := ("repos/demo", ["git"; "branch"; "--show-current"]) in
  let status := ("repos/demo", ["git"; "status"; "--porcelain"]) in
  current_repo demo_world = Some "repos/demo" /\
  has_output (answer true (git_pending_on_main [] "repos/demo" (snd show))) = true /\
  git_pending_on_main [show] "repos/demo" (snd status) = Completed (mkProc 0 " M a.py" "") /\
  Py.nonempty (Py.strip " M a.py") = true /\
  merge_branch git_pending_on_main "feature" None demo_world =
    (Ok Returned,
     mkWorld (Some "repos/demo") default_config no_storage [show; status]
             ["⚠️ Existem mudanças pendentes. Faça commit ou stash antes do merge."]
             []).
Proof.
  cbv zeta. do 4 (split; [reflexivity|]).
  exact (merge_branch_refuses_pending git_pending_on_main "feature" None demo_world
           "repos/demo" (mkProc 0 " M a.py" "") eq_refl (fun _ => eq_refl) eq_refl eq_refl).
Defined.

Lemma merge_branch_checkout_then_merge_witness :
  let status := ("repos/demo", ["git"; "status"; "--porcelain"]) in
  let show := ("repos/demo", ["git"; "branch"; "--show-current"]) in
  let checkout := ("repos/demo", ["git"; "checkout"; "release"]) in
  let merge := ("repos/demo", ["git"; "merge"; "feature"]) in
  let result := merge_branch git_one_ahead "feature" (Some "release") demo_world in
  current_repo demo_world = Some "repos/demo" /\
  has_output (answer true (git_one_ahead [] "repos/demo" (snd status))) = false /\
  fst result = Ok Returned /\
  spawned (snd result) = [status; show; checkout; merge].
Proof.
  cbv zeta. do 2 (split; [reflexivity|]).
  exact (merge_branch_checkout_then_merge git_one_ahead "feature" "release" demo_world
           "repos/demo" eq_refl eq_refl).
Defined.

Lemma add_file_from_branch_steps_witness :
  current_repo demo_world = Some "repos/demo" /\
  spawned (snd (add_file_from_branch git_one_ahead "feature" "a.py" demo_world)) =
    [("repos/demo", ["git"; "branch"; "-a"]);
     ("repos/demo", ["git"; "checkout"; "feature"; "--"; "a.py"]);
     ("repos/demo", ["git"; "add"; "a.py"])].
Proof.
  split; [reflexivity|].
  exact (add_file_from_branch_steps git_one_ahead "feature" "a.py" demo_world
           "repos/demo" eq_refl).
Defined.

Lemma workflow_queries_witness :
  current_repo demo_world = Some "repos/demo" /\
  spawned (snd (workflow_suggestions git_clean demo_world)) =
    map (fun args => ("repos/demo", "git" :: args))
        [["diff"; "--name-only"];
         ["diff"; "--cached"; "--name-only"];
         ["ls-files"; "--others"; "--exclude-standard"];
         ["log"; "--oneline"; "@{u}..HEAD"];
         ["branch"; "--show-current"];
         ["fetch"];
         ["log"; "--oneline"; "HEAD..@{u}"]].
Proof.
  split; [reflexivity|].
  exact (workflow_queries git_clean demo_world "repos/demo" eq_refl).
Defined.

Lemma change_project_queries_witness :
  String.eqb "demo" ".." = false /\
  PyMore.path_join "repos" "demo" = "repos/demo" /\
  config_truthy fresh_world "github_token" = false /\
  spawned (snd (change_project git_clean "repos" (fun _ => true) "demo" fresh_world)) =
    [("repos/demo", ["git"; "fetch"]);
     ("repos/demo", ["git"; "branch"; "--show-current"]);
     ("repos/demo", ["git"; "status"; "--porcelain"]);
     ("repos/demo", ["git"; "status"; "-uno"])].
Proof.
  do 3 (split; [reflexivity|]).
  exact (change_project_queries git_clean "repos" (fun _ => true) "demo" fresh_world
           eq_refl eq_refl eq_refl).
Defined.

Lemma credentials_token_put_in_witness :
  let out := mkProc 0 ("https://ghp_old@github.com/ana/demo.git" +:+
                       String Py.newline "") "" in
  let unset := [("repos/demo", ["git"; "config"; "--unset"; "credential.helper"]);
                ("repos/demo", ["git"; "config"; "--unset";
                                "credential.https://github.com.username"])] in
  let query := ("repos/demo", ["git"; "remote"; "get-url"; "origin"]) in
  current_repo token_world = Some "repos/demo" /\
  config token_world !! "github_token" = Some (PyStr "ghp_new") /\
  git_remote_with_token unset "repos/demo" (snd query) = Completed out /\
  Py.strip (stdout out) = "https://" +:+ "ghp_old" +:+ "@github.com/" +:+ "ana/demo.git" /\
  Py.has_char "@" "ghp_old" = false /\
  Py.has_char "@" "ana/demo.git" = false /\
  Py.contains "https://github.com/" "ana/demo.git" = false /\
  spawned (snd (configure_git_credentials git_remote_with_token token_world)) =
    unset ++
    [query;
     ("repos/demo", ["git"; "remote"; "set-url"; "origin";
                     "https://ghp_new@github.com/ana/demo.git"])].
Proof.
  cbv zeta. do 7 (split; [reflexivity|]).
  exact (credentials_token_put_in git_remote_with_token token_world "repos/demo"
           "ghp_new"
           (mkProc 0 ("https://ghp_old@github.com/ana/demo.git" +:+
                      String Py.newline "") "")
           (Some "ghp_old") "ana/demo.git"
           eq_refl eq_refl eq_refl eq_refl eq_refl eq_refl eq_refl eq_refl eq_refl).
Defined.

Lemma credentials_ssh_remote_witness :
  let out := mkProc 0 ("git@github.com:ana/demo.git" +:+ String Py.newline "") "" in
  let unset := [("repos/demo", ["git"; "config"; "--unset"; "credential.helper"]);
                ("repos/demo", ["git"; "config"; "--unset";
                                "credential.https://github.com.username"])] in
  let query := ("repos/demo", ["git"; "remote"; "get-url"; "origin"]) in
  let w' := snd (configure_git_credentials git_remote_ssh token_world) in
  current_repo token_world = Some "repos/demo" /\
  config token_world !! "github_token" = Some (PyStr "ghp_new") /\
  git_remote_ssh unset "repos/demo" (snd query) = Completed out /\
  Py.contains "@github.com" (Py.strip (stdout out)) = true /\
  Py.contains "@github.com/" (Py.strip (stdout out)) = false /\
  spawned w' = unset ++ [query] /\
  last (console w') =
    Some "⚠️ Erro ao configurar credenciais: list index out of range".
Proof.
  cbv zeta. do 5 (split; [reflexivity|]).
  exact (credentials_ssh_remote git_remote_ssh token_world "repos/demo" "ghp_new"
           (mkProc 0 ("git@github.com:ana/demo.git" +:+ String Py.newline "") "")
           eq_refl eq_refl eq_refl eq_refl eq_refl eq_refl eq_refl eq_refl).
Defined.
